(** * q: DNS query assembly, transport selection and PTR enrichment

    A shallow embedding of [createQuery] and [newTransport] (resolver.go)
    and of [Entry.LoadPTRs] (package output), together with the parts of
    the Go standard library and of the miekg/dns library that these
    functions call.

    Conventions.
    - Go strings are byte strings: [string] with one [ascii] per byte.
    - Fixed-width integers are [Z] with the conversion written out
      ([uint16], [uint8]); bytes of addresses and payloads are [Z] in 0..255.
    - Go maps are [gmap]; a nil map or nil pointer is [None].
    - Logging, the random identifier generator, the PTR transport, fatal
      exits and panics are threaded through the monad [M]. *)

From Stdlib Require Import ZArith List String Ascii Bool Lia DecimalString.
From stdpp Require Import base option list gmap strings.

Local Open Scope string_scope.
Local Open Scope Z_scope.

(** ** Go standard library: package strings *)

Module GoStrings.

(** [strings.Cut(s, string(sep))]: the text before and after the first
    occurrence of a one-byte separator, or [None] when it does not occur. *)
Fixpoint Cut (sep : ascii) (s : string) : option (string * string) :=
  match s with
  | EmptyString => None
  | String c rest =>
      if Ascii.eqb c sep then Some (EmptyString, rest)
      else match Cut sep rest with
           | Some (before, after) => Some (String c before, after)
           | None => None
           end
  end.

(** [strings.SplitN(s, string(sep), 2)]: at most two pieces, cut at the
    first separator; a string without separator comes back whole. *)
Definition SplitN2 (s : string) (sep : ascii) : list string :=
  match Cut sep s with
  | Some (before, after) => [before; after]
  | None => [s]
  end.

(** The table [asciiSpace]: tab, line feed, vertical tab, form feed,
    carriage return and space. *)
Definition asciiSpace (c : ascii) : bool :=
  let n := nat_of_ascii c in
  ((n =? 9) || (n =? 10) || (n =? 11) || (n =? 12) || (n =? 13) || (n =? 32))%nat.

(** UTF-8 encodings of the white space runes above U+007F that
    [unicode.IsSpace] accepts: U+0085 and U+00A0 (two bytes), U+1680,
    U+2000..U+200A, U+2028, U+2029, U+202F, U+205F and U+3000 (three). *)
Definition isSpace2 (a b : ascii) : bool :=
  let x := nat_of_ascii a in
  let y := nat_of_ascii b in
  ((x =? 194) && ((y =? 133) || (y =? 160)))%nat.

Definition isSpace3 (a b c : ascii) : bool :=
  let x := nat_of_ascii a in
  let y := nat_of_ascii b in
  let z := nat_of_ascii c in
  (((x =? 225) && (y =? 154) && (z =? 128))
   || ((x =? 226) && (y =? 128)
       && (((128 <=? z) && (z <=? 138)) || (z =? 168) || (z =? 169) || (z =? 175)))
   || ((x =? 226) && (y =? 129) && (z =? 159))
   || ((x =? 227) && (y =? 128) && (z =? 128)))%nat.

(** [strings.TrimLeftFunc(s, unicode.IsSpace)] on the bytes of [s]. *)
Fixpoint trimLeft (s : list ascii) : list ascii :=
  match s with
  | a :: r1 =>
      if asciiSpace a then trimLeft r1
      else match r1 with
           | b :: r2 =>
               if isSpace2 a b then trimLeft r2
               else match r2 with
                    | c :: r3 => if isSpace3 a b c then trimLeft r3 else s
                    | [] => s
                    end
           | [] => s
           end
  | [] => []
  end.

(** [strings.TrimRightFunc(s, unicode.IsSpace)], on the reversed bytes:
    the head of the list is the last byte of the string. *)
Fixpoint trimRightRev (s : list ascii) : list ascii :=
  match s with
  | c :: r1 =>
      if asciiSpace c then trimRightRev r1
      else match r1 with
           | b :: r2 =>
               if isSpace2 b c then trimRightRev r2
               else match r2 with
                    | a :: r3 => if isSpace3 a b c then trimRightRev r3 else s
                    | [] => s
                    end
           | [] => s
           end
  | [] => []
  end.

(** [strings.TrimSpace]: all leading and trailing white space removed. *)
Definition TrimSpace (s : string) : string :=
  string_of_list_ascii
    (rev (trimRightRev (rev (trimLeft (list_ascii_of_string s))))).

(** [strings.HasPrefix]. *)
Fixpoint HasPrefix (s prefix : string) : bool :=
  match prefix, s with
  | EmptyString, _ => true
  | String p prefix', String c s' => Ascii.eqb c p && HasPrefix s' prefix'
  | String _ _, EmptyString => false
  end.

(** [s != ""]. *)
Definition nonEmpty (s : string) : bool :=
  match s with EmptyString => false | String _ _ => true end.

End GoStrings.

(** ** Go standard library: package net *)

Module Net.

(** [net.IP] and [net.IPMask] are byte slices; nil is the empty list. *)
Definition IP := list Z.
Definition IPMask := list Z.

Record IPNet := { IPNet_IP : IP; Mask : IPMask }.

Definition IPv4len : nat := 4.
Definition IPv6len : nat := 16.

(** [ip.To4()]: the 4-byte form of an IPv4 address, given either as
    4 bytes or as 16 bytes in the IPv4-in-IPv6 form (ten zero bytes,
    [0xff 0xff], four address bytes); [None] is Go's nil. *)
Definition To4 (ip : IP) : option IP :=
  if (length ip =? IPv4len)%nat then Some ip
  else if (length ip =? IPv6len)%nat
          && forallb (Z.eqb 0) (firstn 10 ip)
          && (nth 10 ip 0 =? 255) && (nth 11 ip 0 =? 255)
       then Some (skipn 12 ip)
       else None.

(** The inner loop of [simpleMaskLength]: the leading one bits of a byte
    that is not [0xff], and what is left of the byte once they are
    shifted out. *)
Fixpoint leadingOnes (fuel : nat) (v n : Z) : Z * Z :=
  match fuel with
  | O => (v, n)
  | S fuel' =>
      if Z.land v 128 =? 0 then (v, n)
      else leadingOnes fuel' (Z.land (Z.shiftl v 1) 255) (n + 1)
  end.

(** [simpleMaskLength]: the number of leading ones of a mask made of
    ones followed by zeros, and -1 for any other mask. *)
Fixpoint simpleMaskLength (mask : IPMask) (n : Z) : Z :=
  match mask with
  | [] => n
  | v :: rest =>
      if v =? 255 then simpleMaskLength rest (n + 8)
      else
        let '(v', n') := leadingOnes 8 v n in
        if negb (v' =? 0) then -1
        else if forallb (Z.eqb 0) rest then n' else -1
  end.

(** [m.Size()]: the number of leading ones and the number of bits of
    the mask, or (0, 0) when the mask is not in canonical form. *)
Definition Size (m : IPMask) : Z * Z :=
  let ones := simpleMaskLength m 0 in
  if ones =? -1 then (0, 0) else (ones, Z.of_nat (length m) * 8).

(** [net.CIDRMask(ones, bits)] for [0 <= ones <= bits]. *)
Fixpoint CIDRMask_bytes (len : nat) (n : Z) : IPMask :=
  match len with
  | O => []
  | S len' =>
      if 8 <=? n then 255 :: CIDRMask_bytes len' (n - 8)
      else Z.land (Z.lnot (Z.shiftr 255 n)) 255 :: CIDRMask_bytes len' 0
  end.

Definition CIDRMask (ones bits : Z) : IPMask :=
  if (bits =? 32) || (bits =? 128) then
    if (ones <? 0) || (bits <? ones) then []
    else CIDRMask_bytes (Z.to_nat (bits / 8)) ones
  else [].

(** [ip.Mask(mask)] for a mask and an address of the same length. *)
Definition Mask_apply (ip : IP) (mask : IPMask) : IP :=
  map (fun '(b, m) => Z.land b m) (combine ip mask).

End Net.

(** ** Go conversions between integer types *)

Definition uint16 (z : Z) : Z := z mod 65536.
Definition uint8 (z : Z) : Z := z mod 256.

(** ** The miekg/dns library: messages, resource records, EDNS0 *)

Module Dns.
Import Net.

Definition TypeA : Z := 1.
Definition TypePTR : Z := 12.
Definition TypeAAAA : Z := 28.
Definition TypeOPT : Z := 41.
Definition ClassINET : Z := 1.

Definition EDNS0NSID : Z := 3.
Definition EDNS0SUBNET : Z := 8.
Definition EDNS0COOKIE : Z := 10.
Definition EDNS0PADDING : Z := 12.

(** The DNSSEC-OK bit of the OPT record's TTL field, [1 << 15]. *)
Definition _DO : Z := Z.shiftl 1 15.

Definition headerSize : Z := 12.

Record EDNS0_NSID := { NSID_Code : Z; Nsid : string }.
Record EDNS0_PADDING := { Padding : list Z }.
Record EDNS0_SUBNET := {
  SUBNET_Code : Z;
  Family : Z;
  SourceNetmask : Z;
  SourceScope : Z;
  Address : IP
}.
Record EDNS0_COOKIE := { COOKIE_Code : Z; Cookie : string }.

(** The values of the interface [dns.EDNS0] that createQuery builds. *)
Inductive EDNS0 :=
| OptNSID (o : EDNS0_NSID)
| OptPADDING (o : EDNS0_PADDING)
| OptSUBNET (o : EDNS0_SUBNET)
| OptCOOKIE (o : EDNS0_COOKIE).

Record RR_Header := {
  Name : string;
  Rrtype : Z;
  Class : Z;
  Ttl : Z;
  Rdlength : Z
}.

(** [dns.OPT], the EDNS0 pseudo record. *)
Record OPT := { Hdr : RR_Header; Option : list EDNS0 }.

(** The dynamic type of a non-nil [RR] value and its data.  The header's
    [Rrtype] is a separate field: a type assertion looks at the dynamic
    type, a [switch] on [Header().Rrtype] at the header.  CNAME and
    RFC3597 (a record of a type the library does not know) stand for the
    record types that the code does not name. *)
Inductive RData :=
| RD_A (A : IP)
| RD_AAAA (AAAA : IP)
| RD_PTR (Ptr : string)
| RD_CNAME (Target : string)
| RD_OPT (Option : list EDNS0)
| RD_RFC3597 (Rdata : string).

Record RR := { Header : RR_Header; Data : RData }.

Definition RR_of_OPT (o : OPT) : RR := {| Header := Hdr o; Data := RD_OPT (Option o) |}.

Record Question := { Q_Name : string; Qtype : Z; Qclass : Z }.

(** [dns.Msg]: the header fields of [MsgHdr], then the sections. *)
Record Msg := {
  Id : Z;
  Response : bool;
  Opcode : Z;
  Authoritative : bool;
  Truncated : bool;
  RecursionDesired : bool;
  RecursionAvailable : bool;
  Zero : bool;
  AuthenticatedData : bool;
  CheckingDisabled : bool;
  Rcode : Z;
  Compress : bool;
  Questions : list Question;
  Answer : list RR;
  Ns : list RR;
  Extra : list RR
}.

(** The zero value [dns.Msg{}]. *)
Definition Msg_zero : Msg :=
  {| Id := 0; Response := false; Opcode := 0; Authoritative := false;
     Truncated := false; RecursionDesired := false;
     RecursionAvailable := false; Zero := false;
     AuthenticatedData := false; CheckingDisabled := false; Rcode := 0;
     Compress := false; Questions := []; Answer := []; Ns := []; Extra := [] |}.

(** Assignments to single fields of a message. *)
Definition set_Id (v : Z) (m : Msg) : Msg :=
  {| Id := v; Response := Response m; Opcode := Opcode m;
     Authoritative := Authoritative m; Truncated := Truncated m;
     RecursionDesired := RecursionDesired m;
     RecursionAvailable := RecursionAvailable m; Zero := Zero m;
     AuthenticatedData := AuthenticatedData m;
     CheckingDisabled := CheckingDisabled m; Rcode := Rcode m;
     Compress := Compress m; Questions := Questions m; Answer := Answer m;
     Ns := Ns m; Extra := Extra m |}.

Definition set_Authoritative (v : bool) (m : Msg) : Msg :=
  {| Id := Id m; Response := Response m; Opcode := Opcode m;
     Authoritative := v; Truncated := Truncated m;
     RecursionDesired := RecursionDesired m;
     RecursionAvailable := RecursionAvailable m; Zero := Zero m;
     AuthenticatedData := AuthenticatedData m;
     CheckingDisabled := CheckingDisabled m; Rcode := Rcode m;
     Compress := Compress m; Questions := Questions m; Answer := Answer m;
     Ns := Ns m; Extra := Extra m |}.

Definition set_AuthenticatedData (v : bool) (m : Msg) : Msg :=
  {| Id := Id m; Response := Response m; Opcode := Opcode m;
     Authoritative := Authoritative m; Truncated := Truncated m;
     RecursionDesired := RecursionDesired m;
     RecursionAvailable := RecursionAvailable m; Zero := Zero m;
     AuthenticatedData := v;
     CheckingDisabled := CheckingDisabled m; Rcode := Rcode m;
     Compress := Compress m; Questions := Questions m; Answer := Answer m;
     Ns := Ns m; Extra := Extra m |}.

Definition set_CheckingDisabled (v : bool) (m : Msg) : Msg :=
  {| Id := Id m; Response := Response m; Opcode := Opcode m;
     Authoritative := Authoritative m; Truncated := Truncated m;
     RecursionDesired := RecursionDesired m;
     RecursionAvailable := RecursionAvailable m; Zero := Zero m;
     AuthenticatedData := AuthenticatedData m;
     CheckingDisabled := v; Rcode := Rcode m;
     Compress := Compress m; Questions := Questions m; Answer := Answer m;
     Ns := Ns m; Extra := Extra m |}.

Definition set_RecursionDesired (v : bool) (m : Msg) : Msg :=
  {| Id := Id m; Response := Response m; Opcode := Opcode m;
     Authoritative := Authoritative m; Truncated := Truncated m;
     RecursionDesired := v;
     RecursionAvailable := RecursionAvailable m; Zero := Zero m;
     AuthenticatedData := AuthenticatedData m;
     CheckingDisabled := CheckingDisabled m; Rcode := Rcode m;
     Compress := Compress m; Questions := Questions m; Answer := Answer m;
     Ns := Ns m; Extra := Extra m |}.

Definition set_RecursionAvailable (v : bool) (m : Msg) : Msg :=
  {| Id := Id m; Response := Response m; Opcode := Opcode m;
     Authoritative := Authoritative m; Truncated := Truncated m;
     RecursionDesired := RecursionDesired m;
     RecursionAvailable := v; Zero := Zero m;
     AuthenticatedData := AuthenticatedData m;
     CheckingDisabled := CheckingDisabled m; Rcode := Rcode m;
     Compress := Compress m; Questions := Questions m; Answer := Answer m;
     Ns := Ns m; Extra := Extra m |}.

Definition set_Zero (v : bool) (m : Msg) : Msg :=
  {| Id := Id m; Response := Response m; Opcode := Opcode m;
     Authoritative := Authoritative m; Truncated := Truncated m;
     RecursionDesired := RecursionDesired m;
     RecursionAvailable := RecursionAvailable m; Zero := v;
     AuthenticatedData := AuthenticatedData m;
     CheckingDisabled := CheckingDisabled m; Rcode := Rcode m;
     Compress := Compress m; Questions := Questions m; Answer := Answer m;
     Ns := Ns m; Extra := Extra m |}.

Definition set_Truncated (v : bool) (m : Msg) : Msg :=
  {| Id := Id m; Response := Response m; Opcode := Opcode m;
     Authoritative := Authoritative m; Truncated := v;
     RecursionDesired := RecursionDesired m;
     RecursionAvailable := RecursionAvailable m; Zero := Zero m;
     AuthenticatedData := AuthenticatedData m;
     CheckingDisabled := CheckingDisabled m; Rcode := Rcode m;
     Compress := Compress m; Questions := Questions m; Answer := Answer m;
     Ns := Ns m; Extra := Extra m |}.

Definition set_Questions (v : list Question) (m : Msg) : Msg :=
  {| Id := Id m; Response := Response m; Opcode := Opcode m;
     Authoritative := Authoritative m; Truncated := Truncated m;
     RecursionDesired := RecursionDesired m;
     RecursionAvailable := RecursionAvailable m; Zero := Zero m;
     AuthenticatedData := AuthenticatedData m;
     CheckingDisabled := CheckingDisabled m; Rcode := Rcode m;
     Compress := Compress m; Questions := v; Answer := Answer m;
     Ns := Ns m; Extra := Extra m |}.

Definition set_Extra (v : list RR) (m : Msg) : Msg :=
  {| Id := Id m; Response := Response m; Opcode := Opcode m;
     Authoritative := Authoritative m; Truncated := Truncated m;
     RecursionDesired := RecursionDesired m;
     RecursionAvailable := RecursionAvailable m; Zero := Zero m;
     AuthenticatedData := AuthenticatedData m;
     CheckingDisabled := CheckingDisabled m; Rcode := Rcode m;
     Compress := Compress m; Questions := Questions m; Answer := Answer m;
     Ns := Ns m; Extra := v |}.

(** [opt.SetDo()]: [rr.Hdr.Ttl |= _DO]. *)
Definition SetDo (o : OPT) : OPT :=
  {| Hdr := {| Name := Name (Hdr o); Rrtype := Rrtype (Hdr o);
               Class := Class (Hdr o); Ttl := Z.lor (Ttl (Hdr o)) _DO;
               Rdlength := Rdlength (Hdr o) |};
     Option := Option o |}.

(** [opt.Do()]: the DNSSEC-OK bit. *)
Definition Do (o : OPT) : bool := Z.testbit (Ttl (Hdr o)) 15.

(** [opt.UDPSize()]: the class field carries the advertised buffer size. *)
Definition UDPSize (o : OPT) : Z := Class (Hdr o).

(** [opt.Option = append(opt.Option, e)]. *)
Definition append_Option (o : OPT) (e : EDNS0) : OPT :=
  {| Hdr := Hdr o; Option := Option o ++ [e] |}.

Definition backslash : ascii := ascii_of_nat 92.
Definition dot : ascii := ascii_of_nat 46.

Definition isDigit (c : ascii) : bool :=
  let n := nat_of_ascii c in ((48 <=? n) && (n <=? 57))%nat.

(** [utf8.DecodeRuneInString], seen through its size: the number of
    bytes of the rune at the head of [s] (given as byte values), 1 for a
    byte that starts no valid encoding.  [startInfo] is the library's
    table of first bytes: the size of the encoding and the range of the
    second byte. *)
Definition isCont (b : nat) : bool := ((128 <=? b) && (b <=? 191))%nat.

Definition startInfo (b : nat) : option (nat * nat * nat) :=
  (if (194 <=? b) && (b <=? 223) then Some (2, 128, 191)
   else if b =? 224 then Some (3, 160, 191)
   else if (225 <=? b) && (b <=? 236) then Some (3, 128, 191)
   else if b =? 237 then Some (3, 128, 159)
   else if (238 <=? b) && (b <=? 239) then Some (3, 128, 191)
   else if b =? 240 then Some (4, 144, 191)
   else if (241 <=? b) && (b <=? 243) then Some (4, 128, 191)
   else if b =? 244 then Some (4, 128, 143)
   else None)%nat.

Definition decodeSize (s : list nat) : nat :=
  match s with
  | [] => 0%nat
  | b0 :: rest =>
      match startInfo b0 with
      | None => 1%nat
      | Some (sz, lo, hi) =>
          if (length s <? sz)%nat then 1%nat
          else match rest with
               | b1 :: rest1 =>
                   if ((b1 <? lo) || (hi <? b1))%nat then 1%nat
                   else if (sz <=? 2)%nat then 2%nat
                   else match rest1 with
                        | b2 :: rest2 =>
                            if negb (isCont b2) then 1%nat
                            else if (sz <=? 3)%nat then 3%nat
                            else match rest2 with
                                 | b3 :: _ => if negb (isCont b3) then 1%nat else 4%nat
                                 | [] => 1%nat
                                 end
                        | [] => 1%nat
                        end
               | [] => 1%nat
               end
      end
  end.

(** [utf8.DecodeLastRuneInString], seen through its size, on the
    reversed bytes (the head is the last byte): the library steps back
    over at most three bytes to the nearest byte that can start a rune,
    decodes from there, and takes the size only if the rune ends at the
    end of the string; in every other case the last byte counts alone. *)
Definition sizedTo (s : list nat) : nat :=
  if (decodeSize s =? length s)%nat then length s else 1%nat.

Definition lastRuneSize (r : list nat) : nat :=
  match r with
  | [] => 0%nat
  | c0 :: before =>
      if (c0 <? 128)%nat then 1%nat
      else match before with
           | c1 :: before2 =>
               if negb (isCont c1) then sizedTo [c1; c0]
               else match before2 with
                    | c2 :: before3 =>
                        if negb (isCont c2) then sizedTo [c2; c1; c0]
                        else match before3 with
                             | c3 :: _ =>
                                 if negb (isCont c3) then sizedTo [c3; c2; c1; c0]
                                 else 1%nat
                             | [] => 1%nat
                             end
                    | [] => 1%nat
                    end
           | [] => 1%nat
           end
  end.

(** The number of bytes equal to [c] at the head of [s]. *)
Fixpoint trailing (c : ascii) (s : list ascii) : nat :=
  match s with
  | x :: rest => if Ascii.eqb x c then S (trailing c rest) else O
  | [] => O
  end.

(** [dns.IsFqdn]: the name ends in a dot, and either no backslash stands
    before the dot or [len(s) - i] is odd, where [s] is the name without
    the dot and [i] is [strings.LastIndexFunc(s, r != '\\')]: the byte
    index at which the last rune that is not a backslash starts, -1 when
    there is none.  On the reversed bytes: [k] backslashes stand before
    the dot, and the rune before them is [w] bytes long, so
    [len(s) - i = k + w] (and [k + 1] when nothing stands before the
    backslashes). *)
Definition IsFqdn (s : string) : bool :=
  match rev (list_ascii_of_string s) with
  | last :: before =>
      Ascii.eqb last dot
      && match before with
         | [] => true
         | c :: _ =>
             if Ascii.eqb c backslash then
               let k := trailing backslash before in
               let w := match skipn k before with
                        | [] => 1%nat
                        | r => lastRuneSize (map nat_of_ascii r)
                        end in
               Nat.odd (k + w)
             else true
         end
  | [] => false
  end.

(** [dns.Fqdn]. *)
Definition Fqdn (s : string) : string :=
  if IsFqdn s then s else s +:+ ".".

(** [escapedNameLen]: the length of a name in presentation format once
    each escape ([\DDD] or [\X]) is counted as the one byte it denotes. *)
Fixpoint escapedNameLen (s : list ascii) : Z :=
  match s with
  | [] => 0
  | c :: r =>
      if Ascii.eqb c backslash then
        match r with
        | d1 :: r1 =>
            match r1 with
            | d2 :: d3 :: r3 =>
                if isDigit d1 && isDigit d2 && isDigit d3
                then 1 + escapedNameLen r3
                else 1 + escapedNameLen r1
            | _ => 1 + escapedNameLen r1
            end
        | [] => 0
        end
      else 1 + escapedNameLen r
  end.

(** [domainNameLen] without a compression map. *)
Definition domainNameLen (s : string) : Z :=
  if String.eqb s "" || String.eqb s "." then 1
  else escapedNameLen (list_ascii_of_string s) + 1.

(** [hex.DecodeString(s)] seen through [len]: the number of bytes, or
    [None] when [s] has odd length or a byte that is not a hex digit. *)
Definition isHex (c : ascii) : bool :=
  let n := nat_of_ascii c in
  (((48 <=? n) && (n <=? 57)) || ((97 <=? n) && (n <=? 102))
   || ((65 <=? n) && (n <=? 70)))%nat.

Definition hexDecodedLen (s : string) : option Z :=
  let l := list_ascii_of_string s in
  if Nat.even (length l) && forallb isHex l
  then Some (Z.of_nat (length l) / 2) else None.

(** The length of [o.pack()], where a failed [pack] gives nil. *)
Definition subnet_pack_len (e : EDNS0_SUBNET) : Z :=
  let need := (uint8 (SourceNetmask e + 8 - 1)) / 8 in
  if Family e =? 0 then
    if negb (SourceNetmask e =? 0) then 0 else 4
  else if Family e =? 1 then
    if 32 <? SourceNetmask e then 0
    else match To4 (Address e) with
         | Some _ => 4 + need
         | None => 0
         end
  else if Family e =? 2 then
    if 128 <? SourceNetmask e then 0
    else if (length (Address e) =? IPv6len)%nat then 4 + need else 0
  else 0.

Definition option_pack_len (e : EDNS0) : Z :=
  match e with
  | OptNSID o => default 0 (hexDecodedLen (Nsid o))
  | OptPADDING o => Z.of_nat (length (Padding o))
  | OptSUBNET o => subnet_pack_len o
  | OptCOOKIE o => default 0 (hexDecodedLen (Cookie o))
  end.

(** [h.len]: the owner name, then type, class, TTL and data length. *)
Definition RR_Header_len (h : RR_Header) : Z := domainNameLen (Name h) + 10.

(** [rr.len] without compression. *)
Definition RR_len (rr : RR) : Z :=
  RR_Header_len (Header rr) +
  match Data rr with
  | RD_A a => if (length a =? 0)%nat then 0 else 4
  | RD_AAAA a => if (length a =? 0)%nat then 0 else 16
  | RD_PTR p => domainNameLen p
  | RD_CNAME t => domainNameLen t
  | RD_OPT opts => fold_left (fun l o => l + 4 + option_pack_len o) opts 0
  | RD_RFC3597 d => Z.of_nat (String.length d) / 2
  end.

Definition Question_len (q : Question) : Z := domainNameLen (Q_Name q) + 2 + 2.

(** [msg.Len()] for a message with [Compress] unset: the header, then
    every question and every record of the three sections. *)
Definition Len (m : Msg) : Z :=
  let l := headerSize in
  let l := fold_left (fun l q => l + Question_len q) (Questions m) l in
  let l := fold_left (fun l r => l + RR_len r) (Answer m) l in
  let l := fold_left (fun l r => l + RR_len r) (Ns m) l in
  fold_left (fun l r => l + RR_len r) (Extra m) l.

End Dns.

(** ** Effects: the log, the identifier generator, the wire, abnormal exits *)

(** Levels of the logrus logger that the code uses. *)
Inductive Level := TraceLevel | DebugLevel | WarnLevel | FatalLevel.

(** One logged call: the format string and its arguments, unformatted. *)
Inductive LogArg :=
| LStr (s : string)
| LInt (z : Z)
| LIP (ip : Net.IP).

Record LogEntry := { level : Level; format : string; args : list LogArg }.

(** What the functions act on besides their arguments:
    - [log]: the calls made to the logger, oldest first;
    - [entropy], [draws]: the values that [dns.Id()] returns, as a
      function of the number of earlier calls, and that number;
    - [sent]: the messages handed to a transport's Exchange, oldest first. *)
Record World := {
  log : list LogEntry;
  entropy : nat -> Z;
  draws : nat;
  sent : list Dns.Msg
}.

Inductive PanicKind :=
| NilDereference    (* invalid memory address or nil pointer dereference *)
| TypeAssertion.    (* interface conversion: the dynamic type is another one *)

(** How a call ends: it returns, the process exits ([log.Fatalf]), or the
    goroutine panics. *)
Inductive Outcome (A : Type) :=
| Ret (a : A) (w : World)
| Exit (w : World)
| Panic (p : PanicKind) (w : World).

Arguments Ret {A} a w.
Arguments Exit {A} w.
Arguments Panic {A} p w.

Definition M (A : Type) : Type := World -> Outcome A.

Definition ret {A} (a : A) : M A := fun w => Ret a w.

Definition bind {A B} (m : M A) (k : A -> M B) : M B :=
  fun w =>
    match m w with
    | Ret a w' => k a w'
    | Exit w' => Exit w'
    | Panic p w' => Panic p w'
    end.

Declare Scope go_scope.
Delimit Scope go_scope with go.
Notation "x <- c ;; k" := (bind c (fun x => k))
  (at level 100, c at next level, right associativity) : go_scope.
Notation "c ;;; k" := (bind c (fun _ => k))
  (at level 100, right associativity) : go_scope.
Local Open Scope go_scope.

Definition panic {A} (p : PanicKind) : M A := fun w => Panic p w.

Definition add_log (e : LogEntry) (w : World) : World :=
  {| log := log w ++ [e]; entropy := entropy w; draws := draws w; sent := sent w |}.

(** [log.Tracef], [log.Debugf] and [log.Warnf]. *)
Definition logf (l : Level) (f : string) (a : list LogArg) : M unit :=
  fun w => Ret tt (add_log {| level := l; format := f; args := a |} w).

(** [log.Fatalf]: logs, then calls [os.Exit(1)]. *)
Definition Fatalf {A} (f : string) (a : list LogArg) : M A :=
  fun w => Exit (add_log {| level := FatalLevel; format := f; args := a |} w).

(** [dns.Id()]: the next 16-bit identifier of the generator. *)
Definition dns_Id : M Z :=
  fun w =>
    Ret (uint16 (entropy w (draws w)))
        {| log := log w; entropy := entropy w; draws := S (draws w); sent := sent w |}.

Definition returns {A} (o : Outcome A) : Prop :=
  match o with Ret _ _ => True | _ => False end.

(** ** Package cli: the resolved options *)

(** The fields of [cli.Flags] that resolver.go reads. *)
Record Flags := {
  Name : string;
  Class : Z;
  ID : Z;
  AuthoritativeAnswer : bool;
  AuthenticData : bool;
  CheckingDisabled : bool;
  RecursionDesired : bool;
  RecursionAvailable : bool;
  Zero : bool;
  Truncated : bool;
  DNSSEC : bool;
  NSID : bool;
  Pad : bool;
  ClientSubnet : string;
  Cookie : string;
  UDPBuffer : Z;
  Timeout : Z;
  ReuseConn : bool;
  ODoHProxy : string;
  HTTPHeaders : list string;
  HTTPUserAgent : string;
  HTTPMethod : string;
  HTTP2 : bool;
  HTTP3 : bool;
  PMTUD : bool;
  DNSCryptTCP : bool;
  DNSCryptUDPSize : Z;
  DNSCryptPublicKey : string;
  DNSCryptProvider : string;
  QUICALPNTokens : list string;
  QUICLengthPrefix : bool
}.

(** ** resolver.go: createQuery *)

Section CreateQuery.

Import GoStrings.

(** [net.ParseCIDR]: the address and the network of a prefix in CIDR
    notation, [None] for an error. *)
Variable ParseCIDR : string -> option (Net.IP * Net.IPNet).

(** The guard of the EDNS0 block. *)
Definition wantsOPT (opts : Flags) : bool :=
  DNSSEC opts || NSID opts || Pad opts
  || nonEmpty (ClientSubnet opts) || nonEmpty (Cookie opts).

(** The padding block: the length is taken from the request as it is
    when the block runs. *)
Definition padLength (msgLen udpSize : Z) : Z :=
  let padLen := 128 - Z.rem msgLen 128 in
  if msgLen + padLen >? udpSize then
    let padLen := udpSize - msgLen in
    if padLen <? 0 then 0 else padLen
  else padLen.

Definition addPadding (req : Dns.Msg) (opt : Dns.OPT) : M Dns.OPT :=
  let msgLen := Dns.Len req in
  let padLen := padLength msgLen (Dns.UDPSize opt) in
  logf DebugLevel "Padding with %d bytes" [LInt padLen] ;;;
  let paddingOpt := {| Dns.Padding := repeat 0 (Z.to_nat padLen) |} in
  ret (Dns.append_Option opt (Dns.OptPADDING paddingOpt)).

(** The client subnet block. *)
Definition addSubnet (opts : Flags) (opt : Dns.OPT) : M Dns.OPT :=
  match ParseCIDR (ClientSubnet opts) with
  | None => Fatalf "parsing subnet %s" [LStr (ClientSubnet opts)]
  | Some (ip, ipNet) =>
      let mask := fst (Net.Size (Net.Mask ipNet)) in
      logf DebugLevel "EDNS0 client subnet %s/%d" [LIP ip; LInt mask] ;;;
      let family := match Net.To4 ip with
                    | None => 2 (* IPv6 *)
                    | Some _ => 1 (* IPv4 *)
                    end in
      let ednsSubnet :=
        {| Dns.SUBNET_Code := Dns.EDNS0SUBNET;
           Dns.Address := ip;
           Dns.Family := family;
           Dns.SourceNetmask := uint8 mask;
           Dns.SourceScope := 0 |} in
      ret (Dns.append_Option opt (Dns.OptSUBNET ednsSubnet))
  end.

(** The EDNS0 block: the OPT record for a request, built option by
    option in the order of the source. *)
Definition buildOPT (opts : Flags) (req : Dns.Msg) : M Dns.OPT :=
  let opt :=
    {| Dns.Hdr := {| Dns.Name := "."; Dns.Rrtype := Dns.TypeOPT;
                     Dns.Class := UDPBuffer opts; Dns.Ttl := 0;
                     Dns.Rdlength := 0 |};
       Dns.Option := [] |} in
  let opt := if DNSSEC opts then Dns.SetDo opt else opt in
  let opt :=
    if NSID opts
    then Dns.append_Option opt
           (Dns.OptNSID {| Dns.NSID_Code := Dns.EDNS0NSID; Dns.Nsid := "" |})
    else opt in
  opt <- (if Pad opts then addPadding req opt else ret opt) ;;
  opt <- (if nonEmpty (ClientSubnet opts) then addSubnet opts opt else ret opt) ;;
  let opt :=
    if nonEmpty (Cookie opts)
    then Dns.append_Option opt
           (Dns.OptCOOKIE {| Dns.COOKIE_Code := Dns.EDNS0COOKIE;
                             Dns.Cookie := Cookie opts |})
    else opt in
  ret opt.

(** One iteration of the loop: the request for one record type. *)
Definition createQuery_body (opts : Flags) (qType : Z) : M Dns.Msg :=
  let req := Dns.Msg_zero in
  id <- (if negb (ID opts =? -1) then ret (uint16 (ID opts)) else dns_Id) ;;
  let req := Dns.set_Id id req in
  let req := Dns.set_Authoritative (AuthoritativeAnswer opts) req in
  let req := Dns.set_AuthenticatedData (AuthenticData opts) req in
  let req := Dns.set_CheckingDisabled (CheckingDisabled opts) req in
  let req := Dns.set_RecursionDesired (RecursionDesired opts) req in
  let req := Dns.set_RecursionAvailable (RecursionAvailable opts) req in
  let req := Dns.set_Zero (Zero opts) req in
  let req := Dns.set_Truncated (Truncated opts) req in
  req <- (if wantsOPT opts then
            opt <- buildOPT opts req ;;
            ret (Dns.set_Extra (Dns.Extra req ++ [Dns.RR_of_OPT opt]) req)
          else ret req) ;;
  let req :=
    Dns.set_Questions
      [{| Dns.Q_Name := Dns.Fqdn (Name opts); Dns.Qtype := qType;
          Dns.Qclass := Class opts |}] req in
  ret req.

(** The loop over the requested types, appending to [queries]. *)
Fixpoint createQuery_loop (opts : Flags) (rrTypes : list Z)
    (queries : list Dns.Msg) : M (list Dns.Msg) :=
  match rrTypes with
  | [] => ret queries
  | qType :: rest =>
      req <- createQuery_body opts qType ;;
      createQuery_loop opts rest (queries ++ [req])
  end.

Definition createQuery (opts : Flags) (rrTypes : list Z) : M (list Dns.Msg) :=
  createQuery_loop opts rrTypes [].

End CreateQuery.

(** ** Package transport: what newTransport builds *)

Module Transport.

(** [transport.Type] is a string type.  Its six constants are declared
    outside the files at hand; they are taken here as the six protocol
    names.  The switch of newTransport compares values, and what it does
    depends on the constants only in that they differ from one another. *)
Definition Type_ := string.

Definition TypePlain : Type_ := "plain".
Definition TypeTCP : Type_ := "tcp".
Definition TypeTLS : Type_ := "tls".
Definition TypeHTTP : Type_ := "http".
Definition TypeQUIC : Type_ := "quic".
Definition TypeDNSCrypt : Type_ := "dnscrypt".

(** [tls.Config], reduced to the field the code writes and two others. *)
Record TLSConfig := {
  NextProtos : list string;
  ServerName : string;
  InsecureSkipVerify : bool
}.

Record Common := { Server : string; ReuseConn : bool }.

Record ODoH := {
  ODoH_Common : Common;
  Proxy : string;
  ODoH_TLSConfig : option TLSConfig
}.

Record HTTP := {
  HTTP_Common : Common;
  HTTP_TLSConfig : option TLSConfig;
  UserAgent : string;
  Method : string;
  HTTP2 : bool;
  HTTP3 : bool;
  NoPMTUd : bool;
  Headers : gmap string (list string)
}.

Record DNSCrypt := {
  DNSCrypt_Common : Common;
  ServerStamp : string;
  TCP : bool;
  UDPSize : Z;
  PublicKey : string;
  ProviderName : string
}.

Record QUIC := {
  QUIC_Common : Common;
  QUIC_TLSConfig : option TLSConfig;
  PMTUD : bool;
  AddLengthPrefix : bool
}.

Record TLS := { TLS_Common : Common; TLS_TLSConfig : option TLSConfig }.

Record Plain := {
  Plain_Common : Common;
  PreferTCP : bool;
  UDPBuffer : Z;
  Timeout : Z
}.

(** The values of the interface [transport.Transport]. *)
Inductive Transport :=
| T_ODoH (t : ODoH)
| T_HTTP (t : HTTP)
| T_DNSCrypt (t : DNSCrypt)
| T_QUIC (t : QUIC)
| T_TLS (t : TLS)
| T_Plain (t : Plain).

End Transport.

(** ** resolver.go: newTransport *)

Section NewTransport.

Import GoStrings.

(** The package-level options that newTransport reads. *)
Variable opts : Flags.

(** One iteration of the header loop. *)
Definition parseHeader (headers : gmap string (list string)) (header : string)
    : M (gmap string (list string)) :=
  let parts := SplitN2 header ":" in
  if (length parts =? 2)%nat then
    let name := TrimSpace (nth 0 parts "") in
    let value := TrimSpace (nth 1 parts "") in
    let headers := <[name := (default [] (headers !! name) ++ [value])%list]> headers in
    logf DebugLevel "Added header %s: %s" [LStr name; LStr value] ;;;
    ret headers
  else
    logf WarnLevel "Invalid header format: %s (expected 'Name: Value')"
         [LStr header] ;;;
    ret headers.

Fixpoint parseHeaders (headers : gmap string (list string)) (l : list string)
    : M (gmap string (list string)) :=
  match l with
  | [] => ret headers
  | header :: rest =>
      headers <- parseHeader headers header ;;
      parseHeaders headers rest
  end.

(** The result is Go's pair of a pointer and an error. *)
Definition newTransport (server : string) (transportType : Transport.Type_)
    (tlsConfig : option Transport.TLSConfig)
    : M (option Transport.Transport * option string) :=
  let common := {| Transport.Server := server;
                   Transport.ReuseConn := ReuseConn opts |} in
  if String.eqb transportType Transport.TypeHTTP then
      if nonEmpty (ODoHProxy opts) then
        logf DebugLevel "Using ODoH transport with target %s proxy %s"
             [LStr server; LStr (ODoHProxy opts)] ;;;
        ret (Some (Transport.T_ODoH
                     {| Transport.ODoH_Common := common;
                        Transport.Proxy := ODoHProxy opts;
                        Transport.ODoH_TLSConfig := tlsConfig |}), None)
      else
        logf DebugLevel "Using HTTP(s) transport: %s" [LStr server] ;;;
        headers <- parseHeaders ∅ (HTTPHeaders opts) ;;
        ret (Some (Transport.T_HTTP
                     {| Transport.HTTP_Common := common;
                        Transport.HTTP_TLSConfig := tlsConfig;
                        Transport.UserAgent := HTTPUserAgent opts;
                        Transport.Method := HTTPMethod opts;
                        Transport.HTTP2 := HTTP2 opts;
                        Transport.HTTP3 := HTTP3 opts;
                        Transport.NoPMTUd := negb (PMTUD opts);
                        Transport.Headers := headers |}), None)
  else if String.eqb transportType Transport.TypeDNSCrypt then
      logf DebugLevel "Using DNSCrypt transport: %s" [LStr server] ;;;
      if HasPrefix server "sdns://" then
        logf TraceLevel "Using provided DNS stamp for DNSCrypt" [] ;;;
        ret (Some (Transport.T_DNSCrypt
                     {| Transport.DNSCrypt_Common := common;
                        Transport.ServerStamp := server;
                        Transport.TCP := DNSCryptTCP opts;
                        Transport.UDPSize := DNSCryptUDPSize opts;
                        Transport.PublicKey := "";
                        Transport.ProviderName := "" |}), None)
      else
        logf TraceLevel "Using manual DNSCrypt configuration" [] ;;;
        ret (Some (Transport.T_DNSCrypt
                     {| Transport.DNSCrypt_Common := common;
                        Transport.ServerStamp := "";
                        Transport.TCP := DNSCryptTCP opts;
                        Transport.UDPSize := DNSCryptUDPSize opts;
                        Transport.PublicKey := DNSCryptPublicKey opts;
                        Transport.ProviderName := DNSCryptProvider opts |}), None)
  else if String.eqb transportType Transport.TypeQUIC then
      logf DebugLevel "Using QUIC transport: %s" [LStr server] ;;;
      match tlsConfig with
      | None => panic NilDereference
      | Some c =>
          let tc := {| Transport.NextProtos := QUICALPNTokens opts;
                       Transport.ServerName := Transport.ServerName c;
                       Transport.InsecureSkipVerify :=
                         Transport.InsecureSkipVerify c |} in
          ret (Some (Transport.T_QUIC
                       {| Transport.QUIC_Common := common;
                          Transport.QUIC_TLSConfig := Some tc;
                          Transport.PMTUD := PMTUD opts;
                          Transport.AddLengthPrefix := QUICLengthPrefix opts |}),
               None)
      end
  else if String.eqb transportType Transport.TypeTLS then
      logf DebugLevel "Using TLS transport: %s" [LStr server] ;;;
      ret (Some (Transport.T_TLS
                   {| Transport.TLS_Common := common;
                      Transport.TLS_TLSConfig := tlsConfig |}), None)
  else if String.eqb transportType Transport.TypeTCP then
      logf DebugLevel "Using TCP transport: %s" [LStr server] ;;;
      ret (Some (Transport.T_Plain
                   {| Transport.Plain_Common := common;
                      Transport.PreferTCP := true;
                      Transport.UDPBuffer := UDPBuffer opts;
                      Transport.Timeout := Timeout opts |}), None)
  else if String.eqb transportType Transport.TypePlain then
      logf DebugLevel "Using UDP with TCP fallback: %s" [LStr server] ;;;
      ret (Some (Transport.T_Plain
                   {| Transport.Plain_Common := common;
                      Transport.PreferTCP := false;
                      Transport.UDPBuffer := UDPBuffer opts;
                      Transport.Timeout := Timeout opts |}), None)
  else
      ret (None, Some ("unknown transport protocol " +:+ transportType)).

End NewTransport.

(** ** Package output: Entry and LoadPTRs *)

Record Entry := {
  Queries : list Dns.Msg;
  Replies : list (option Dns.Msg);
  Server : string;
  Time : Z;
  PTRs : option (gmap string string);
  existingRRs : option (gmap string bool)
}.

Definition set_PTRs (v : option (gmap string string)) (e : Entry) : Entry :=
  {| Queries := Queries e; Replies := Replies e; Server := Server e;
     Time := Time e; PTRs := v; existingRRs := existingRRs e |}.

Definition set_existingRRs (v : option (gmap string bool)) (e : Entry) : Entry :=
  {| Queries := Queries e; Replies := Replies e; Server := Server e;
     Time := Time e; PTRs := PTRs e; existingRRs := v |}.

(** [msg.SetQuestion(z, t)] on a message [m]: a fresh identifier,
    recursion desired, and the single question. *)
Definition SetQuestion (m : Dns.Msg) (z : string) (t : Z) : M Dns.Msg :=
  id <- dns_Id ;;
  let m := Dns.set_Id id m in
  let m := Dns.set_RecursionDesired true m in
  ret (Dns.set_Questions
         [{| Dns.Q_Name := z; Dns.Qtype := t; Dns.Qclass := Dns.ClassINET |}] m).

Section LoadPTRs.

(** [ip.String()] of package net. *)
Variable IP_String : Net.IP -> string.

(** [dns.ReverseAddr]: the reverse-lookup name of an address in text
    form ([inl]), or an error ([inr]). *)
Variable ReverseAddr : string -> string + string.

(** The method Exchange of each transport: the reply and the error, as
    a function of the messages exchanged before and of the query. *)
Variable Exchange :
  Transport.Transport -> list Dns.Msg -> Dns.Msg -> option Dns.Msg * option string.

(** [( *txp).Exchange(&msg)]; a nil [txp] cannot be called. *)
Definition exchange (txp : option Transport.Transport) (msg : Dns.Msg)
    : M (option Dns.Msg * option string) :=
  match txp with
  | None => panic NilDereference
  | Some t =>
      fun w =>
        Ret (Exchange t (sent w) msg)
            {| log := log w; entropy := entropy w; draws := draws w;
               sent := sent w ++ [msg] |}
  end.

(** From "Create PTR query" to the end of the loop body: the lookup of
    one address and the update of the cache. *)
Definition resolvePTR (txp : option Transport.Transport)
    (cache : gmap string string) (ip : string) : M (gmap string string) :=
  qname <- match ReverseAddr ip with
           | inl qname => ret qname
           | inr err => Fatalf "error reversing PTR record: %s" [LStr err]
           end ;;
  msg <- SetQuestion Dns.Msg_zero qname Dns.TypePTR ;;
  r <- exchange txp msg ;;
  match snd r with
  | Some err =>
      logf WarnLevel "error resolving PTR record: %s" [LStr err] ;;;
      ret cache
  | None =>
      match fst r with
      | Some resp =>
          match Dns.Answer resp with
          | first :: _ =>
              match Dns.Data first with
              | Dns.RD_PTR ptr => ret (<[ip := ptr]> cache)
              | _ => panic TypeAssertion
              end
          | [] => ret cache
          end
      | None => ret cache
      end
  end.

(** The body of the inner loop, for one answer record. *)
Definition loadRR (txp : option Transport.Transport)
    (cache : gmap string string) (rr : Dns.RR) : M (gmap string string) :=
  let rrtype := Dns.Rrtype (Dns.Header rr) in
  if rrtype =? Dns.TypeA then
    match Dns.Data rr with
    | Dns.RD_A a => resolvePTR txp cache (IP_String a)
    | _ => panic TypeAssertion
    end
  else if rrtype =? Dns.TypeAAAA then
    match Dns.Data rr with
    | Dns.RD_AAAA a => resolvePTR txp cache (IP_String a)
    | _ => panic TypeAssertion
    end
  else ret cache.

(** The inner loop, over the answer section of one reply. *)
Fixpoint loadAnswers (txp : option Transport.Transport)
    (cache : gmap string string) (rrs : list Dns.RR) : M (gmap string string) :=
  match rrs with
  | [] => ret cache
  | rr :: rest =>
      cache <- loadRR txp cache rr ;;
      loadAnswers txp cache rest
  end.

(** The outer loop, over the replies; [reply.Answer] on a nil reply is
    a nil pointer dereference. *)
Fixpoint loadReplies (txp : option Transport.Transport)
    (cache : gmap string string) (replies : list (option Dns.Msg))
    : M (gmap string string) :=
  match replies with
  | [] => ret cache
  | reply :: rest =>
      match reply with
      | None => panic NilDereference
      | Some m =>
          cache <- loadAnswers txp cache (Dns.Answer m) ;;
          loadReplies txp cache rest
      end
  end.

(** The entry is updated in place; the result is the entry afterwards. *)
Definition LoadPTRs (e : Entry) (txp : option Transport.Transport) : M Entry :=
  let cache := match PTRs e with
               | None => ∅
               | Some m => m
               end in
  cache <- loadReplies txp cache (Replies e) ;;
  ret (set_PTRs (Some cache) e).

(** LoadPTRs from inside its loops: with [cache] reached, the answers
    [after] of the current reply are still to be looked at, then the
    replies [post], then the entry gets the cache. *)
Definition resumeLoadPTRs (e : Entry) (txp : option Transport.Transport)
    (cache : gmap string string) (after : list Dns.RR)
    (post : list (option Dns.Msg)) : M Entry :=
  cache <- loadAnswers txp cache after ;;
  cache <- loadReplies txp cache post ;;
  ret (set_PTRs (Some cache) e).

End LoadPTRs.

(** ** The IPv4 fragment of the address functions

    [net.ParseCIDR], [ip.String()] and [dns.ReverseAddr] are parameters of
    the sections above.  To run the model on concrete inputs, this module
    gives their behaviour on dotted-quad IPv4 text; IPv6 text is outside
    the fragment (it is reported as unparseable here, which the library
    does not do). *)

Module IPv4.
Import Net.

Definition digit (c : ascii) : option Z :=
  if Dns.isDigit c then Some (Z.of_nat (nat_of_ascii c) - 48) else None.

Fixpoint decimal_go (s : list ascii) (acc : Z) : option Z :=
  match s with
  | [] => Some acc
  | c :: r =>
      match digit c with
      | Some d => decimal_go r (acc * 10 + d)
      | None => None
      end
  end.

(** A non-empty string of decimal digits. *)
Definition decimal (s : string) : option Z :=
  match list_ascii_of_string s with
  | [] => None
  | l => decimal_go l 0
  end.

(** The fields of [s] between the occurrences of [sep]. *)
Fixpoint split (sep : ascii) (s : string) : list string :=
  match s with
  | EmptyString => [EmptyString]
  | String c r =>
      if Ascii.eqb c sep then EmptyString :: split sep r
      else match split sep r with
           | f :: fs => String c f :: fs
           | [] => [String c EmptyString]
           end
  end.

(** One field of a dotted quad: decimal, no leading zero, at most 255. *)
Definition parseOctet (s : string) : option Z :=
  match decimal s with
  | Some v =>
      if GoStrings.HasPrefix s "0" && (1 <? String.length s)%nat then None
      else if 255 <? v then None else Some v
  | None => None
  end.

(** [netip.ParseAddr] on IPv4 text. *)
Definition parseIPv4 (s : string) : option IP :=
  match map parseOctet (split "." s) with
  | [Some a; Some b; Some c; Some d] => Some [a; b; c; d]
  | _ => None
  end.

(** [dtoi] on a string that must be decimal throughout. *)
Definition dtoi (s : string) : option Z :=
  match decimal s with
  | Some n => if 16777215 <=? n then None else Some n
  | None => None
  end.

Definition v4InV6Prefix : IP := [0; 0; 0; 0; 0; 0; 0; 0; 0; 0; 255; 255].

(** [net.ParseCIDR] on an IPv4 prefix: the address in 16-byte form, the
    network address and the mask in 4-byte form. *)
Definition ParseCIDR (s : string) : option (IP * IPNet) :=
  match GoStrings.Cut "/" s with
  | None => None
  | Some (addr, mask) =>
      match parseIPv4 addr, dtoi mask with
      | Some ip4, Some n =>
          if 32 <? n then None
          else
            let m := CIDRMask n 32 in
            Some ((v4InV6Prefix ++ ip4)%list,
                  {| IPNet_IP := Mask_apply ip4 m; Mask := m |})
      | _, _ => None
      end
  end.

Definition itoa (z : Z) : string :=
  DecimalString.NilZero.string_of_int (Z.to_int z).

(** [ip.String()] for an IPv4 address in 4-byte or 16-byte form. *)
Definition IP_String (ip : IP) : string :=
  match To4 ip with
  | Some [a; b; c; d] =>
      itoa a +:+ "." +:+ itoa b +:+ "." +:+ itoa c +:+ "." +:+ itoa d
  | _ => "<nil>"
  end.

(** [dns.ReverseAddr] on IPv4 text; the error is given by its text, as
    [%s] prints it. *)
Definition ReverseAddr (addr : string) : string + string :=
  match parseIPv4 addr with
  | Some [a; b; c; d] =>
      inl (itoa d +:+ "." +:+ itoa c +:+ "." +:+ itoa b +:+ "." +:+ itoa a
           +:+ ".in-addr.arpa.")
  | _ => inr ("dns: unrecognized address: " +:+ addr)
  end.

End IPv4.

(** ** Concrete values for the examples *)

(** A world with an empty log, nothing sent, and a given generator. *)
Definition world0 (ids : nat -> Z) : World :=
  {| log := []; entropy := ids; draws := 0; sent := [] |}.

(** Options for the name example.com, class IN, with the given
    identifier and EDNS0 fields; every other field has its zero value. *)
Definition queryFlags (id : Z) (dnssec nsid pad : bool)
    (subnet cookie : string) (udpBuffer : Z) : Flags :=
  {| Name := "example.com"; Class := Dns.ClassINET; ID := id;
     AuthoritativeAnswer := false; AuthenticData := false;
     CheckingDisabled := false; RecursionDesired := true;
     RecursionAvailable := false; Zero := false; Truncated := false;
     DNSSEC := dnssec; NSID := nsid; Pad := pad;
     ClientSubnet := subnet; Cookie := cookie; UDPBuffer := udpBuffer;
     Timeout := 0; ReuseConn := false; ODoHProxy := "";
     HTTPHeaders := []; HTTPUserAgent := ""; HTTPMethod := "";
     HTTP2 := false; HTTP3 := false; PMTUD := false;
     DNSCryptTCP := false; DNSCryptUDPSize := 0;
     DNSCryptPublicKey := ""; DNSCryptProvider := "";
     QUICALPNTokens := []; QUICLengthPrefix := false |}.

(** Options for an HTTP(S) transport with the given header strings. *)
Definition httpFlags (headers : list string) : Flags :=
  {| Name := "example.com"; Class := Dns.ClassINET; ID := -1;
     AuthoritativeAnswer := false; AuthenticData := false;
     CheckingDisabled := false; RecursionDesired := true;
     RecursionAvailable := false; Zero := false; Truncated := false;
     DNSSEC := false; NSID := false; Pad := false;
     ClientSubnet := ""; Cookie := ""; UDPBuffer := 1232;
     Timeout := 0; ReuseConn := false; ODoHProxy := "";
     HTTPHeaders := headers; HTTPUserAgent := ""; HTTPMethod := "GET";
     HTTP2 := false; HTTP3 := false; PMTUD := true;
     DNSCryptTCP := false; DNSCryptUDPSize := 0;
     DNSCryptPublicKey := ""; DNSCryptProvider := "";
     QUICALPNTokens := []; QUICLengthPrefix := false |}.

(** A reply whose answer section is the given list of records. *)
Definition replyWith (answers : list Dns.RR) : Dns.Msg :=
  {| Dns.Id := 0; Dns.Response := true; Dns.Opcode := 0;
     Dns.Authoritative := false; Dns.Truncated := false;
     Dns.RecursionDesired := true; Dns.RecursionAvailable := true;
     Dns.Zero := false; Dns.AuthenticatedData := false;
     Dns.CheckingDisabled := false; Dns.Rcode := 0; Dns.Compress := false;
     Dns.Questions := []; Dns.Answer := answers; Dns.Ns := []; Dns.Extra := [] |}.

Definition rrHeader (name : string) (rrtype : Z) : Dns.RR_Header :=
  {| Dns.Name := name; Dns.Rrtype := rrtype; Dns.Class := Dns.ClassINET;
     Dns.Ttl := 300; Dns.Rdlength := 0 |}.

(** An A record, a PTR record and a CNAME record as a server sends them. *)
Definition rrA (name : string) (a : Net.IP) : Dns.RR :=
  {| Dns.Header := rrHeader name Dns.TypeA; Dns.Data := Dns.RD_A a |}.

Definition rrPTR (name target : string) : Dns.RR :=
  {| Dns.Header := rrHeader name Dns.TypePTR; Dns.Data := Dns.RD_PTR target |}.

Definition rrCNAME (name target : string) : Dns.RR :=
  {| Dns.Header := rrHeader name 5; Dns.Data := Dns.RD_CNAME target |}.

(** An entry with the given replies, no queries and no PTR cache yet. *)
Definition entryWith (replies : list (option Dns.Msg)) : Entry :=
  {| Queries := []; Replies := replies; Server := "192.0.2.53:53"; Time := 0;
     PTRs := None; existingRRs := None |}.

(** The PTR cache that LoadPTRs starts from: a nil map is made first. *)
Definition initialCache (e : Entry) : gmap string string :=
  match PTRs e with
  | None => ∅
  | Some m => m
  end.

(** The warning that LoadPTRs logs for a failed exchange. *)
Definition ptrWarning (err : string) : LogEntry :=
  {| level := WarnLevel; format := "error resolving PTR record: %s";
     args := [LStr err] |}.

(** A plain transport value, and three behaviours for Exchange: every
    call fails; every call answers with one PTR record; every call answers
    with a CNAME record first. *)
Definition plainTransport : Transport.Transport :=
  Transport.T_Plain
    {| Transport.Plain_Common :=
         {| Transport.Server := "192.0.2.53:53"; Transport.ReuseConn := false |};
       Transport.PreferTCP := false; Transport.UDPBuffer := 1232;
       Transport.Timeout := 0 |}.

Definition failingExchange (t : Transport.Transport) (history : list Dns.Msg)
    (q : Dns.Msg) : option Dns.Msg * option string :=
  (None, Some "i/o timeout").

Definition ptrExchange (t : Transport.Transport) (history : list Dns.Msg)
    (q : Dns.Msg) : option Dns.Msg * option string :=
  (Some (replyWith [rrPTR "1.2.0.192.in-addr.arpa." "host.example."]), None).

Definition cnameExchange (t : Transport.Transport) (history : list Dns.Msg)
    (q : Dns.Msg) : option Dns.Msg * option string :=
  (Some (replyWith [rrCNAME "1.2.0.192.in-addr.arpa." "1.0-24.2.0.192.in-addr.arpa.";
                    rrPTR "1.0-24.2.0.192.in-addr.arpa." "host.example."]), None).

(** A behaviour that depends on the history: the first call answers with
    one name, every later call with another. *)
Definition renamingExchange (t : Transport.Transport) (history : list Dns.Msg)
    (q : Dns.Msg) : option Dns.Msg * option string :=
  match history with
  | [] => (Some (replyWith [rrPTR "1.2.0.192.in-addr.arpa." "first.example."]), None)
  | _ :: _ => (Some (replyWith [rrPTR "1.2.0.192.in-addr.arpa." "second.example."]), None)
  end.

(** A behaviour that depends on the history: the first, third, ... call
    fails, the others answer with one PTR record. *)
Definition flakyExchange (t : Transport.Transport) (history : list Dns.Msg)
    (q : Dns.Msg) : option Dns.Msg * option string :=
  if Nat.even (length history) then (None, Some "i/o timeout")
  else (Some (replyWith [rrPTR "2.2.0.192.in-addr.arpa." "two.example."]), None).

(** ** Reading queries and worlds *)

(** [msg.IsEdns0()]: the OPT record of the additional section, if any
    (the last record whose header type is OPT; the library asserts that
    its dynamic type is OPT, which holds of the records built here). *)
Definition IsEdns0 (m : Dns.Msg) : option Dns.OPT :=
  match find (fun rr => Dns.Rrtype (Dns.Header rr) =? Dns.TypeOPT) (rev (Dns.Extra m)) with
  | Some rr =>
      match Dns.Data rr with
      | Dns.RD_OPT o => Some {| Dns.Hdr := Dns.Header rr; Dns.Option := o |}
      | _ => None
      end
  | None => None
  end.

(** The client subnet options and the padding lengths of a query. *)
Definition subnetOptions (m : Dns.Msg) : list Dns.EDNS0_SUBNET :=
  match IsEdns0 m with
  | Some o =>
      flat_map (fun e => match e with Dns.OptSUBNET s => [s] | _ => [] end)
               (Dns.Option o)
  | None => []
  end.

Definition paddingLengths (m : Dns.Msg) : list Z :=
  match IsEdns0 m with
  | Some o =>
      flat_map (fun e => match e with
                         | Dns.OptPADDING p => [Z.of_nat (length (Dns.Padding p))]
                         | _ => []
                         end)
               (Dns.Option o)
  | None => []
  end.

(** The arguments of the warnings in a log, oldest first. *)
Definition warnings (l : list LogEntry) : list (list LogArg) :=
  flat_map (fun e => match level e with WarnLevel => [args e] | _ => [] end) l.

(** The client subnet is absent or parses: the EDNS0 block cannot exit. *)
Definition subnetOK (ParseCIDR : string -> option (Net.IP * Net.IPNet))
    (opts : Flags) : bool :=
  negb (GoStrings.nonEmpty (ClientSubnet opts))
  || match ParseCIDR (ClientSubnet opts) with Some _ => true | None => false end.

(** The header flags of a query are those of the options. *)
Definition flagsCopied (opts : Flags) (q : Dns.Msg) : Prop :=
  Dns.Authoritative q = AuthoritativeAnswer opts
  /\ Dns.AuthenticatedData q = AuthenticData opts
  /\ Dns.CheckingDisabled q = CheckingDisabled opts
  /\ Dns.RecursionDesired q = RecursionDesired opts
  /\ Dns.RecursionAvailable q = RecursionAvailable opts
  /\ Dns.Zero q = Zero opts
  /\ Dns.Truncated q = Truncated opts.

(** The spec's reading of "at least one EDNS0Options field is active":
    any of the six fields it lists, the buffer size included. *)
Definition ednsActive_spec (opts : Flags) : bool :=
  DNSSEC opts || NSID opts || Pad opts
  || GoStrings.nonEmpty (ClientSubnet opts) || GoStrings.nonEmpty (Cookie opts)
  || negb (UDPBuffer opts =? 0).

(** The spec's reading of the header loop: each string with a colon adds
    the trimmed text after the first colon under the trimmed text before
    it; a string without colon adds nothing. *)
Definition addHeader_spec (m : gmap string (list string)) (header : string)
    : gmap string (list string) :=
  match GoStrings.Cut ":" header with
  | Some (name, value) =>
      let name := GoStrings.TrimSpace name in
      <[name := (default [] (m !! name) ++ [GoStrings.TrimSpace value])%list]> m
  | None => m
  end.

Definition headers_spec (l : list string) : gmap string (list string) :=
  fold_left addHeader_spec l ∅.

Definition malformed (l : list string) : list string :=
  filter (fun h => GoStrings.Cut ":" h = None) l.

(** The address records of an answer section: those that the switch of
    LoadPTRs takes to the lookup. *)
Definition isAddressRR (rr : Dns.RR) : bool :=
  (Dns.Rrtype (Dns.Header rr) =? Dns.TypeA)
  || (Dns.Rrtype (Dns.Header rr) =? Dns.TypeAAAA).

Definition addressRRs (replies : list (option Dns.Msg)) : list Dns.RR :=
  flat_map (fun r => match r with
                     | Some m => filter (fun rr => isAddressRR rr = true) (Dns.Answer m)
                     | None => []
                     end) replies.

(** An address record whose dynamic type agrees with its header and whose
    address has a reverse-lookup name. *)
Definition reversible (IP_String : Net.IP -> string)
    (ReverseAddr : string -> string + string) (rr : Dns.RR) : Prop :=
  if Dns.Rrtype (Dns.Header rr) =? Dns.TypeA then
    exists a qname, Dns.Data rr = Dns.RD_A a /\ ReverseAddr (IP_String a) = inl qname
  else if Dns.Rrtype (Dns.Header rr) =? Dns.TypeAAAA then
    exists a qname, Dns.Data rr = Dns.RD_AAAA a /\ ReverseAddr (IP_String a) = inl qname
  else True.

(** The PTR query for a name, with a given identifier. *)
Definition ptrQuery (qname : string) (id : Z) : Dns.Msg :=
  Dns.set_Questions
    [{| Dns.Q_Name := qname; Dns.Qtype := Dns.TypePTR; Dns.Qclass := Dns.ClassINET |}]
    (Dns.set_RecursionDesired true (Dns.set_Id id Dns.Msg_zero)).

(** The world after one PTR query was built and exchanged. *)
Definition afterExchange (w : World) (msg : Dns.Msg) : World :=
  {| log := log w; entropy := entropy w; draws := S (draws w);
     sent := sent w ++ [msg] |}.

(** ** The query that one iteration builds, as a value *)

Section ExpectedQuery.

Variable ParseCIDR : string -> option (Net.IP * Net.IPNet).

(** The options of the OPT record, in the order of the source. *)
Definition expectedOptions (opts : Flags) : list Dns.EDNS0 :=
  ((if NSID opts
    then [Dns.OptNSID {| Dns.NSID_Code := 3; Dns.Nsid := "" |}] else [])
   ++ (if Pad opts
       then [Dns.OptPADDING
               {| Dns.Padding :=
                    repeat 0 (Z.to_nat (padLength 12 (UDPBuffer opts))) |}]
       else [])
   ++ (if GoStrings.nonEmpty (ClientSubnet opts)
       then match ParseCIDR (ClientSubnet opts) with
            | Some (ip, ipNet) =>
                [Dns.OptSUBNET
                   {| Dns.SUBNET_Code := 8;
                      Dns.Family := match Net.To4 ip with Some _ => 1 | None => 2 end;
                      Dns.SourceNetmask := uint8 (fst (Net.Size (Net.Mask ipNet)));
                      Dns.SourceScope := 0;
                      Dns.Address := ip |}]
            | None => []
            end
       else [])
   ++ (if GoStrings.nonEmpty (Cookie opts)
       then [Dns.OptCOOKIE {| Dns.COOKIE_Code := 10; Dns.Cookie := Cookie opts |}]
       else []))%list.

Definition expectedExtra (opts : Flags) : list Dns.RR :=
  if wantsOPT opts then
    [{| Dns.Header :=
          {| Dns.Name := "."; Dns.Rrtype := 41; Dns.Class := UDPBuffer opts;
             Dns.Ttl := if DNSSEC opts then 32768 else 0; Dns.Rdlength := 0 |};
        Dns.Data := Dns.RD_OPT (expectedOptions opts) |}]
  else [].

(** The identifier of a query built after [n] calls of the generator
    [e], and the number of calls after it. *)
Definition expectedId (opts : Flags) (e : nat -> Z) (n : nat) : Z :=
  if ID opts =? -1 then uint16 (e n) else uint16 (ID opts).

Definition nextDraw (opts : Flags) (n : nat) : nat :=
  if ID opts =? -1 then S n else n.

Definition expectedQuery (opts : Flags) (qType : Z) (id : Z) : Dns.Msg :=
  {| Dns.Id := id; Dns.Response := false; Dns.Opcode := 0;
     Dns.Authoritative := AuthoritativeAnswer opts;
     Dns.Truncated := Truncated opts;
     Dns.RecursionDesired := RecursionDesired opts;
     Dns.RecursionAvailable := RecursionAvailable opts;
     Dns.Zero := Zero opts;
     Dns.AuthenticatedData := AuthenticData opts;
     Dns.CheckingDisabled := CheckingDisabled opts;
     Dns.Rcode := 0; Dns.Compress := false;
     Dns.Questions :=
       [{| Dns.Q_Name := Dns.Fqdn (Name opts); Dns.Qtype := qType;
           Dns.Qclass := Class opts |}];
     Dns.Answer := []; Dns.Ns := [];
     Dns.Extra := expectedExtra opts |}.

(** The queries that the loop appends, one per requested type. *)
Fixpoint expectedQueries (opts : Flags) (e : nat -> Z) (n : nat)
    (rrTypes : list Z) : list Dns.Msg :=
  match rrTypes with
  | [] => []
  | qType :: rest =>
      expectedQuery opts qType (expectedId opts e n)
      :: expectedQueries opts e (nextDraw opts n) rest
  end.

End ExpectedQuery.

(** ** Readings used by the further properties *)

(** [e.Option()]: the code of an EDNS0 option, fixed by its type. *)
Definition optionCode (e : Dns.EDNS0) : Z :=
  match e with
  | Dns.OptNSID _ => Dns.EDNS0NSID
  | Dns.OptPADDING _ => Dns.EDNS0PADDING
  | Dns.OptSUBNET _ => Dns.EDNS0SUBNET
  | Dns.OptCOOKIE _ => Dns.EDNS0COOKIE
  end.

(** The codes of the options that the flags ask for, in the order in
    which the EDNS0 block appends them. *)
Definition requestedCodes (opts : Flags) : list Z :=
  ((if NSID opts then [Dns.EDNS0NSID] else [])
   ++ (if Pad opts then [Dns.EDNS0PADDING] else [])
   ++ (if GoStrings.nonEmpty (ClientSubnet opts) then [Dns.EDNS0SUBNET] else [])
   ++ (if GoStrings.nonEmpty (Cookie opts) then [Dns.EDNS0COOKIE] else []))%list.

(** A query without its identifier and its question section. *)
Definition batchPart (q : Dns.Msg) : Dns.Msg :=
  Dns.set_Id 0 (Dns.set_Questions [] q).



(** The trimmed values of the header strings whose trimmed name is
    [name], in the order of the strings. *)
Definition headerValues (l : list string) (name : string) : list string :=
  flat_map (fun h => match GoStrings.Cut ":" h with
                     | Some (n, v) =>
                         if String.eqb (GoStrings.TrimSpace n) name
                         then [GoStrings.TrimSpace v] else []
                     | None => []
                     end) l.

(** The address of an address record, as the switch of LoadPTRs reads
    it: by the dynamic type that the header type announces. *)
Definition addressOf (rr : Dns.RR) : option Net.IP :=
  if Dns.Rrtype (Dns.Header rr) =? Dns.TypeA then
    match Dns.Data rr with Dns.RD_A a => Some a | _ => None end
  else if Dns.Rrtype (Dns.Header rr) =? Dns.TypeAAAA then
    match Dns.Data rr with Dns.RD_AAAA a => Some a | _ => None end
  else None.

(** The cache keys that a list of replies can give rise to. *)
Definition addressTexts (IP_String : Net.IP -> string)
    (replies : list (option Dns.Msg)) : list string :=
  flat_map (fun rr => match addressOf rr with
                      | Some a => [IP_String a]
                      | None => []
                      end) (addressRRs replies).

(** The fatal entry that LoadPTRs logs when an address has no reverse
    name. *)
Definition reverseFatal (err : string) : LogEntry :=
  {| level := FatalLevel; format := "error reversing PTR record: %s";
     args := [LStr err] |}.

(** An Exchange that never makes LoadPTRs panic: a reply with answers
    starts with a PTR record. *)
Definition ptrFirst
    (Exchange : Transport.Transport -> list Dns.Msg -> Dns.Msg
                -> option Dns.Msg * option string)
    (t : Transport.Transport) : Prop :=
  forall history q resp first rest,
    Exchange t history q = (Some resp, None) ->
    Dns.Answer resp = first :: rest ->
    exists ptr, Dns.Data first = Dns.RD_PTR ptr.

(** * Properties *)

(** ** The monad *)

Lemma bind_Ret {A B} (m : M A) (k : A -> M B) (w w' : World) (a : A) :
  m w = Ret a w' -> bind m k w = k a w'.
Proof. unfold bind. intros ->. reflexivity. Qed.

Lemma bind_not_returns {A B} (m : M A) (k : A -> M B) (w : World) :
  ~ returns (m w) -> ~ returns (bind m k w).
Proof. unfold bind. destruct (m w); simpl; tauto. Qed.

Ltac run :=
  unfold bind, ret, logf, Fatalf, panic, dns_Id, add_log in *; simpl in *.

(** Decides the comparisons of protocol tags that are between constants. *)
Ltac tag_tests :=
  repeat match goal with
         | |- context [String.eqb ?a ?b] =>
             let v := eval vm_compute in (String.eqb a b) in
             match v with
             | true => change (String.eqb a b) with true
             | false => change (String.eqb a b) with false
             end
         end;
  cbv iota.

(** ** createQuery *)

Section CreateQueryFacts.

Variable ParseCIDR : string -> option (Net.IP * Net.IPNet).

(** The request on which the padding block calls [Len] has an empty
    question section and no records: its length is the header's. *)
Lemma Len_header_only (m : Dns.Msg) :
  Dns.Questions m = [] -> Dns.Answer m = [] -> Dns.Ns m = [] -> Dns.Extra m = [] ->
  Dns.Len m = 12.
Proof. unfold Dns.Len. intros -> -> -> ->. reflexivity. Qed.

(** One iteration returns when the subnet is absent or parses; it
    consumes one identifier exactly when the caller fixed none. *)
Lemma createQuery_body_returns (opts : Flags) (qType : Z) (w : World) :
  subnetOK ParseCIDR opts = true ->
  exists w',
    createQuery_body ParseCIDR opts qType w
    = Ret (expectedQuery ParseCIDR opts qType
             (expectedId opts (entropy w) (draws w))) w'
    /\ entropy w' = entropy w
    /\ draws w' = nextDraw opts (draws w)
    /\ sent w' = sent w.
Proof.
  unfold subnetOK, createQuery_body, buildOPT, addPadding, addSubnet,
    expectedQuery, expectedExtra, expectedOptions, expectedId, nextDraw,
    wantsOPT.
  intros Hok.
  destruct (ID opts =? -1); simpl;
    destruct (DNSSEC opts), (NSID opts), (Pad opts); simpl;
    destruct (GoStrings.nonEmpty (ClientSubnet opts)); simpl in *;
    try (destruct (ParseCIDR (ClientSubnet opts)) as [[ip ipNet]|];
         [|discriminate]; simpl);
    destruct (GoStrings.nonEmpty (Cookie opts)); simpl;
    run; eexists; (split; [reflexivity|]); simpl; auto.
Qed.

(** The loop returns the queries collected so far followed by one query
    per requested type. *)
Lemma createQuery_loop_returns (opts : Flags) (rrTypes : list Z) :
  subnetOK ParseCIDR opts = true ->
  forall (queries : list Dns.Msg) (w : World),
  exists w',
    createQuery_loop ParseCIDR opts rrTypes queries w
    = Ret (queries ++ expectedQueries ParseCIDR opts (entropy w) (draws w) rrTypes)%list w'
    /\ entropy w' = entropy w
    /\ draws w' = Nat.iter (length rrTypes) (nextDraw opts) (draws w)
    /\ sent w' = sent w.
Proof.
  intros Hok. induction rrTypes as [|qType rest IH]; intros queries w.
  - exists w. simpl. rewrite app_nil_r. auto.
  - destruct (createQuery_body_returns opts qType w Hok)
      as (w1 & Hbody & He & Hd & Hs).
    destruct (IH (queries ++ [expectedQuery ParseCIDR opts qType
                                (expectedId opts (entropy w) (draws w))])%list w1)
      as (w2 & Hloop & He2 & Hd2 & Hs2).
    exists w2. cbn [createQuery_loop expectedQueries length].
    rewrite (bind_Ret _ _ _ _ _ Hbody), Hloop.
    rewrite He, Hd, <- app_assoc. cbn [app].
    repeat split; try congruence.
    rewrite Hd2, Hd. symmetry. apply Nat.iter_succ_r.
Qed.

Lemma createQuery_returns (opts : Flags) (rrTypes : list Z) (w : World) :
  subnetOK ParseCIDR opts = true ->
  exists w',
    createQuery ParseCIDR opts rrTypes w
    = Ret (expectedQueries ParseCIDR opts (entropy w) (draws w) rrTypes) w'
    /\ draws w' = Nat.iter (length rrTypes) (nextDraw opts) (draws w).
Proof.
  intros Hok.
  destruct (createQuery_loop_returns opts rrTypes Hok [] w) as (w' & H & _ & Hd & _).
  exists w'. split; [exact H | exact Hd].
Qed.

Lemma expectedQueries_length (opts : Flags) (e : nat -> Z) (rrTypes : list Z) :
  forall n, length (expectedQueries ParseCIDR opts e n rrTypes) = length rrTypes.
Proof. induction rrTypes as [|t rest IH]; intros n; simpl; auto. Qed.

(** Every expected query has a property that holds of the query of each
    type with each identifier. *)
Lemma expectedQueries_Forall2 (opts : Flags) (e : nat -> Z)
    (R : Z -> Dns.Msg -> Prop) :
  (forall qType id, R qType (expectedQuery ParseCIDR opts qType id)) ->
  forall rrTypes n, Forall2 R rrTypes (expectedQueries ParseCIDR opts e n rrTypes).
Proof.
  intros HR rrTypes. induction rrTypes as [|t rest IH]; intros n; simpl.
  - constructor.
  - constructor; [apply HR | apply IH].
Qed.

Lemma expectedQueries_Forall (opts : Flags) (e : nat -> Z)
    (Q : Dns.Msg -> Prop) :
  (forall qType id, Q (expectedQuery ParseCIDR opts qType id)) ->
  forall rrTypes n, Forall Q (expectedQueries ParseCIDR opts e n rrTypes).
Proof.
  intros HQ rrTypes. induction rrTypes as [|t rest IH]; intros n; simpl.
  - constructor.
  - constructor; [apply HQ | apply IH].
Qed.

(** With no identifier fixed, the i-th query carries the i-th value
    that the generator gives from the current position on. *)
Lemma expectedQueries_random_ids (opts : Flags) (e : nat -> Z) (rrTypes : list Z) :
  ID opts = -1 ->
  forall n,
    map Dns.Id (expectedQueries ParseCIDR opts e n rrTypes)
    = map (fun i => uint16 (e (n + i)%nat)) (seq 0 (length rrTypes)).
Proof.
  intros Hid. induction rrTypes as [|t rest IH]; intros n.
  - reflexivity.
  - cbn [expectedQueries map length seq]. f_equal.
    + unfold expectedQuery, expectedId. simpl. rewrite Hid. simpl.
      f_equal. f_equal. lia.
    + unfold nextDraw at 1. rewrite Hid. simpl. rewrite IH.
      rewrite <- seq_shift, map_map. apply map_ext. intros i.
      f_equal. f_equal. lia.
Qed.

Lemma iter_nextDraw_random (opts : Flags) (k n : nat) :
  ID opts = -1 -> Nat.iter k (nextDraw opts) n = (n + k)%nat.
Proof.
  intros Hid. induction k as [|k IH]; simpl; [lia|].
  rewrite IH. unfold nextDraw. rewrite Hid. simpl. lia.
Qed.

Lemma iter_nextDraw_fixed (opts : Flags) (k n : nat) :
  ID opts <> -1 -> Nat.iter k (nextDraw opts) n = n.
Proof.
  intros Hid. induction k as [|k IH]; simpl; [reflexivity|].
  rewrite IH. unfold nextDraw.
  destruct (Z.eqb_spec (ID opts) (-1)); [contradiction | reflexivity].
Qed.

(** One iteration exits when the subnet is given and does not parse. *)
Lemma createQuery_body_exits (opts : Flags) (qType : Z) (w : World) :
  GoStrings.nonEmpty (ClientSubnet opts) = true ->
  ParseCIDR (ClientSubnet opts) = None ->
  exists w' l,
    createQuery_body ParseCIDR opts qType w = Exit w'
    /\ log w' = (l ++ [{| level := FatalLevel; format := "parsing subnet %s";
                         args := [LStr (ClientSubnet opts)] |}])%list.
Proof.
  unfold createQuery_body, buildOPT, addPadding, addSubnet, wantsOPT.
  intros Hne Hnone. rewrite Hne, Hnone.
  rewrite !orb_true_r. simpl.
  destruct (ID opts =? -1); simpl;
    destruct (DNSSEC opts), (NSID opts), (Pad opts); simpl;
    run; do 2 eexists; (split; [reflexivity|]); simpl; reflexivity.
Qed.

End CreateQueryFacts.

Lemma nonEmpty_true (s : string) : GoStrings.nonEmpty s = true <-> s <> "".
Proof. destruct s; simpl; split; intros H; congruence. Qed.

Lemma wantsOPT_fields (opts : Flags) :
  wantsOPT opts = true <->
  DNSSEC opts = true \/ NSID opts = true \/ Pad opts = true
  \/ ClientSubnet opts <> "" \/ Cookie opts <> "".
Proof.
  unfold wantsOPT. rewrite !orb_true_iff, !nonEmpty_true. tauto.
Qed.

Lemma IsEdns0_expectedQuery (P : string -> option (Net.IP * Net.IPNet))
    (opts : Flags) (qType id : Z) :
  IsEdns0 (expectedQuery P opts qType id)
  = if wantsOPT opts
    then Some {| Dns.Hdr :=
                   {| Dns.Name := "."; Dns.Rrtype := 41; Dns.Class := UDPBuffer opts;
                      Dns.Ttl := if DNSSEC opts then 32768 else 0;
                      Dns.Rdlength := 0 |};
                 Dns.Option := expectedOptions P opts |}
    else None.
Proof.
  unfold IsEdns0, expectedQuery, expectedExtra. simpl.
  destruct (wantsOPT opts); reflexivity.
Qed.

Lemma subnetOptions_expectedQuery (P : string -> option (Net.IP * Net.IPNet))
    (opts : Flags) (qType id : Z) (ip : Net.IP) (ipNet : Net.IPNet) :
  GoStrings.nonEmpty (ClientSubnet opts) = true ->
  P (ClientSubnet opts) = Some (ip, ipNet) ->
  subnetOptions (expectedQuery P opts qType id)
  = [{| Dns.SUBNET_Code := Dns.EDNS0SUBNET;
        Dns.Family := match Net.To4 ip with Some _ => 1 | None => 2 end;
        Dns.SourceNetmask := uint8 (fst (Net.Size (Net.Mask ipNet)));
        Dns.SourceScope := 0;
        Dns.Address := ip |}].
Proof.
  intros Hne Hparse. unfold subnetOptions.
  rewrite IsEdns0_expectedQuery. unfold wantsOPT, expectedOptions.
  rewrite Hne, Hparse, !orb_true_r. simpl.
  destruct (NSID opts), (Pad opts), (GoStrings.nonEmpty (Cookie opts)); reflexivity.
Qed.

(** The padding block sees the 12 bytes of the header, whatever the name
    and the other options are. *)
Lemma padLength_header (udpSize : Z) :
  padLength 12 udpSize = if 128 <=? udpSize then 116 else Z.max 0 (udpSize - 12).
Proof.
  unfold padLength. change (128 - Z.rem 12 128) with 116. change (12 + 116) with 128.
  destruct (Z.leb_spec 128 udpSize), (Z.gtb_spec 128 udpSize); try lia.
  destruct (Z.ltb_spec (udpSize - 12) 0); lia.
Qed.

Lemma paddingLengths_expectedQuery (P : string -> option (Net.IP * Net.IPNet))
    (opts : Flags) (qType id : Z) :
  Pad opts = true ->
  paddingLengths (expectedQuery P opts qType id)
  = [if 128 <=? UDPBuffer opts then 116 else Z.max 0 (UDPBuffer opts - 12)].
Proof.
  intros Hpad. unfold paddingLengths.
  rewrite IsEdns0_expectedQuery. unfold wantsOPT, expectedOptions.
  rewrite Hpad, !orb_true_r. simpl.
  assert (Hlen : Z.of_nat (length (repeat 0 (Z.to_nat (padLength 12 (UDPBuffer opts)))))
                 = if 128 <=? UDPBuffer opts then 116 else Z.max 0 (UDPBuffer opts - 12)).
  { rewrite repeat_length, padLength_header.
    destruct (128 <=? UDPBuffer opts); lia. }
  destruct (NSID opts); simpl;
    destruct (GoStrings.nonEmpty (ClientSubnet opts)); simpl;
    try destruct (P (ClientSubnet opts)) as [[ip ipNet]|]; simpl;
    destruct (GoStrings.nonEmpty (Cookie opts)); simpl; rewrite Hlen; reflexivity.
Qed.

(** ** The IPv4 fragment of net.ParseCIDR *)

(** The mask of a prefix of [n] bits has [n] leading ones. *)
Lemma Size_CIDRMask_32 (n : Z) :
  0 <= n <= 32 -> Net.Size (Net.CIDRMask n 32) = (n, 32).
Proof.
  intros Hn.
  assert (Hall : forallb (fun k => let '(ones, bits) := Net.Size (Net.CIDRMask k 32) in
                                   (ones =? k) && (bits =? 32))
                         (map Z.of_nat (seq 0 33)) = true) by (vm_compute; reflexivity).
  rewrite forallb_forall in Hall.
  specialize (Hall n). destruct (Net.Size (Net.CIDRMask n 32)) as [ones bits].
  assert (Hin : In n (map Z.of_nat (seq 0 33))).
  { apply in_map_iff. exists (Z.to_nat n). split; [lia|]. apply in_seq. lia. }
  apply Hall in Hin. apply andb_true_iff in Hin as [H1 H2].
  apply Z.eqb_eq in H1, H2. congruence.
Qed.

(** A prefix that parses in the fragment is [addr/n] with a decimal [n]
    of at most 32; the address comes back in IPv4-in-IPv6 form, so [To4]
    is not nil, and the mask has exactly [n] leading ones. *)
Lemma IPv4_ParseCIDR_prefix (s : string) (ip : Net.IP) (ipNet : Net.IPNet) :
  IPv4.ParseCIDR s = Some (ip, ipNet) ->
  exists addr mask n,
    GoStrings.Cut "/" s = Some (addr, mask)
    /\ IPv4.dtoi mask = Some n
    /\ 0 <= n <= 32
    /\ uint8 (fst (Net.Size (Net.Mask ipNet))) = n
    /\ Net.To4 ip <> None.
Proof.
  unfold IPv4.ParseCIDR.
  destruct (GoStrings.Cut "/" s) as [[addr mask]|]; [|discriminate].
  destruct (IPv4.parseIPv4 addr) as [ip4|] eqn:Hip; [|discriminate].
  destruct (IPv4.dtoi mask) as [n|] eqn:Hn; [|discriminate].
  destruct (Z.ltb_spec 32 n) as [Hgt|Hle]; [discriminate|].
  intros [= <- <-]. exists addr, mask, n.
  assert (H0 : 0 <= n).
  { unfold IPv4.dtoi in Hn. destruct (IPv4.decimal mask) as [v|] eqn:Hdec; [|discriminate].
    destruct (16777215 <=? v); [discriminate|]. injection Hn as <-.
    unfold IPv4.decimal in Hdec.
    assert (Hgo : forall l acc v, 0 <= acc -> IPv4.decimal_go l acc = Some v -> 0 <= v).
    { induction l as [|c l IH]; simpl; intros acc v0 Hacc.
      - intros [= <-]. exact Hacc.
      - unfold IPv4.digit. destruct (Dns.isDigit c) eqn:Hd; [|discriminate].
        apply IH. unfold Dns.isDigit in Hd. apply andb_true_iff in Hd as [Hd _].
        apply Nat.leb_le in Hd. lia. }
    destruct (list_ascii_of_string mask) as [|c0 l0]; [discriminate|].
    apply (Hgo (c0 :: l0) 0 v); [lia | exact Hdec]. }
  repeat split; try assumption.
  - simpl. rewrite Size_CIDRMask_32 by lia. simpl. unfold uint8.
    apply Z.mod_small. lia.
  - unfold IPv4.parseIPv4 in Hip.
    destruct (map IPv4.parseOctet (IPv4.split "." addr))
      as [|[a|] [|[b|] [|[c|] [|[d|] [|]]]]]; try discriminate.
    injection Hip as <-. discriminate.
Qed.

(** With padding on, every query carries one padding option whose length
    depends on the advertised buffer size only. *)
Lemma createQuery_padding_length
    (ParseCIDR : string -> option (Net.IP * Net.IPNet))
    (opts : Flags) (rrTypes : list Z) (w : World) :
  subnetOK ParseCIDR opts = true -> Pad opts = true ->
  exists queries w',
    createQuery ParseCIDR opts rrTypes w = Ret queries w'
    /\ Forall (fun q =>
                 paddingLengths q
                 = [if 128 <=? UDPBuffer opts then 116
                    else Z.max 0 (UDPBuffer opts - 12)]) queries.
Proof.
  intros Hok Hpad.
  destruct (createQuery_returns ParseCIDR opts rrTypes w Hok) as (w' & Hrun & _).
  eexists _, w'. split; [exact Hrun|].
  apply expectedQueries_Forall. intros qType id.
  apply paddingLengths_expectedQuery. exact Hpad.
Qed.

(** ** Claims about createQuery *)

(** C1 (the code departs from the claim).  The claim: with padding on,
    the serialized query is a multiple of 128 bytes long unless the
    advertised buffer size forces a shorter padding, which then fills the
    room left after the unpadded message.  The code measures the request
    before the question and the OPT record are attached, so it always
    sees the 12 bytes of the header.  For example.com, type A:
    - with a buffer of 1232 bytes it pads with 116 bytes and the query is
      160 bytes long, not a multiple of 128, although the buffer leaves
      room;
    - with a buffer of 100 bytes it pads with 88 bytes (100 - 12) and the
      query is 132 bytes long, more than the buffer. *)
Theorem createQuery_padding_measures_bare_header :
  (exists q w',
     createQuery IPv4.ParseCIDR (queryFlags (-1) false false true "" "" 1232)
                 [Dns.TypeA] (world0 (fun _ => 7)) = Ret [q] w'
     /\ paddingLengths q = [116]
     /\ Dns.Len q = 160
     /\ Dns.Len q mod 128 = 32
     /\ Dns.Len q <= 1232)
  /\ (exists q w',
        createQuery IPv4.ParseCIDR (queryFlags (-1) false false true "" "" 100)
                    [Dns.TypeA] (world0 (fun _ => 7)) = Ret [q] w'
        /\ paddingLengths q = [88]
        /\ Dns.Len q = 132
        /\ 100 < Dns.Len q).
Proof.
  split; do 2 eexists; (split; [vm_compute; reflexivity|]);
    repeat split; vm_compute; congruence.
Qed.

(** C2 as stated fails: the advertised buffer size is set (1232), no
    other EDNS0 field is, and the query has no OPT record. *)
Lemma createQuery_buffer_size_alone_no_OPT :
  ednsActive_spec (queryFlags (-1) false false false "" "" 1232) = true
  /\ exists q w',
       createQuery IPv4.ParseCIDR (queryFlags (-1) false false false "" "" 1232)
                   [Dns.TypeA] (world0 (fun _ => 7)) = Ret [q] w'
       /\ IsEdns0 q = None
       /\ Dns.Extra q = [].
Proof.
  split; [reflexivity|].
  do 2 eexists. split; [vm_compute; reflexivity|]. split; reflexivity.
Qed.

(** C2 (amended).  When the client subnet is absent or parses, every
    query that createQuery builds carries an OPT record if and only if
    DNSSEC-OK, NSID, padding, a client subnet or a cookie is requested;
    the advertised buffer size does not count: it is the class of the OPT
    record when there is one.  With none of the five requested the
    additional section is empty. *)
Theorem createQuery_OPT_iff_option_requested :
  forall (ParseCIDR : string -> option (Net.IP * Net.IPNet))
         (opts : Flags) (rrTypes : list Z) (w : World),
    subnetOK ParseCIDR opts = true ->
    exists queries w',
      createQuery ParseCIDR opts rrTypes w = Ret queries w'
      /\ length queries = length rrTypes
      /\ Forall (fun q =>
                   ((exists o, IsEdns0 q = Some o) <->
                    (DNSSEC opts = true \/ NSID opts = true \/ Pad opts = true
                     \/ ClientSubnet opts <> "" \/ Cookie opts <> ""))
                   /\ (forall o, IsEdns0 q = Some o ->
                                 Dns.Extra q = [Dns.RR_of_OPT o]
                                 /\ Dns.UDPSize o = UDPBuffer opts)
                   /\ (IsEdns0 q = None -> Dns.Extra q = []))
                queries.
Proof.
  intros P opts rrTypes w Hok.
  destruct (createQuery_returns P opts rrTypes w Hok) as (w' & Hrun & _).
  exists (expectedQueries P opts (entropy w) (draws w) rrTypes), w'.
  split; [exact Hrun|]. split; [apply expectedQueries_length|].
  apply expectedQueries_Forall. intros qType id.
  rewrite IsEdns0_expectedQuery, <- wantsOPT_fields.
  unfold expectedQuery, expectedExtra. simpl.
  destruct (wantsOPT opts); simpl.
  - split; [split; eauto|]. split; [|discriminate].
    intros o Ho. injection Ho as <-. split; reflexivity.
  - split; [split; [intros [o Ho]; discriminate | discriminate]|].
    split; [discriminate | reflexivity].
Qed.

Lemma createQuery_OPT_iff_option_requested_witness :
  subnetOK IPv4.ParseCIDR (queryFlags 5 true false false "" "" 1232) = true
  /\ exists queries w',
       createQuery IPv4.ParseCIDR (queryFlags 5 true false false "" "" 1232)
                   [Dns.TypeA; Dns.TypeAAAA] (world0 (fun _ => 7)) = Ret queries w'
       /\ length queries = 2%nat
       /\ Forall (fun q =>
                    ((exists o, IsEdns0 q = Some o) <->
                     (true = true \/ false = true \/ false = true
                      \/ "" <> "" \/ "" <> ""))
                    /\ (forall o, IsEdns0 q = Some o ->
                                  Dns.Extra q = [Dns.RR_of_OPT o]
                                  /\ Dns.UDPSize o = 1232)
                    /\ (IsEdns0 q = None -> Dns.Extra q = []))
                 queries.
Proof.
  split; [reflexivity|].
  exact (createQuery_OPT_iff_option_requested IPv4.ParseCIDR
           (queryFlags 5 true false false "" "" 1232)
           [Dns.TypeA; Dns.TypeAAAA] (world0 (fun _ => 7)) eq_refl).
Defined.

(** C3.  With a non-empty client subnet, createQuery on a non-empty batch
    hands the string to [net.ParseCIDR].  If that fails, the process exits
    through [log.Fatalf].  Otherwise every query carries exactly one
    subnet option: family 1 (IPv4) when [To4] of the parsed address is not
    nil and 2 (IPv6) when it is, source netmask the number of leading ones
    of the parsed mask, scope netmask 0. *)
Theorem createQuery_client_subnet :
  forall (ParseCIDR : string -> option (Net.IP * Net.IPNet))
         (opts : Flags) (qType : Z) (rest : list Z) (w : World),
    ClientSubnet opts <> "" ->
    match ParseCIDR (ClientSubnet opts) with
    | None =>
        exists w' l,
          createQuery ParseCIDR opts (qType :: rest) w = Exit w'
          /\ log w' = (l ++ [{| level := FatalLevel; format := "parsing subnet %s";
                               args := [LStr (ClientSubnet opts)] |}])%list
    | Some (ip, ipNet) =>
        exists queries w',
          createQuery ParseCIDR opts (qType :: rest) w = Ret queries w'
          /\ length queries = S (length rest)
          /\ Forall (fun q =>
                       subnetOptions q
                       = [{| Dns.SUBNET_Code := Dns.EDNS0SUBNET;
                             Dns.Family := match Net.To4 ip with
                                           | Some _ => 1
                                           | None => 2
                                           end;
                             Dns.SourceNetmask := uint8 (fst (Net.Size (Net.Mask ipNet)));
                             Dns.SourceScope := 0;
                             Dns.Address := ip |}])
                    queries
    end.
Proof.
  intros P opts qType rest w Hne. apply nonEmpty_true in Hne.
  destruct (P (ClientSubnet opts)) as [[ip ipNet]|] eqn:Hparse.
  - assert (Hok : subnetOK P opts = true).
    { unfold subnetOK. rewrite Hparse. apply orb_true_r. }
    destruct (createQuery_returns P opts (qType :: rest) w Hok) as (w' & Hrun & _).
    eexists _, w'. split; [exact Hrun|].
    split; [apply (expectedQueries_length P opts (entropy w) (qType :: rest))|].
    apply expectedQueries_Forall. intros t id.
    apply subnetOptions_expectedQuery; assumption.
  - destruct (createQuery_body_exits P opts qType w Hne Hparse) as (w' & l & Hbody & Hlog).
    exists w', l. split; [|exact Hlog].
    unfold createQuery. simpl. unfold bind. rewrite Hbody. reflexivity.
Qed.

(** The example of the spec: for "203.0.113.0/24" the option has family
    IPv4, source netmask 24 and scope netmask 0. *)
Lemma createQuery_client_subnet_witness :
  ClientSubnet (queryFlags (-1) false false false "203.0.113.0/24" "" 1232) <> ""
  /\ exists queries w',
       createQuery IPv4.ParseCIDR
                   (queryFlags (-1) false false false "203.0.113.0/24" "" 1232)
                   [Dns.TypeA] (world0 (fun _ => 7)) = Ret queries w'
       /\ length queries = 1%nat
       /\ Forall (fun q =>
                    subnetOptions q
                    = [{| Dns.SUBNET_Code := 8;
                          Dns.Family := 1;
                          Dns.SourceNetmask := 24;
                          Dns.SourceScope := 0;
                          Dns.Address := [0; 0; 0; 0; 0; 0; 0; 0; 0; 0; 255; 255;
                                          203; 0; 113; 0] |}])
                 queries.
Proof.
  split; [discriminate|].
  exact (createQuery_client_subnet IPv4.ParseCIDR
           (queryFlags (-1) false false false "203.0.113.0/24" "" 1232)
           Dns.TypeA [] (world0 (fun _ => 7)) ltac:(discriminate)).
Defined.

(** C4 as stated fails: the caller fixed no identifier, the batch has two
    types, and the generator gives the same value twice; the two queries
    carry the same identifier. *)
Lemma createQuery_random_ids_may_coincide :
  ID (queryFlags (-1) false false false "" "" 1232) = -1
  /\ exists q1 q2 w',
       createQuery IPv4.ParseCIDR (queryFlags (-1) false false false "" "" 1232)
                   [Dns.TypeA; Dns.TypeAAAA] (world0 (fun _ => 7)) = Ret [q1; q2] w'
       /\ Dns.Id q1 = Dns.Id q2.
Proof.
  split; [reflexivity|].
  do 3 eexists. split; [vm_compute; reflexivity|]. reflexivity.
Qed.

(** C4 (amended).  When the caller fixed no identifier (ID is -1), the
    i-th query of the batch carries the i-th value drawn from the
    generator, one draw per query, so two queries differ exactly when
    their draws do; when the caller fixed one, every query carries that
    value converted to uint16, which is the value itself when it lies in
    0..65535, and the generator is not used. *)
Theorem createQuery_identifiers :
  forall (ParseCIDR : string -> option (Net.IP * Net.IPNet))
         (opts : Flags) (rrTypes : list Z) (w : World),
    subnetOK ParseCIDR opts = true ->
    exists queries w',
      createQuery ParseCIDR opts rrTypes w = Ret queries w'
      /\ length queries = length rrTypes
      /\ (ID opts = -1 ->
          map Dns.Id queries
          = map (fun i => uint16 (entropy w (draws w + i)%nat))
                (seq 0 (length rrTypes))
          /\ draws w' = (draws w + length rrTypes)%nat)
      /\ (ID opts <> -1 ->
          Forall (fun q => Dns.Id q = uint16 (ID opts)) queries
          /\ draws w' = draws w)
      /\ (0 <= ID opts < 65536 ->
          Forall (fun q => Dns.Id q = ID opts) queries).
Proof.
  intros P opts rrTypes w Hok.
  destruct (createQuery_returns P opts rrTypes w Hok) as (w' & Hrun & Hd).
  exists (expectedQueries P opts (entropy w) (draws w) rrTypes), w'.
  split; [exact Hrun|]. split; [apply expectedQueries_length|].
  assert (Hfixed : ID opts <> -1 ->
            forall n l, Forall (fun q => Dns.Id q = uint16 (ID opts))
                          (expectedQueries P opts (entropy w) n l)).
  { intros Hid n l. revert n. induction l as [|t l IH]; intros n; simpl.
    - constructor.
    - constructor; [|apply IH].
      unfold expectedQuery, expectedId. simpl.
      destruct (Z.eqb_spec (ID opts) (-1)); [contradiction | reflexivity]. }
  split; [|split].
  - intros Hid. split.
    + apply expectedQueries_random_ids. exact Hid.
    + rewrite Hd. apply iter_nextDraw_random. exact Hid.
  - intros Hid. split; [apply Hfixed; exact Hid|].
    rewrite Hd. apply iter_nextDraw_fixed. exact Hid.
  - intros Hrange.
    assert (Hid : ID opts <> -1) by lia.
    eapply Forall_impl; [apply Hfixed; exact Hid|].
    intros q Hq. simpl in Hq. rewrite Hq. unfold uint16.
    apply Z.mod_small. lia.
Qed.

(** Two types, identifier fixed to 4242: both queries carry 4242; and
    with no identifier fixed and a generator that counts, the two queries
    carry the two values drawn. *)
Lemma createQuery_identifiers_witness :
  subnetOK IPv4.ParseCIDR (queryFlags 4242 false false false "" "" 1232) = true
  /\ exists queries w',
       createQuery IPv4.ParseCIDR (queryFlags 4242 false false false "" "" 1232)
                   [Dns.TypeA; Dns.TypeAAAA] (world0 (fun n => Z.of_nat n + 100))
       = Ret queries w'
       /\ length queries = 2%nat
       /\ Forall (fun q => Dns.Id q = 4242) queries.
Proof.
  split; [reflexivity|].
  destruct (createQuery_identifiers IPv4.ParseCIDR
              (queryFlags 4242 false false false "" "" 1232)
              [Dns.TypeA; Dns.TypeAAAA] (world0 (fun n => Z.of_nat n + 100))
              eq_refl)
    as (queries & w' & Hrun & Hlen & _ & _ & Hfix).
  exists queries, w'. split; [exact Hrun|]. split; [exact Hlen|].
  apply Hfix. simpl. lia.
Defined.

(** C5.  When the client subnet is absent or parses, createQuery returns
    one query per requested type, in the order of the request, repeated
    types included: the i-th query asks for the i-th type (for the
    fully qualified name and the class of the options), and the seven
    header flags of every query are those of the options. *)
Theorem createQuery_one_query_per_type :
  forall (ParseCIDR : string -> option (Net.IP * Net.IPNet))
         (opts : Flags) (rrTypes : list Z) (w : World),
    subnetOK ParseCIDR opts = true ->
    exists queries w',
      createQuery ParseCIDR opts rrTypes w = Ret queries w'
      /\ length queries = length rrTypes
      /\ Forall2 (fun qType q =>
                    Dns.Questions q
                    = [{| Dns.Q_Name := Dns.Fqdn (Name opts); Dns.Qtype := qType;
                          Dns.Qclass := Class opts |}]
                    /\ flagsCopied opts q)
                 rrTypes queries.
Proof.
  intros P opts rrTypes w Hok.
  destruct (createQuery_returns P opts rrTypes w Hok) as (w' & Hrun & _).
  exists (expectedQueries P opts (entropy w) (draws w) rrTypes), w'.
  split; [exact Hrun|]. split; [apply expectedQueries_length|].
  apply expectedQueries_Forall2. intros qType id.
  unfold flagsCopied, expectedQuery. simpl. repeat split; reflexivity.
Qed.

Lemma createQuery_one_query_per_type_witness :
  subnetOK IPv4.ParseCIDR (queryFlags 9 true true true "198.51.100.0/25" "" 1232) = true
  /\ exists queries w',
       createQuery IPv4.ParseCIDR
                   (queryFlags 9 true true true "198.51.100.0/25" "" 1232)
                   [Dns.TypeA; Dns.TypeAAAA; Dns.TypeA] (world0 (fun _ => 7))
       = Ret queries w'
       /\ length queries = 3%nat
       /\ Forall2 (fun qType q =>
                     Dns.Questions q
                     = [{| Dns.Q_Name := "example.com."; Dns.Qtype := qType;
                           Dns.Qclass := 1 |}]
                     /\ flagsCopied
                          (queryFlags 9 true true true "198.51.100.0/25" "" 1232) q)
                  [Dns.TypeA; Dns.TypeAAAA; Dns.TypeA] queries.
Proof.
  split; [reflexivity|].
  exact (createQuery_one_query_per_type IPv4.ParseCIDR
           (queryFlags 9 true true true "198.51.100.0/25" "" 1232)
           [Dns.TypeA; Dns.TypeAAAA; Dns.TypeA] (world0 (fun _ => 7)) eq_refl).
Defined.

(** ** strings.SplitN and strings.TrimSpace *)

Section StringFacts.

Import GoStrings.

(** [Cut] splits at the first separator: the text before it has none. *)
Lemma Cut_Some (sep : ascii) (s before after : string) :
  Cut sep s = Some (before, after) ->
  s = before +:+ String sep after /\ ~ In sep (list_ascii_of_string before).
Proof.
  revert before after. induction s as [|c s IH]; intros before after; simpl.
  - discriminate.
  - destruct (Ascii.eqb_spec c sep) as [->|Hne].
    + intros [= <- <-]. simpl. tauto.
    + destruct (Cut sep s) as [[b a]|]; [|discriminate].
      intros [= <- <-]. destruct (IH b a eq_refl) as [-> Hnot].
      simpl. split; [reflexivity|]. intros [H|H]; [congruence | tauto].
Qed.

Lemma Cut_first (sep : ascii) (before after : string) :
  ~ In sep (list_ascii_of_string before) ->
  Cut sep (before +:+ String sep after) = Some (before, after).
Proof.
  induction before as [|c before IH]; simpl; intros Hnot.
  - rewrite Ascii.eqb_refl. reflexivity.
  - destruct (Ascii.eqb_spec c sep) as [->|Hne]; [tauto|].
    rewrite IH; [reflexivity | tauto].
Qed.

Lemma Cut_None (sep : ascii) (s : string) :
  Cut sep s = None <-> ~ In sep (list_ascii_of_string s).
Proof.
  induction s as [|c s IH]; simpl.
  - tauto.
  - destruct (Ascii.eqb_spec c sep) as [->|Hne].
    + split; [discriminate | tauto].
    + destruct (Cut sep s) as [[b a]|].
      * split; [discriminate|]. intros H. exfalso.
        assert (Hs : ~ In sep (list_ascii_of_string s)) by tauto.
        apply IH in Hs. discriminate.
      * split; [|reflexivity]. intros _ [H|H]; [congruence|].
        destruct IH as [IH _]. exact (IH eq_refl H).
Qed.

(** [SplitN2] has two pieces exactly when there is a separator. *)
Lemma SplitN2_pieces (sep : ascii) (s : string) :
  SplitN2 s sep
  = match Cut sep s with Some (b, a) => [b; a] | None => [s] end.
Proof. reflexivity. Qed.

(** A byte below 128 that is not white space stops the trimming, from
    the left and from the right. *)
Lemma trimLeft_stop (c : ascii) (s : list ascii) :
  (nat_of_ascii c < 128)%nat -> asciiSpace c = false ->
  trimLeft (c :: s) = c :: s.
Proof.
  intros Hlt Hsp. cbn [trimLeft]. rewrite Hsp.
  assert (H2 : forall b, isSpace2 c b = false).
  { intros b. unfold isSpace2.
    destruct (Nat.eqb_spec (nat_of_ascii c) 194); [lia | reflexivity]. }
  assert (H3 : forall b d, isSpace3 c b d = false).
  { intros b d. unfold isSpace3.
    destruct (Nat.eqb_spec (nat_of_ascii c) 225); [lia|].
    destruct (Nat.eqb_spec (nat_of_ascii c) 226); [lia|].
    destruct (Nat.eqb_spec (nat_of_ascii c) 227); [lia|]. reflexivity. }
  destruct s as [|b [|d s]]; rewrite ?H2, ?H3; reflexivity.
Qed.

Lemma trimRightRev_stop (c : ascii) (s : list ascii) :
  (nat_of_ascii c < 128)%nat -> asciiSpace c = false ->
  trimRightRev (c :: s) = c :: s.
Proof.
  intros Hlt Hsp. cbn [trimRightRev]. rewrite Hsp.
  assert (H2 : forall b, isSpace2 b c = false).
  { intros b. unfold isSpace2.
    destruct (Nat.eqb_spec (nat_of_ascii c) 133); [lia|].
    destruct (Nat.eqb_spec (nat_of_ascii c) 160); [lia|].
    apply andb_false_r. }
  assert (H3 : forall a b, isSpace3 a b c = false).
  { intros a b. unfold isSpace3.
    destruct (Nat.eqb_spec (nat_of_ascii c) 128); [lia|].
    destruct (Nat.eqb_spec (nat_of_ascii c) 168); [lia|].
    destruct (Nat.eqb_spec (nat_of_ascii c) 169); [lia|].
    destruct (Nat.eqb_spec (nat_of_ascii c) 175); [lia|].
    destruct (Nat.eqb_spec (nat_of_ascii c) 159); [lia|].
    destruct (Nat.leb_spec 128 (nat_of_ascii c)); [lia|].
    rewrite !andb_false_r. reflexivity. }
  destruct s as [|b [|a s]]; rewrite ?H2, ?H3; reflexivity.
Qed.

Lemma trimLeft_spaces (l s : list ascii) :
  forallb asciiSpace l = true -> trimLeft (l ++ s) = trimLeft s.
Proof.
  induction l as [|c l IH]; simpl; [reflexivity|].
  intros H. apply andb_true_iff in H as [Hc Hl]. rewrite Hc. auto.
Qed.

Lemma trimRightRev_spaces (l s : list ascii) :
  forallb asciiSpace l = true -> trimRightRev (l ++ s) = trimRightRev s.
Proof.
  induction l as [|c l IH]; simpl; [reflexivity|].
  intros H. apply andb_true_iff in H as [Hc Hl]. rewrite Hc. auto.
Qed.

(** [TrimSpace] removes the white space on both sides: around a text
    that begins and ends with bytes below 128 that are not white space,
    any run of ASCII white space is removed and the text is kept. *)
Lemma TrimSpace_both_sides (l r : list ascii) (first last : ascii) (mid : list ascii) :
  forallb asciiSpace l = true -> forallb asciiSpace r = true ->
  (nat_of_ascii first < 128)%nat -> asciiSpace first = false ->
  (nat_of_ascii last < 128)%nat -> asciiSpace last = false ->
  TrimSpace (string_of_list_ascii (l ++ (first :: mid ++ [last]) ++ r))
  = string_of_list_ascii (first :: mid ++ [last]).
Proof.
  intros Hl Hr Hf1 Hf2 Hl1 Hl2. unfold TrimSpace.
  rewrite list_ascii_of_string_of_list_ascii.
  rewrite trimLeft_spaces by exact Hl.
  change ((first :: mid ++ [last]) ++ r)%list
    with (first :: (mid ++ [last]) ++ r)%list.
  rewrite trimLeft_stop by assumption.
  change (first :: (mid ++ [last]) ++ r)%list
    with ((first :: mid ++ [last]) ++ r)%list.
  rewrite rev_app_distr.
  rewrite trimRightRev_spaces
    by (rewrite forallb_forall in *; intros x Hx; apply Hr, in_rev; exact Hx).
  change (first :: mid ++ [last])%list with ((first :: mid) ++ [last])%list.
  rewrite rev_app_distr. cbn [rev app].
  rewrite trimRightRev_stop by assumption.
  change (last :: rev mid ++ [first])%list
    with ([last] ++ (rev mid ++ [first]))%list.
  rewrite rev_app_distr, rev_app_distr, rev_involutive. reflexivity.
Qed.

(** A string of white space only is trimmed to the empty string. *)
Lemma TrimSpace_all_spaces (l : list ascii) :
  forallb asciiSpace l = true -> TrimSpace (string_of_list_ascii l) = "".
Proof.
  intros Hl. unfold TrimSpace. rewrite list_ascii_of_string_of_list_ascii.
  rewrite <- (app_nil_r l), trimLeft_spaces by exact Hl. reflexivity.
Qed.

End StringFacts.

(** ** newTransport: the header loop *)

Lemma warnings_app (l1 l2 : list LogEntry) :
  warnings (l1 ++ l2) = (warnings l1 ++ warnings l2)%list.
Proof. unfold warnings. apply flat_map_app. Qed.

(** One iteration does what the spec says of one header string, and warns
    exactly when the string has no colon. *)
Lemma parseHeader_spec (headers : gmap string (list string)) (header : string) (w : World) :
  exists w',
    parseHeader headers header w = Ret (addHeader_spec headers header) w'
    /\ warnings (log w')
       = (warnings (log w)
          ++ match GoStrings.Cut ":" header with
             | Some _ => []
             | None => [[LStr header]]
             end)%list
    /\ entropy w' = entropy w /\ draws w' = draws w /\ sent w' = sent w.
Proof.
  unfold parseHeader, addHeader_spec. rewrite SplitN2_pieces.
  destruct (GoStrings.Cut ":" header) as [[name value]|]; simpl; run;
    eexists; (split; [reflexivity|]); simpl;
    rewrite warnings_app; simpl; rewrite ?app_nil_r; auto.
Qed.

Lemma parseHeaders_spec (l : list string) :
  forall (headers : gmap string (list string)) (w : World),
  exists w',
    parseHeaders headers l w = Ret (fold_left addHeader_spec l headers) w'
    /\ warnings (log w')
       = (warnings (log w) ++ map (fun h => [LStr h]) (malformed l))%list
    /\ entropy w' = entropy w /\ draws w' = draws w /\ sent w' = sent w.
Proof.
  induction l as [|header rest IH]; intros headers w.
  - exists w. simpl. rewrite app_nil_r. auto.
  - destruct (parseHeader_spec headers header w) as (w1 & H1 & Hw1 & He1 & Hd1 & Hs1).
    destruct (IH (addHeader_spec headers header) w1) as (w2 & H2 & Hw2 & He2 & Hd2 & Hs2).
    exists w2. cbn [parseHeaders fold_left].
    rewrite (bind_Ret _ _ _ _ _ H1), H2. split; [reflexivity|].
    split; [|repeat split; congruence].
    rewrite Hw2, Hw1, <- app_assoc. f_equal.
    unfold malformed. rewrite filter_cons.
    destruct (decide (GoStrings.Cut ":" header = None)) as [Hnone|Hsome].
    + rewrite Hnone. reflexivity.
    + destruct (GoStrings.Cut ":" header); [reflexivity | contradiction].
Qed.

(** C6.  In the HTTP(S) branch (no ODoH proxy configured) newTransport
    always returns an HTTP transport and a nil error, whatever the header
    strings are.  The header map is the one the spec describes: a string
    [name ++ ":" ++ value] whose [name] has no colon adds the trimmed
    value under the trimmed name, and a string without colon adds nothing
    and is reported by one warning.  Trimming removes the white space on
    both sides of a text. *)
Theorem newTransport_http_headers :
  forall (opts : Flags) (server : string)
         (tlsConfig : option Transport.TLSConfig) (w : World),
    ODoHProxy opts = "" ->
    (exists h w',
       newTransport opts server Transport.TypeHTTP tlsConfig w
       = Ret (Some (Transport.T_HTTP h), None) w'
       /\ Transport.Headers h = headers_spec (HTTPHeaders opts)
       /\ warnings (log w')
          = (warnings (log w)
             ++ map (fun h => [LStr h]) (malformed (HTTPHeaders opts)))%list)
    /\ (forall (m : gmap string (list string)) (name value : string),
          ~ In ":"%char (list_ascii_of_string name) ->
          addHeader_spec m (name +:+ String ":" value)
          = <[GoStrings.TrimSpace name :=
                (default [] (m !! GoStrings.TrimSpace name)
                 ++ [GoStrings.TrimSpace value])%list]> m)
    /\ (forall (m : gmap string (list string)) (header : string),
          ~ In ":"%char (list_ascii_of_string header) ->
          addHeader_spec m header = m /\ malformed [header] = [header])
    /\ (forall (l r : list ascii) (first last : ascii) (mid : list ascii),
          forallb GoStrings.asciiSpace l = true ->
          forallb GoStrings.asciiSpace r = true ->
          (nat_of_ascii first < 128)%nat -> GoStrings.asciiSpace first = false ->
          (nat_of_ascii last < 128)%nat -> GoStrings.asciiSpace last = false ->
          GoStrings.TrimSpace
            (string_of_list_ascii (l ++ (first :: mid ++ [last]) ++ r))
          = string_of_list_ascii (first :: mid ++ [last])).
Proof.
  intros opts server tlsConfig w Hproxy. split; [|split; [|split]].
  - unfold newTransport. tag_tests. rewrite Hproxy. cbn [GoStrings.nonEmpty].
    unfold headers_spec.
    set (w0 := add_log {| level := DebugLevel;
                          format := "Using HTTP(s) transport: %s";
                          args := [LStr server] |} w).
    destruct (parseHeaders_spec (HTTPHeaders opts) ∅ w0) as (w' & Hrun & Hwarn & _).
    eexists _, w'. split; [|split].
    + unfold bind at 1. unfold logf. fold w0.
      rewrite (bind_Ret _ _ _ _ _ Hrun). reflexivity.
    + reflexivity.
    + rewrite Hwarn. unfold w0, add_log. simpl.
      rewrite warnings_app. simpl. rewrite app_nil_r. reflexivity.
  - intros m name value Hname. unfold addHeader_spec.
    rewrite Cut_first by exact Hname. reflexivity.
  - intros m header Hnone. apply Cut_None in Hnone.
    unfold addHeader_spec, malformed. rewrite Hnone. split; [reflexivity|].
    rewrite filter_cons. destruct (decide (GoStrings.Cut ":" header = None));
      [reflexivity | contradiction].
  - apply TrimSpace_both_sides.
Qed.

(** The examples of the spec: "X-Test:  value " gives the header X-Test
    with the value "value"; "malformed" is dropped with a warning, and
    the transport is built. *)
Lemma newTransport_http_headers_witness :
  ODoHProxy (httpFlags ["X-Test:  value "; "malformed"]) = ""
  /\ exists h w',
       newTransport (httpFlags ["X-Test:  value "; "malformed"])
                    "https://dns.example/dns-query" Transport.TypeHTTP None
                    (world0 (fun _ => 7))
       = Ret (Some (Transport.T_HTTP h), None) w'
       /\ Transport.Headers h = {[ "X-Test" := ["value"] ]}
       /\ warnings (log w') = [[LStr "malformed"]].
Proof.
  split; [reflexivity|].
  destruct (newTransport_http_headers
              (httpFlags ["X-Test:  value "; "malformed"])
              "https://dns.example/dns-query" None (world0 (fun _ => 7)) eq_refl)
    as [(h & w' & Hrun & Hh & Hw) _].
  exists h, w'. split; [exact Hrun|]. split.
  - rewrite Hh. reflexivity.
  - rewrite Hw. reflexivity.
Defined.

(** ** LoadPTRs *)

Lemma bind_returns_inv {A B} (m : M A) (k : A -> M B) (w w' : World) (b : B) :
  bind m k w = Ret b w' -> exists a w1, m w = Ret a w1 /\ k a w1 = Ret b w'.
Proof.
  unfold bind. destruct (m w) as [a w1| |]; [eauto | discriminate | discriminate].
Qed.

Section LoadPTRsFacts.

Variable IP_String : Net.IP -> string.
Variable ReverseAddr : string -> string + string.
Variable Exchange :
  Transport.Transport -> list Dns.Msg -> Dns.Msg -> option Dns.Msg * option string.

Local Abbreviation resolvePTR := (resolvePTR ReverseAddr Exchange).
Local Abbreviation loadRR := (loadRR IP_String ReverseAddr Exchange).
Local Abbreviation loadAnswers := (loadAnswers IP_String ReverseAddr Exchange).
Local Abbreviation loadReplies := (loadReplies IP_String ReverseAddr Exchange).
Local Abbreviation LoadPTRs := (LoadPTRs IP_String ReverseAddr Exchange).

(** The lookup of one address, once the reverse name exists and the
    transport can be called: one identifier is drawn, one query is
    exchanged, and the reply decides. *)
Lemma resolvePTR_run (t : Transport.Transport) (cache : gmap string string)
    (ip qname : string) (w : World) :
  ReverseAddr ip = inl qname ->
  let msg := ptrQuery qname (uint16 (entropy w (draws w))) in
  let w1 := afterExchange w msg in
  resolvePTR (Some t) cache ip w
  = match snd (Exchange t (sent w) msg) with
    | Some err =>
        Ret cache (add_log {| level := WarnLevel;
                              format := "error resolving PTR record: %s";
                              args := [LStr err] |} w1)
    | None =>
        match fst (Exchange t (sent w) msg) with
        | Some resp =>
            match Dns.Answer resp with
            | first :: _ =>
                match Dns.Data first with
                | Dns.RD_PTR ptr => Ret (<[ip := ptr]> cache) w1
                | _ => Panic TypeAssertion w1
                end
            | [] => Ret cache w1
            end
        | None => Ret cache w1
        end
    end.
Proof.
  intros Hrev msg w1. unfold resolvePTR, SetQuestion, exchange. rewrite Hrev.
  run. fold msg. fold (ptrQuery qname (uint16 (entropy w (draws w)))). fold msg.
  destruct (Exchange t (sent w) msg) as [resp [err|]]; simpl; [reflexivity|].
  destruct resp as [resp|]; [|reflexivity].
  destruct (Dns.Answer resp) as [|first rest]; [reflexivity|].
  destruct (Dns.Data first); reflexivity.
Qed.


Lemma loadRR_other (txp : option Transport.Transport)
    (cache : gmap string string) (rr : Dns.RR) (w : World) :
  isAddressRR rr = false -> loadRR txp cache rr w = Ret cache w.
Proof.
  unfold isAddressRR, loadRR. intros H. apply orb_false_iff in H as [-> ->].
  reflexivity.
Qed.

(** A record whose lookup returns was exchanged exactly when it is an
    address record. *)
Lemma loadRR_sent (txp : option Transport.Transport)
    (cache cache' : gmap string string) (rr : Dns.RR) (w w' : World) :
  loadRR txp cache rr w = Ret cache' w' ->
  length (sent w') = (length (sent w) + if isAddressRR rr then 1 else 0)%nat.
Proof.
  assert (Hres : forall ip,
             resolvePTR txp cache ip w = Ret cache' w' ->
             length (sent w') = (length (sent w) + 1)%nat).
  { intros ip. unfold resolvePTR, SetQuestion, exchange.
    destruct (ReverseAddr ip) as [qname|err]; run; [|discriminate].
    destruct txp as [t|]; [|discriminate].
    match goal with |- context [Exchange t ?h ?m] =>
      destruct (Exchange t h m) as [resp [err|]] end; simpl.
    - intros [= _ <-]. simpl. rewrite length_app. reflexivity.
    - destruct resp as [resp|];
        [destruct (Dns.Answer resp) as [|first rest];
         [|destruct (Dns.Data first); try discriminate]|];
        intros [= _ <-]; simpl; rewrite length_app; reflexivity. }
  unfold loadRR, isAddressRR.
  destruct (Dns.Rrtype (Dns.Header rr) =? Dns.TypeA); simpl.
  - destruct (Dns.Data rr); try discriminate. apply Hres.
  - destruct (Dns.Rrtype (Dns.Header rr) =? Dns.TypeAAAA); simpl.
    + destruct (Dns.Data rr); try discriminate. apply Hres.
    + intros [= _ <-]. lia.
Qed.

Lemma loadAnswers_sent (txp : option Transport.Transport) (rrs : list Dns.RR) :
  forall (cache cache' : gmap string string) (w w' : World),
    loadAnswers txp cache rrs w = Ret cache' w' ->
    length (sent w')
    = (length (sent w) + length (filter (fun rr => isAddressRR rr = true) rrs))%nat.
Proof.
  induction rrs as [|rr rest IH]; intros cache cache' w w'; cbn [loadAnswers].
  - intros [= _ <-]. simpl. lia.
  - intros H. apply bind_returns_inv in H as (c1 & w1 & Hrr & Hrest).
    apply loadRR_sent in Hrr. apply IH in Hrest.
    rewrite filter_cons.
    destruct (decide (isAddressRR rr = true)) as [Ha|Ha].
    + rewrite Ha in Hrr. simpl. lia.
    + apply not_true_is_false in Ha. rewrite Ha in Hrr. lia.
Qed.

Lemma loadReplies_sent (txp : option Transport.Transport)
    (replies : list (option Dns.Msg)) :
  forall (cache cache' : gmap string string) (w w' : World),
    loadReplies txp cache replies w = Ret cache' w' ->
    length (sent w') = (length (sent w) + length (addressRRs replies))%nat.
Proof.
  induction replies as [|reply rest IH]; intros cache cache' w w'; cbn [loadReplies].
  - intros [= _ <-]. simpl. lia.
  - destruct reply as [m|]; [|discriminate].
    intros H. apply bind_returns_inv in H as (c1 & w1 & Hm & Hrest).
    apply loadAnswers_sent in Hm. apply IH in Hrest.
    unfold addressRRs in *. cbn [flat_map]. rewrite length_app. lia.
Qed.

(** The replies before a nil reply are processed as usual; the nil
    reply then panics, whatever follows it. *)
Lemma loadReplies_nil_reply (txp : option Transport.Transport)
    (pre post : list (option Dns.Msg)) :
  forall (cache : gmap string string) (w : World),
    loadReplies txp cache (pre ++ None :: post) w
    = match loadReplies txp cache pre w with
      | Ret _ w' => Panic NilDereference w'
      | Exit w' => Exit w'
      | Panic p w' => Panic p w'
      end.
Proof.
  induction pre as [|reply pre IH]; intros cache w.
  - reflexivity.
  - cbn [app loadReplies]. destruct reply as [m|]; [|reflexivity].
    unfold bind.
    destruct (loadAnswers txp cache (Dns.Answer m) w) as [c1 w1| |];
      [apply IH | reflexivity | reflexivity].
Qed.



(** The loops over a list in two parts. *)
Lemma loadAnswers_app (txp : option Transport.Transport) (l1 l2 : list Dns.RR) :
  forall (cache : gmap string string) (w : World),
    loadAnswers txp cache (l1 ++ l2) w
    = bind (loadAnswers txp cache l1) (fun c => loadAnswers txp c l2) w.
Proof.
  induction l1 as [|rr l1 IH]; intros cache w; cbn [app loadAnswers].
  - reflexivity.
  - unfold bind.
    destruct (loadRR txp cache rr w) as [c1 w1| |]; try reflexivity.
    rewrite IH. reflexivity.
Qed.

Lemma loadReplies_app (txp : option Transport.Transport)
    (l1 l2 : list (option Dns.Msg)) :
  forall (cache : gmap string string) (w : World),
    loadReplies txp cache (l1 ++ l2) w
    = bind (loadReplies txp cache l1) (fun c => loadReplies txp c l2) w.
Proof.
  induction l1 as [|reply l1 IH]; intros cache w; cbn [app loadReplies].
  - reflexivity.
  - destruct reply as [m|]; [|reflexivity].
    unfold bind.
    destruct (loadAnswers txp cache (Dns.Answer m) w) as [c1 w1| |]; try reflexivity.
    rewrite IH. reflexivity.
Qed.

Local Abbreviation resumeLoadPTRs :=
  (resumeLoadPTRs IP_String ReverseAddr Exchange).

(** Once the replies [pre] and the answers [before] of the next reply are
    gone through, LoadPTRs goes on from the cache and the world they
    leave. *)
Lemma LoadPTRs_resume (e : Entry) (txp : option Transport.Transport) (w : World)
    (pre post : list (option Dns.Msg)) (m : Dns.Msg) (before rest : list Dns.RR)
    (c0 c : gmap string string) (w0 w1 : World) :
  Replies e = (pre ++ Some m :: post)%list ->
  Dns.Answer m = (before ++ rest)%list ->
  loadReplies txp (initialCache e) pre w = Ret c0 w0 ->
  loadAnswers txp c0 before w0 = Ret c w1 ->
  LoadPTRs e txp w = resumeLoadPTRs e txp c rest post w1.
Proof.
  intros Hreplies Hanswer Hpre Hbefore.
  unfold LoadPTRs, resumeLoadPTRs. fold (initialCache e).
  rewrite Hreplies. unfold bind at 1. rewrite loadReplies_app.
  rewrite (bind_Ret _ _ _ _ _ Hpre). cbn [loadReplies].
  rewrite Hanswer. unfold bind at 1. rewrite loadAnswers_app.
  rewrite (bind_Ret _ _ _ _ _ Hbefore). unfold bind.
  destruct (loadAnswers txp c rest w1) as [c2 w2| |]; reflexivity.
Qed.

Lemma resumeLoadPTRs_cons (e : Entry) (txp : option Transport.Transport)
    (c : gmap string string) (rr : Dns.RR) (after : list Dns.RR)
    (post : list (option Dns.Msg)) (w : World) :
  resumeLoadPTRs e txp c (rr :: after) post w
  = bind (loadRR txp c rr) (fun c' => resumeLoadPTRs e txp c' after post) w.
Proof.
  unfold resumeLoadPTRs. cbn [loadAnswers]. unfold bind.
  destruct (loadRR txp c rr w); reflexivity.
Qed.

(** What the lookup of one address record does to the cache, by the
    reply of the exchange. *)
Lemma loadRR_cache_write (t : Transport.Transport) (cache : gmap string string)
    (rr : Dns.RR) (a : Net.IP) (qname : string) (w : World) :
  (Dns.Rrtype (Dns.Header rr) = Dns.TypeA /\ Dns.Data rr = Dns.RD_A a
   \/ Dns.Rrtype (Dns.Header rr) = Dns.TypeAAAA /\ Dns.Data rr = Dns.RD_AAAA a) ->
  ReverseAddr (IP_String a) = inl qname ->
  loadRR (Some t) cache rr w
  = let msg := ptrQuery qname (uint16 (entropy w (draws w))) in
    let w1 := afterExchange w msg in
    match Exchange t (sent w) msg with
    | (_, Some err) => Ret cache (add_log (ptrWarning err) w1)
    | (None, None) => Ret cache w1
    | (Some resp, None) =>
        match Dns.Answer resp with
        | [] => Ret cache w1
        | first :: _ =>
            match Dns.Data first with
            | Dns.RD_PTR ptr => Ret (<[IP_String a := ptr]> cache) w1
            | _ => Panic TypeAssertion w1
            end
        end
    end.
Proof.
  intros Hrr Hq.
  assert (Hload : loadRR (Some t) cache rr w
                  = resolvePTR (Some t) cache (IP_String a) w).
  { unfold loadRR. destruct Hrr as [[Ht Hd]|[Ht Hd]]; rewrite Ht, Hd; reflexivity. }
  rewrite Hload, (resolvePTR_run t cache _ qname w Hq). cbv zeta.
  destruct (Exchange t (sent w) (ptrQuery qname (uint16 (entropy w (draws w)))))
    as [resp [err|]]; simpl.
  - destruct resp; reflexivity.
  - destruct resp as [resp|]; [|reflexivity].
    destruct (Dns.Answer resp) as [|first rest]; [reflexivity|].
    destruct (Dns.Data first); reflexivity.
Qed.

End LoadPTRsFacts.

(** ** Claims about LoadPTRs *)



(** C8 as stated fails: the same A record comes back in two replies, and
    LoadPTRs exchanges two PTR queries for the same name; the set
    existingRRs is nil before and after. *)
Lemma LoadPTRs_repeats_lookup :
  exists e' w',
    LoadPTRs IPv4.IP_String IPv4.ReverseAddr ptrExchange
             (entryWith [Some (replyWith [rrA "example.com." [192; 0; 2; 1]]);
                         Some (replyWith [rrA "example.com." [192; 0; 2; 1]])])
             (Some plainTransport) (world0 (fun _ => 7)) = Ret e' w'
    /\ map (fun q => map Dns.Q_Name (Dns.Questions q)) (sent w')
       = [["1.2.0.192.in-addr.arpa."]; ["1.2.0.192.in-addr.arpa."]]
    /\ existingRRs e' = None.
Proof.
  do 2 eexists. split; [vm_compute; reflexivity|]. split; reflexivity.
Qed.

(** C8 (amended).  An Entry has the set existingRRs, and LoadPTRs neither
    reads nor writes it: the outcome is the same whatever the set holds,
    the set is returned as it was, and a run that returns has exchanged
    one PTR query per A or AAAA answer record, repeated records
    included.  A lookup that succeeds overwrites: when LoadPTRs comes to
    an address record with the cache [c] and the exchange answers with a
    PTR record first, it goes on with a cache that holds the target of
    that record under the address, whatever [c] held there (an entry
    written by an earlier lookup of the same address included), and that
    agrees with [c] on every other key. *)
Theorem LoadPTRs_ignores_existingRRs :
  forall (IP_String : Net.IP -> string) (ReverseAddr : string -> string + string)
         (Exchange : Transport.Transport -> list Dns.Msg -> Dns.Msg
                     -> option Dns.Msg * option string)
         (e : Entry) (txp : option Transport.Transport) (w : World),
    (forall s : option (gmap string bool),
        LoadPTRs IP_String ReverseAddr Exchange (set_existingRRs s e) txp w
        = match LoadPTRs IP_String ReverseAddr Exchange e txp w with
          | Ret e' w' => Ret (set_existingRRs s e') w'
          | Exit w' => Exit w'
          | Panic p w' => Panic p w'
          end)
    /\ (forall (e' : Entry) (w' : World),
          LoadPTRs IP_String ReverseAddr Exchange e txp w = Ret e' w' ->
          existingRRs e' = existingRRs e
          /\ length (sent w')
             = (length (sent w) + length (addressRRs (Replies e)))%nat)
    /\ (forall (t : Transport.Transport)
               (pre post : list (option Dns.Msg)) (m : Dns.Msg)
               (before after : list Dns.RR) (rr : Dns.RR) (a : Net.IP)
               (qname : string) (c0 c : gmap string string) (w0 w1 : World)
               (resp : Dns.Msg) (first : Dns.RR) (rest : list Dns.RR) (ptr : string),
          txp = Some t ->
          Replies e = (pre ++ Some m :: post)%list ->
          Dns.Answer m = (before ++ rr :: after)%list ->
          loadReplies IP_String ReverseAddr Exchange txp (initialCache e) pre w
          = Ret c0 w0 ->
          loadAnswers IP_String ReverseAddr Exchange txp c0 before w0 = Ret c w1 ->
          (Dns.Rrtype (Dns.Header rr) = Dns.TypeA /\ Dns.Data rr = Dns.RD_A a
           \/ Dns.Rrtype (Dns.Header rr) = Dns.TypeAAAA /\ Dns.Data rr = Dns.RD_AAAA a) ->
          ReverseAddr (IP_String a) = inl qname ->
          Exchange t (sent w1) (ptrQuery qname (uint16 (entropy w1 (draws w1))))
          = (Some resp, None) ->
          Dns.Answer resp = first :: rest ->
          Dns.Data first = Dns.RD_PTR ptr ->
          exists c',
            LoadPTRs IP_String ReverseAddr Exchange e txp w
            = resumeLoadPTRs IP_String ReverseAddr Exchange e txp c' after post
                (afterExchange w1 (ptrQuery qname (uint16 (entropy w1 (draws w1)))))
            /\ c' !! IP_String a = Some ptr
            /\ (forall k, k <> IP_String a -> c' !! k = c !! k)).
Proof.
  intros IPS RA Ex e txp w. split; [|split].
  - intros s. unfold LoadPTRs, bind. simpl.
    destruct (loadReplies IPS RA Ex txp _ (Replies e) w); reflexivity.
  - intros e' w' H. unfold LoadPTRs in H.
    apply bind_returns_inv in H as (c & w1 & Hrun & Hret).
    injection Hret as <- <-. split; [reflexivity|].
    exact (loadReplies_sent IPS RA Ex txp (Replies e) _ _ _ _ Hrun).
  - intros t pre post m before after rr a qname c0 c w0 w1 resp first rest ptr
           -> Hreplies Hanswer Hpre Hbefore Hrr Hq Hex Hans Hdata.
    exists (<[IPS a := ptr]> c).
    rewrite (LoadPTRs_resume IPS RA Ex e (Some t) w pre post m before (rr :: after)
               c0 c w0 w1 Hreplies Hanswer Hpre Hbefore).
    rewrite resumeLoadPTRs_cons. unfold bind.
    rewrite (loadRR_cache_write IPS RA Ex t c rr a qname w1 Hrr Hq). cbv zeta.
    rewrite Hex, Hans, Hdata.
    split; [reflexivity|]. split; [apply lookup_insert_eq|].
    intros k Hk. apply lookup_insert_ne. congruence.
Qed.

(** A transport that answers the first query with one name and every
    later query with another.  One A record: the cache holds the first
    name.  The same A record twice: two queries are sent, the cache ends
    with the second name, and existingRRs stays nil. *)
Lemma LoadPTRs_ignores_existingRRs_witness :
  (exists w1,
     LoadPTRs IPv4.IP_String IPv4.ReverseAddr renamingExchange
              (entryWith [Some (replyWith [rrA "example.com." [192; 0; 2; 1]])])
              (Some plainTransport) (world0 (fun _ => 7))
     = Ret (set_PTRs (Some {[ "192.0.2.1" := "first.example." ]})
              (entryWith [Some (replyWith [rrA "example.com." [192; 0; 2; 1]])])) w1)
  /\ exists e' w' cache,
    LoadPTRs IPv4.IP_String IPv4.ReverseAddr renamingExchange
             (entryWith [Some (replyWith [rrA "example.com." [192; 0; 2; 1];
                                          rrA "example.com." [192; 0; 2; 1]])])
             (Some plainTransport) (world0 (fun _ => 7)) = Ret e' w'
    /\ PTRs e' = Some cache
    /\ cache !! "192.0.2.1" = Some "second.example."
    /\ existingRRs e' = None
    /\ length (sent w') = 2%nat.
Proof.
  split; [eexists; reflexivity|].
  destruct (LoadPTRs_ignores_existingRRs IPv4.IP_String IPv4.ReverseAddr renamingExchange
              (entryWith [Some (replyWith [rrA "example.com." [192; 0; 2; 1];
                                           rrA "example.com." [192; 0; 2; 1]])])
              (Some plainTransport) (world0 (fun _ => 7)))
    as (_ & Hcount & Hover).
  destruct (Hover plainTransport [] []
              (replyWith [rrA "example.com." [192; 0; 2; 1];
                          rrA "example.com." [192; 0; 2; 1]])
              [rrA "example.com." [192; 0; 2; 1]] []
              (rrA "example.com." [192; 0; 2; 1]) [192; 0; 2; 1]
              "1.2.0.192.in-addr.arpa." ∅ _ _ _
              (replyWith [rrPTR "1.2.0.192.in-addr.arpa." "second.example."])
              (rrPTR "1.2.0.192.in-addr.arpa." "second.example.") [] "second.example."
              eq_refl eq_refl eq_refl eq_refl eq_refl
              (or_introl (conj eq_refl eq_refl)) eq_refl eq_refl eq_refl eq_refl)
    as (c' & Hrun & Hkey & _).
  eexists _, _, c'. split; [exact Hrun|]. split; [reflexivity|].
  split; [exact Hkey|].
  destruct (Hcount _ _ Hrun) as [Hset Hlen]. split; [exact Hset | exact Hlen].
Defined.

(** C9.  LoadPTRs does not return on an entry with a nil reply: the
    replies before the nil one are processed as usual, and if that
    returns, reading the Answer field of the nil reply panics with a nil
    pointer dereference; the reply is not skipped. *)
Theorem LoadPTRs_nil_reply_panics :
  forall (IP_String : Net.IP -> string) (ReverseAddr : string -> string + string)
         (Exchange : Transport.Transport -> list Dns.Msg -> Dns.Msg
                     -> option Dns.Msg * option string)
         (e : Entry) (txp : option Transport.Transport) (w : World)
         (pre post : list (option Dns.Msg)),
    Replies e = (pre ++ None :: post)%list ->
    ~ returns (LoadPTRs IP_String ReverseAddr Exchange e txp w)
    /\ match loadReplies IP_String ReverseAddr Exchange txp (initialCache e) pre w with
       | Ret _ w' =>
           LoadPTRs IP_String ReverseAddr Exchange e txp w = Panic NilDereference w'
       | Exit w' => LoadPTRs IP_String ReverseAddr Exchange e txp w = Exit w'
       | Panic p w' => LoadPTRs IP_String ReverseAddr Exchange e txp w = Panic p w'
       end.
Proof.
  intros IPS RA Ex e txp w pre post Hreplies.
  unfold LoadPTRs. fold (initialCache e). unfold bind.
  rewrite Hreplies, loadReplies_nil_reply.
  destruct (loadReplies IPS RA Ex txp (initialCache e) pre w); simpl; tauto.
Qed.

(** A failed primary query leaves a nil reply: first slot answered,
    second slot nil; the first is looked up, the second panics. *)
Lemma LoadPTRs_nil_reply_panics_witness :
  exists w',
    LoadPTRs IPv4.IP_String IPv4.ReverseAddr ptrExchange
             (entryWith [Some (replyWith [rrA "example.com." [192; 0; 2; 1]]); None])
             (Some plainTransport) (world0 (fun _ => 7))
    = Panic NilDereference w'
    /\ length (sent w') = 1%nat.
Proof.
  eexists. split.
  - exact (proj2 (LoadPTRs_nil_reply_panics IPv4.IP_String IPv4.ReverseAddr ptrExchange
                    (entryWith [Some (replyWith [rrA "example.com." [192; 0; 2; 1]]); None])
                    (Some plainTransport) (world0 (fun _ => 7))
                    [Some (replyWith [rrA "example.com." [192; 0; 2; 1]])] []
                    eq_refl)).
  - reflexivity.
Defined.

(** C10.  When LoadPTRs, with a transport that can be called, comes to an
    address record that has a reverse name, the reply of the exchange
    decides what happens to the PTR cache of the entry: an error, a nil
    reply or a reply without answers leave the cache as it was and the
    run goes on; a reply with at least one answer stores the target of
    the first answer under the address and the run goes on, when the
    first answer is a PTR record, and panics on the type assertion when
    it is of any other type.  When the record is the last one, the cache
    reached is the PTR cache of the entry that LoadPTRs returns. *)
Theorem LoadPTRs_cache_write :
  forall (IP_String : Net.IP -> string) (ReverseAddr : string -> string + string)
         (Exchange : Transport.Transport -> list Dns.Msg -> Dns.Msg
                     -> option Dns.Msg * option string)
         (e : Entry) (t : Transport.Transport) (w : World)
         (pre post : list (option Dns.Msg)) (m : Dns.Msg)
         (before after : list Dns.RR) (rr : Dns.RR) (a : Net.IP) (qname : string)
         (c0 c : gmap string string) (w0 w1 : World),
    Replies e = (pre ++ Some m :: post)%list ->
    Dns.Answer m = (before ++ rr :: after)%list ->
    loadReplies IP_String ReverseAddr Exchange (Some t) (initialCache e) pre w
    = Ret c0 w0 ->
    loadAnswers IP_String ReverseAddr Exchange (Some t) c0 before w0 = Ret c w1 ->
    (Dns.Rrtype (Dns.Header rr) = Dns.TypeA /\ Dns.Data rr = Dns.RD_A a
     \/ Dns.Rrtype (Dns.Header rr) = Dns.TypeAAAA /\ Dns.Data rr = Dns.RD_AAAA a) ->
    ReverseAddr (IP_String a) = inl qname ->
    let msg := ptrQuery qname (uint16 (entropy w1 (draws w1))) in
    let w2 := afterExchange w1 msg in
    let out := LoadPTRs IP_String ReverseAddr Exchange e (Some t) w in
    let resume :=
      fun cache w' =>
        resumeLoadPTRs IP_String ReverseAddr Exchange e (Some t) cache after post w' in
    match Exchange t (sent w1) msg with
    | (_, Some err) => out = resume c (add_log (ptrWarning err) w2)
    | (None, None) => out = resume c w2
    | (Some resp, None) =>
        match Dns.Answer resp with
        | [] => out = resume c w2
        | first :: _ =>
            match Dns.Data first with
            | Dns.RD_PTR ptr => out = resume (<[IP_String a := ptr]> c) w2
            | _ => out = Panic TypeAssertion w2
            end
        end
    end
    /\ (after = [] -> post = [] ->
        forall cache w', resume cache w' = Ret (set_PTRs (Some cache) e) w').
Proof.
  intros IPS RA Ex e t w pre post m before after rr a qname c0 c w0 w1
         Hreplies Hanswer Hpre Hbefore Hrr Hq msg w2 out resume.
  split; [|intros -> -> cache w'; reflexivity].
  assert (Hout : out = bind (loadRR IPS RA Ex (Some t) c rr)
                            (fun c' => resume c') w1).
  { unfold out.
    rewrite (LoadPTRs_resume IPS RA Ex e (Some t) w pre post m before (rr :: after)
               c0 c w0 w1 Hreplies Hanswer Hpre Hbefore).
    apply resumeLoadPTRs_cons. }
  rewrite Hout. unfold bind.
  rewrite (loadRR_cache_write IPS RA Ex t c rr a qname w1 Hrr Hq). cbv zeta.
  fold msg. fold w2.
  destruct (Ex t (sent w1) msg) as [resp [err|]].
  - destruct resp; reflexivity.
  - destruct resp as [resp|]; [|reflexivity].
    destruct (Dns.Answer resp) as [|first rest]; [reflexivity|].
    destruct (Dns.Data first); reflexivity.
Qed.

(** Two runs of LoadPTRs on an entry with the A record 192.0.2.1: a
    reply that starts with a PTR record is in the PTR cache of the entry
    under "192.0.2.1"; a reply that starts with a CNAME record (a
    delegated reverse zone) makes LoadPTRs panic. *)
Lemma LoadPTRs_cache_write_witness :
  (exists w',
     LoadPTRs IPv4.IP_String IPv4.ReverseAddr ptrExchange
              (entryWith [Some (replyWith [rrA "example.com." [192; 0; 2; 1]])])
              (Some plainTransport) (world0 (fun _ => 7))
     = Ret (set_PTRs (Some {[ "192.0.2.1" := "host.example." ]})
              (entryWith [Some (replyWith [rrA "example.com." [192; 0; 2; 1]])])) w')
  /\ (exists w',
        LoadPTRs IPv4.IP_String IPv4.ReverseAddr cnameExchange
                 (entryWith [Some (replyWith [rrA "example.com." [192; 0; 2; 1]])])
                 (Some plainTransport) (world0 (fun _ => 7))
        = Panic TypeAssertion w').
Proof.
  split; eexists.
  - exact (proj1 (LoadPTRs_cache_write IPv4.IP_String IPv4.ReverseAddr ptrExchange
                    (entryWith [Some (replyWith [rrA "example.com." [192; 0; 2; 1]])])
                    plainTransport (world0 (fun _ => 7)) [] []
                    (replyWith [rrA "example.com." [192; 0; 2; 1]]) [] []
                    (rrA "example.com." [192; 0; 2; 1]) [192; 0; 2; 1]
                    "1.2.0.192.in-addr.arpa." ∅ ∅ _ _
                    eq_refl eq_refl eq_refl eq_refl
                    (or_introl (conj eq_refl eq_refl)) eq_refl)).
  - exact (proj1 (LoadPTRs_cache_write IPv4.IP_String IPv4.ReverseAddr cnameExchange
                    (entryWith [Some (replyWith [rrA "example.com." [192; 0; 2; 1]])])
                    plainTransport (world0 (fun _ => 7)) [] []
                    (replyWith [rrA "example.com." [192; 0; 2; 1]]) [] []
                    (rrA "example.com." [192; 0; 2; 1]) [192; 0; 2; 1]
                    "1.2.0.192.in-addr.arpa." ∅ ∅ _ _
                    eq_refl eq_refl eq_refl eq_refl
                    (or_introl (conj eq_refl eq_refl)) eq_refl)).
Defined.

(** * Further properties *)

(** ** createQuery: the padding block *)

(** X1.  For a request of [msgLen] bytes the padding block asks for
    between 0 and 128 bytes.  When the next multiple of 128 fits in the
    advertised buffer, the padding reaches it and is at least one byte (a
    request that is already a multiple of 128 long gets a whole block);
    otherwise the padding is what is left of the buffer, or nothing, and
    request and padding together exceed the buffer only if the request
    alone does. *)
Theorem padLength_block :
  forall msgLen udpSize : Z,
    0 <= msgLen ->
    0 <= padLength msgLen udpSize <= 128
    /\ (msgLen + (128 - msgLen mod 128) <= udpSize ->
        (msgLen + padLength msgLen udpSize) mod 128 = 0
        /\ 1 <= padLength msgLen udpSize)
    /\ (udpSize < msgLen + (128 - msgLen mod 128) ->
        padLength msgLen udpSize = Z.max 0 (udpSize - msgLen)
        /\ msgLen + padLength msgLen udpSize <= Z.max msgLen udpSize).
Proof.
  intros msgLen udpSize Hlen. unfold padLength.
  rewrite Z.rem_mod_nonneg by lia.
  pose proof (Z.mod_pos_bound msgLen 128 ltac:(lia)) as Hr.
  pose proof (Z.div_mod msgLen 128 ltac:(lia)) as Hdm.
  destruct (Z.gtb_spec (msgLen + (128 - msgLen mod 128)) udpSize) as [Hgt|Hle].
  - destruct (Z.ltb_spec (udpSize - msgLen) 0); repeat split; lia.
  - repeat split; try lia.
    replace (msgLen + (128 - msgLen mod 128)) with ((msgLen / 128 + 1) * 128) by lia.
    apply Z.mod_mul. lia.
Qed.

Lemma padLength_block_witness :
  0 <= 300
  /\ 0 <= padLength 300 1232 <= 128
  /\ (300 + padLength 300 1232) mod 128 = 0
  /\ padLength 300 350 = 50.
Proof.
  split; [lia|].
  destruct (padLength_block 300 1232 ltac:(lia)) as (Hb & Hfit & _).
  destruct (padLength_block 300 350 ltac:(lia)) as (_ & _ & Htr).
  split; [exact Hb|]. split.
  - apply Hfit. vm_compute. discriminate.
  - rewrite (proj1 (Htr ltac:(vm_compute; reflexivity))). reflexivity.
Defined.

(** ** createQuery: how a call ends *)

Lemma createQuery_body_exit_world (P : string -> option (Net.IP * Net.IPNet))
    (opts : Flags) (qType : Z) (w : World) :
  GoStrings.nonEmpty (ClientSubnet opts) = true ->
  P (ClientSubnet opts) = None ->
  exists w',
    createQuery_body P opts qType w = Exit w'
    /\ entropy w' = entropy w
    /\ draws w' = nextDraw opts (draws w)
    /\ sent w' = sent w.
Proof.
  unfold createQuery_body, buildOPT, addPadding, addSubnet, wantsOPT, nextDraw.
  intros Hne Hnone. rewrite Hne, Hnone.
  rewrite !orb_true_r. simpl.
  destruct (ID opts =? -1); simpl;
    destruct (DNSSEC opts), (NSID opts), (Pad opts); simpl;
    run; eexists; (split; [reflexivity|]); simpl; auto.
Qed.

(** X2.  createQuery never panics and never sends anything.  It returns
    for an empty batch whatever the options are (the client subnet is not
    even parsed), and for a non-empty batch exactly when the client
    subnet is empty or parses; otherwise it exits while building the
    first query, after at most one draw of an identifier. *)
Theorem createQuery_outcome :
  forall (ParseCIDR : string -> option (Net.IP * Net.IPNet))
         (opts : Flags) (rrTypes : list Z) (w : World),
    match createQuery ParseCIDR opts rrTypes w with
    | Ret queries w' =>
        (rrTypes = [] \/ subnetOK ParseCIDR opts = true)
        /\ length queries = length rrTypes
        /\ sent w' = sent w
    | Exit w' =>
        rrTypes <> []
        /\ ClientSubnet opts <> ""
        /\ ParseCIDR (ClientSubnet opts) = None
        /\ sent w' = sent w
        /\ (draws w' <= S (draws w))%nat
    | Panic _ _ => False
    end.
Proof.
  intros P opts rrTypes w.
  destruct rrTypes as [|qType rest].
  - simpl. auto.
  - destruct (subnetOK P opts) eqn:Hok.
    + destruct (createQuery_loop_returns P opts (qType :: rest) Hok [] w)
        as (w' & Hrun & _ & _ & Hs).
      unfold createQuery. rewrite Hrun. split; [auto|]. split; [|exact Hs].
      apply (expectedQueries_length P opts (entropy w) (qType :: rest)).
    + unfold subnetOK in Hok. apply orb_false_iff in Hok as [Hne Hparse].
      apply negb_false_iff in Hne.
      destruct (P (ClientSubnet opts)) eqn:HP; [discriminate|].
      destruct (createQuery_body_exit_world P opts qType w Hne HP)
        as (w' & Hbody & _ & Hd & Hs).
      unfold createQuery. simpl. unfold bind. rewrite Hbody.
      split; [discriminate|]. split; [apply nonEmpty_true; exact Hne|].
      split; [reflexivity|]. split; [exact Hs|].
      rewrite Hd. unfold nextDraw. destruct (ID opts =? -1); lia.
Qed.

(** The loop with queries already collected is the loop from nothing,
    with the collected queries in front. *)
Lemma createQuery_loop_acc (P : string -> option (Net.IP * Net.IPNet))
    (opts : Flags) (rrTypes : list Z) :
  forall (acc : list Dns.Msg) (w : World),
    createQuery_loop P opts rrTypes acc w
    = match createQuery_loop P opts rrTypes [] w with
      | Ret queries w' => Ret (acc ++ queries)%list w'
      | Exit w' => Exit w'
      | Panic p w' => Panic p w'
      end.
Proof.
  induction rrTypes as [|qType rest IH]; intros acc w.
  - simpl. unfold ret. rewrite app_nil_r. reflexivity.
  - cbn [createQuery_loop]. unfold bind.
    destruct (createQuery_body P opts qType w) as [req w1| |]; try reflexivity.
    rewrite (IH (acc ++ [req])%list w1), (IH ([] ++ [req])%list w1).
    destruct (createQuery_loop P opts rest [] w1); try reflexivity.
    rewrite <- app_assoc. reflexivity.
Qed.

(** X3.  A batch can be split: the queries for [l1 ++ l2] are the
    queries for [l1] followed by the queries for [l2] built in the world
    that the first call leaves, and an exit of either part is an exit of
    the whole. *)
Theorem createQuery_app :
  forall (ParseCIDR : string -> option (Net.IP * Net.IPNet))
         (opts : Flags) (l1 l2 : list Z) (w : World),
    createQuery ParseCIDR opts (l1 ++ l2) w
    = match createQuery ParseCIDR opts l1 w with
      | Ret q1 w1 =>
          match createQuery ParseCIDR opts l2 w1 with
          | Ret q2 w2 => Ret (q1 ++ q2)%list w2
          | Exit w2 => Exit w2
          | Panic p w2 => Panic p w2
          end
      | Exit w1 => Exit w1
      | Panic p w1 => Panic p w1
      end.
Proof.
  intros P opts l1 l2. unfold createQuery.
  induction l1 as [|qType rest IH]; intros w.
  - simpl. destruct (createQuery_loop P opts l2 [] w); reflexivity.
  - cbn [app createQuery_loop]. unfold bind.
    destruct (createQuery_body P opts qType w) as [req w1| |]; try reflexivity.
    rewrite (createQuery_loop_acc P opts (rest ++ l2) [req] w1).
    rewrite (createQuery_loop_acc P opts rest [req] w1).
    rewrite IH.
    destruct (createQuery_loop P opts rest [] w1) as [q1 w2| |]; try reflexivity.
    destruct (createQuery_loop P opts l2 [] w2); reflexivity.
Qed.

(** ** createQuery: the queries of one batch *)

(** X4.  The queries of a batch differ in identifier and requested type
    only: without identifier and question section any two of them are
    equal.  Each is a request (not a response) with exactly one question,
    empty answer and authority sections, at most one additional record,
    and an identifier in the range of uint16. *)
Theorem createQuery_batch_uniform :
  forall (ParseCIDR : string -> option (Net.IP * Net.IPNet))
         (opts : Flags) (rrTypes : list Z) (w : World),
    subnetOK ParseCIDR opts = true ->
    exists queries w',
      createQuery ParseCIDR opts rrTypes w = Ret queries w'
      /\ (forall q1 q2, In q1 queries -> In q2 queries -> batchPart q1 = batchPart q2)
      /\ Forall (fun q =>
                   Dns.Response q = false
                   /\ length (Dns.Questions q) = 1%nat
                   /\ Dns.Answer q = [] /\ Dns.Ns q = []
                   /\ (length (Dns.Extra q) <= 1)%nat
                   /\ 0 <= Dns.Id q < 65536) queries.
Proof.
  intros P opts rrTypes w Hok.
  destruct (createQuery_returns P opts rrTypes w Hok) as (w' & Hrun & _).
  eexists _, w'. split; [exact Hrun|].
  assert (Hpart : Forall (fun q => batchPart q = batchPart (expectedQuery P opts 0 0))
                         (expectedQueries P opts (entropy w) (draws w) rrTypes)).
  { apply expectedQueries_Forall. intros qType id. reflexivity. }
  rewrite List.Forall_forall in Hpart. split.
  - intros q1 q2 H1 H2. rewrite (Hpart q1 H1), (Hpart q2 H2). reflexivity.
  - clear Hpart Hrun. generalize (draws w) as n.
    induction rrTypes as [|t rest IH]; intros n; simpl; constructor; [|apply IH].
    unfold expectedQuery, expectedExtra, expectedId, uint16. simpl.
    repeat split; try reflexivity.
    + destruct (wantsOPT opts); simpl; lia.
    + destruct (ID opts =? -1); apply Z.mod_pos_bound; lia.
    + destruct (ID opts =? -1); apply Z.mod_pos_bound; lia.
Qed.

Lemma createQuery_batch_uniform_witness :
  subnetOK IPv4.ParseCIDR (queryFlags (-1) true false true "192.0.2.0/24" "" 1232) = true
  /\ exists queries w',
       createQuery IPv4.ParseCIDR (queryFlags (-1) true false true "192.0.2.0/24" "" 1232)
                   [Dns.TypeA; Dns.TypeAAAA; Dns.TypePTR]
                   (world0 (fun n => Z.of_nat n * 70000)) = Ret queries w'
       /\ (forall q1 q2, In q1 queries -> In q2 queries -> batchPart q1 = batchPart q2)
       /\ Forall (fun q =>
                    Dns.Response q = false
                    /\ length (Dns.Questions q) = 1%nat
                    /\ Dns.Answer q = [] /\ Dns.Ns q = []
                    /\ (length (Dns.Extra q) <= 1)%nat
                    /\ 0 <= Dns.Id q < 65536) queries.
Proof.
  split; [reflexivity|].
  exact (createQuery_batch_uniform IPv4.ParseCIDR
           (queryFlags (-1) true false true "192.0.2.0/24" "" 1232)
           [Dns.TypeA; Dns.TypeAAAA; Dns.TypePTR]
           (world0 (fun n => Z.of_nat n * 70000)) eq_refl).
Defined.

(** ** createQuery: the OPT record *)

Ltac in_cases :=
  repeat match goal with
         | H : _ \/ _ |- _ => destruct H
         | H : False |- _ => destruct H
         | H : In _ [] |- _ => destruct H
         | H : In _ (_ :: _) |- _ => destruct H
         | H : Dns.OptNSID _ = _ |- _ => inversion H; subst; clear H
         | H : Dns.OptPADDING _ = _ |- _ => inversion H; subst; clear H
         | H : Dns.OptSUBNET _ = _ |- _ => inversion H; subst; clear H
         | H : Dns.OptCOOKIE _ = _ |- _ => inversion H; subst; clear H
         end.

(** X5.  When a query carries an OPT record, the record is for the root
    name, its DNSSEC-OK bit is the DNSSEC flag and no other bit of the
    TTL field is set, and its options are those requested, one each, in
    the fixed order NSID, PADDING, SUBNET, COOKIE; the NSID option is
    empty, the padding is all zero bytes, and the cookie is the cookie
    string of the options, unchanged. *)
Theorem createQuery_OPT_contents :
  forall (ParseCIDR : string -> option (Net.IP * Net.IPNet))
         (opts : Flags) (rrTypes : list Z) (w : World),
    subnetOK ParseCIDR opts = true ->
    exists queries w',
      createQuery ParseCIDR opts rrTypes w = Ret queries w'
      /\ Forall (fun q =>
                   forall o, IsEdns0 q = Some o ->
                     Dns.Name (Dns.Hdr o) = "."
                     /\ Dns.Do o = DNSSEC opts
                     /\ Dns.Ttl (Dns.Hdr o) = (if DNSSEC opts then Dns._DO else 0)
                     /\ map optionCode (Dns.Option o) = requestedCodes opts
                     /\ (forall n, In (Dns.OptNSID n) (Dns.Option o) -> Dns.Nsid n = "")
                     /\ (forall p b, In (Dns.OptPADDING p) (Dns.Option o) ->
                                     In b (Dns.Padding p) -> b = 0)
                     /\ (forall c, In (Dns.OptCOOKIE c) (Dns.Option o) ->
                                   Dns.Cookie c = Cookie opts)) queries.
Proof.
  intros P opts rrTypes w Hok.
  destruct (createQuery_returns P opts rrTypes w Hok) as (w' & Hrun & _).
  eexists _, w'. split; [exact Hrun|].
  apply expectedQueries_Forall. intros qType id o.
  rewrite IsEdns0_expectedQuery.
  destruct (wantsOPT opts); [|discriminate]. intros [= <-].
  unfold subnetOK in Hok. unfold requestedCodes, expectedOptions, Dns.Do. simpl.
  destruct (GoStrings.nonEmpty (ClientSubnet opts)); simpl in Hok;
    [destruct (P (ClientSubnet opts)) as [[ip ipNet]|]; [|discriminate]|];
    destruct (DNSSEC opts), (NSID opts), (Pad opts),
      (GoStrings.nonEmpty (Cookie opts)); simpl;
    (repeat split; try reflexivity;
     [intros n Hin | intros p b Hin Hb | intros c Hin];
     in_cases; simpl in *; try reflexivity;
     try (eapply repeat_spec; eassumption)).
Qed.

Lemma createQuery_OPT_contents_witness :
  subnetOK IPv4.ParseCIDR (queryFlags 7 true true true "192.0.2.0/24" "c00c1e" 1232) = true
  /\ exists queries w',
       createQuery IPv4.ParseCIDR (queryFlags 7 true true true "192.0.2.0/24" "c00c1e" 1232)
                   [Dns.TypeA] (world0 (fun _ => 7)) = Ret queries w'
       /\ Forall (fun q =>
                    forall o, IsEdns0 q = Some o ->
                      Dns.Name (Dns.Hdr o) = "."
                      /\ Dns.Do o = true
                      /\ Dns.Ttl (Dns.Hdr o) = 32768
                      /\ map optionCode (Dns.Option o) = [3; 12; 8; 10]
                      /\ (forall n, In (Dns.OptNSID n) (Dns.Option o) -> Dns.Nsid n = "")
                      /\ (forall p b, In (Dns.OptPADDING p) (Dns.Option o) ->
                                      In b (Dns.Padding p) -> b = 0)
                      /\ (forall c, In (Dns.OptCOOKIE c) (Dns.Option o) ->
                                    Dns.Cookie c = "c00c1e")) queries.
Proof.
  split; [reflexivity|].
  exact (createQuery_OPT_contents IPv4.ParseCIDR
           (queryFlags 7 true true true "192.0.2.0/24" "c00c1e" 1232)
           [Dns.TypeA] (world0 (fun _ => 7)) eq_refl).
Defined.

(** X6.  With padding as the only option and a buffer of at least 128
    bytes, every query is 147 bytes plus the length of the encoded name
    long, whatever the name is: the padded length follows the name
    instead of reaching a multiple of 128. *)
Theorem createQuery_padded_length :
  forall (ParseCIDR : string -> option (Net.IP * Net.IPNet))
         (opts : Flags) (rrTypes : list Z) (w : World),
    Pad opts = true -> NSID opts = false ->
    ClientSubnet opts = "" -> Cookie opts = "" ->
    128 <= UDPBuffer opts ->
    exists queries w',
      createQuery ParseCIDR opts rrTypes w = Ret queries w'
      /\ Forall (fun q =>
                   Dns.Len q = 147 + Dns.domainNameLen (Dns.Fqdn (Name opts))
                   /\ Dns.Len q mod 128
                      = (19 + Dns.domainNameLen (Dns.Fqdn (Name opts))) mod 128)
                queries.
Proof.
  intros P opts rrTypes w Hpad Hnsid Hsub Hcookie Hbuf.
  assert (Hok : subnetOK P opts = true).
  { unfold subnetOK. rewrite Hsub. reflexivity. }
  destruct (createQuery_returns P opts rrTypes w Hok) as (w' & Hrun & _).
  eexists _, w'. split; [exact Hrun|].
  apply expectedQueries_Forall. intros qType id.
  assert (Hlen : Dns.Len (expectedQuery P opts qType id)
                 = 147 + Dns.domainNameLen (Dns.Fqdn (Name opts))).
  { unfold Dns.Len, expectedQuery, expectedExtra, expectedOptions, wantsOPT.
    rewrite Hpad, Hnsid, Hsub, Hcookie, !orb_true_r. simpl.
    unfold Dns.RR_len, Dns.RR_Header_len, Dns.Question_len. simpl.
    rewrite repeat_length, padLength_header.
    destruct (Z.leb_spec 128 (UDPBuffer opts)); [|lia].
    change (Dns.domainNameLen ".") with 1. unfold Dns.headerSize. lia. }
  split; [exact Hlen|]. rewrite Hlen.
  replace (147 + Dns.domainNameLen (Dns.Fqdn (Name opts)))
    with (19 + Dns.domainNameLen (Dns.Fqdn (Name opts)) + 1 * 128) by lia.
  apply Z_mod_plus_full.
Qed.

Lemma createQuery_padded_length_witness :
  Pad (queryFlags 7 true false true "" "" 4096) = true
  /\ 128 <= UDPBuffer (queryFlags 7 true false true "" "" 4096)
  /\ exists queries w',
       createQuery IPv4.ParseCIDR (queryFlags 7 true false true "" "" 4096)
                   [Dns.TypeA; Dns.TypeAAAA] (world0 (fun _ => 7)) = Ret queries w'
       /\ Forall (fun q => Dns.Len q = 160 /\ Dns.Len q mod 128 = 32) queries.
Proof.
  split; [reflexivity|]. split; [vm_compute; discriminate|].
  exact (createQuery_padded_length IPv4.ParseCIDR
           (queryFlags 7 true false true "" "" 4096)
           [Dns.TypeA; Dns.TypeAAAA] (world0 (fun _ => 7))
           eq_refl eq_refl eq_refl eq_refl ltac:(vm_compute; discriminate)).
Defined.

(** The escape test of IsFqdn counts bytes from the last rune that is
    not a backslash: after the two-byte rune U+00E9 one backslash
    leaves the final dot unescaped for the test, after an ASCII letter
    it escapes it. *)
Lemma IsFqdn_after_rune :
  Dns.IsFqdn (string_of_list_ascii (map ascii_of_nat [195; 169; 92; 46]%nat)) = true
  /\ Dns.IsFqdn (string_of_list_ascii (map ascii_of_nat [97; 92; 46]%nat)) = false
  /\ Dns.domainNameLen
       (Dns.Fqdn (string_of_list_ascii (map ascii_of_nat [195; 169; 92; 46]%nat))) = 4.
Proof. vm_compute. auto. Qed.

(** ** createQuery: the question *)

Lemma string_of_list_ascii_snoc (l : list ascii) (c : ascii) :
  string_of_list_ascii (l ++ [c]) = string_of_list_ascii l +:+ String c "".
Proof. induction l as [|x l IH]; simpl; [reflexivity | rewrite IH; reflexivity]. Qed.

(** [Fqdn] leaves a name alone or appends one dot; the result ends in a
    dot. *)
Lemma Fqdn_dot (s : string) :
  (Dns.Fqdn s = s \/ Dns.Fqdn s = s +:+ ".")
  /\ exists p, Dns.Fqdn s = p +:+ ".".
Proof.
  unfold Dns.Fqdn. destruct (Dns.IsFqdn s) eqn:Hfq.
  - split; [left; reflexivity|].
    unfold Dns.IsFqdn in Hfq.
    destruct (rev (list_ascii_of_string s)) as [|last before] eqn:Hrev; [discriminate|].
    apply andb_true_iff in Hfq as [Hdot _].
    apply Ascii.eqb_eq in Hdot. subst last.
    exists (string_of_list_ascii (rev before)).
    rewrite <- (string_of_list_ascii_of_string s), <- (rev_involutive (list_ascii_of_string s)).
    rewrite Hrev. cbn [rev]. apply string_of_list_ascii_snoc.
  - split; [right; reflexivity|]. exists s. reflexivity.
Qed.

(** X7.  Every query asks one question, in the class of the options, for
    the name of the options made fully qualified: the name itself or the
    name with one dot appended, and in both cases a name that ends in a
    dot. *)
Theorem createQuery_question_name :
  forall (ParseCIDR : string -> option (Net.IP * Net.IPNet))
         (opts : Flags) (rrTypes : list Z) (w : World),
    subnetOK ParseCIDR opts = true ->
    exists queries w',
      createQuery ParseCIDR opts rrTypes w = Ret queries w'
      /\ Forall (fun q =>
                   exists qn,
                     Dns.Questions q = [qn]
                     /\ Dns.Qclass qn = Class opts
                     /\ (Dns.Q_Name qn = Name opts \/ Dns.Q_Name qn = Name opts +:+ ".")
                     /\ exists p, Dns.Q_Name qn = p +:+ ".") queries.
Proof.
  intros P opts rrTypes w Hok.
  destruct (createQuery_returns P opts rrTypes w Hok) as (w' & Hrun & _).
  eexists _, w'. split; [exact Hrun|].
  apply expectedQueries_Forall. intros qType id.
  eexists. split; [reflexivity|]. simpl. split; [reflexivity|].
  apply Fqdn_dot.
Qed.

Lemma createQuery_question_name_witness :
  subnetOK IPv4.ParseCIDR (queryFlags 7 false false false "" "" 1232) = true
  /\ exists queries w',
       createQuery IPv4.ParseCIDR (queryFlags 7 false false false "" "" 1232)
                   [Dns.TypeA] (world0 (fun _ => 7)) = Ret queries w'
       /\ Forall (fun q =>
                    exists qn,
                      Dns.Questions q = [qn]
                      /\ Dns.Qclass qn = 1
                      /\ (Dns.Q_Name qn = "example.com"
                          \/ Dns.Q_Name qn = "example.com.")
                      /\ exists p, Dns.Q_Name qn = p +:+ ".") queries.
Proof.
  split; [reflexivity|].
  exact (createQuery_question_name IPv4.ParseCIDR
           (queryFlags 7 false false false "" "" 1232)
           [Dns.TypeA] (world0 (fun _ => 7)) eq_refl).
Defined.

(** ** newTransport: how a call ends *)







(** X9.  With an ODoH proxy configured, the HTTP tag gives an ODoH
    transport for that proxy with the TLS configuration as passed; the
    header strings are not parsed, so no header warning is logged even
    for malformed ones. *)
Theorem newTransport_odoh_first :
  forall (opts : Flags) (server : string)
         (tlsConfig : option Transport.TLSConfig) (w : World),
    ODoHProxy opts <> "" ->
    exists w',
      newTransport opts server Transport.TypeHTTP tlsConfig w
      = Ret (Some (Transport.T_ODoH
                     {| Transport.ODoH_Common :=
                          {| Transport.Server := server;
                             Transport.ReuseConn := ReuseConn opts |};
                        Transport.Proxy := ODoHProxy opts;
                        Transport.ODoH_TLSConfig := tlsConfig |}), None) w'
      /\ warnings (log w') = warnings (log w).
Proof.
  intros opts server tls w Hproxy. apply nonEmpty_true in Hproxy.
  unfold newTransport. tag_tests. rewrite Hproxy. run.
  eexists. split; [reflexivity|]. simpl.
  rewrite warnings_app. simpl. apply app_nil_r.
Qed.

Lemma newTransport_odoh_first_witness :
  exists w',
    newTransport
      {| Name := "example.com"; Class := 1; ID := -1;
         AuthoritativeAnswer := false; AuthenticData := false;
         CheckingDisabled := false; RecursionDesired := true;
         RecursionAvailable := false; Zero := false; Truncated := false;
         DNSSEC := false; NSID := false; Pad := false;
         ClientSubnet := ""; Cookie := ""; UDPBuffer := 1232;
         Timeout := 0; ReuseConn := true;
         ODoHProxy := "https://proxy.example/proxy";
         HTTPHeaders := ["malformed"]; HTTPUserAgent := ""; HTTPMethod := "GET";
         HTTP2 := false; HTTP3 := false; PMTUD := true;
         DNSCryptTCP := false; DNSCryptUDPSize := 0;
         DNSCryptPublicKey := ""; DNSCryptProvider := "";
         QUICALPNTokens := []; QUICLengthPrefix := false |}
      "https://target.example/dns-query" Transport.TypeHTTP None (world0 (fun _ => 7))
    = Ret (Some (Transport.T_ODoH
                   {| Transport.ODoH_Common :=
                        {| Transport.Server := "https://target.example/dns-query";
                           Transport.ReuseConn := true |};
                      Transport.Proxy := "https://proxy.example/proxy";
                      Transport.ODoH_TLSConfig := None |}), None) w'
    /\ warnings (log w') = [].
Proof.
  refine (newTransport_odoh_first _ "https://target.example/dns-query" None
            (world0 (fun _ => 7)) _).
  discriminate.
Defined.

(** [HasPrefix s p] holds exactly when [s] is [p] followed by some text. *)
Lemma HasPrefix_spec (p s : string) :
  GoStrings.HasPrefix s p = true <-> exists rest, s = p +:+ rest.
Proof.
  revert s. induction p as [|c p IH]; intros s.
  - split; [intros _; exists s; reflexivity | intros _; destruct s; reflexivity].
  - destruct s as [|d s]; cbn [GoStrings.HasPrefix].
    + split; [discriminate | intros [rest H]; discriminate].
    + rewrite andb_true_iff, IH. split.
      * intros [Hc [rest ->]]. apply Ascii.eqb_eq in Hc. subst. eauto.
      * intros [rest [= -> ->]]. split; [apply Ascii.eqb_refl | eauto].
Qed.

(** X10.  The DNSCrypt tag always gives a DNSCrypt transport with the
    TCP and UDP size preferences of the options.  A server that starts
    with "sdns://" is taken as a stamp: the stamp is the server string
    and the public key and provider name stay empty whatever the options
    hold; any other server gives the key and provider of the options and
    an empty stamp. *)
Theorem newTransport_dnscrypt :
  forall (opts : Flags) (server : string)
         (tlsConfig : option Transport.TLSConfig) (w : World),
    exists d w',
      newTransport opts server Transport.TypeDNSCrypt tlsConfig w
      = Ret (Some (Transport.T_DNSCrypt d), None) w'
      /\ Transport.TCP d = DNSCryptTCP opts
      /\ Transport.UDPSize d = DNSCryptUDPSize opts
      /\ ((exists rest, server = "sdns://" +:+ rest) ->
          Transport.ServerStamp d = server
          /\ Transport.PublicKey d = "" /\ Transport.ProviderName d = "")
      /\ ((forall rest, server <> "sdns://" +:+ rest) ->
          Transport.ServerStamp d = ""
          /\ Transport.PublicKey d = DNSCryptPublicKey opts
          /\ Transport.ProviderName d = DNSCryptProvider opts).
Proof.
  intros opts server tls w. unfold newTransport. tag_tests.
  destruct (GoStrings.HasPrefix server "sdns://") eqn:Hp; run;
    do 2 eexists; (split; [reflexivity|]); simpl;
    (split; [reflexivity|]); (split; [reflexivity|]); split; auto.
  - intros Hno. apply HasPrefix_spec in Hp as [rest Hrest].
    exfalso. exact (Hno rest Hrest).
  - intros Hyes. apply HasPrefix_spec in Hyes. congruence.
Qed.

(** X11.  The QUIC tag with a TLS configuration gives a QUIC transport
    whose configuration is the given one except for the protocol list,
    which is the ALPN token list of the options, also when that list is
    empty; the path-MTU and length-prefix flags are those of the
    options. *)
Theorem newTransport_quic_alpn :
  forall (opts : Flags) (server : string) (c : Transport.TLSConfig) (w : World),
    exists q c' w',
      newTransport opts server Transport.TypeQUIC (Some c) w
      = Ret (Some (Transport.T_QUIC q), None) w'
      /\ Transport.QUIC_TLSConfig q = Some c'
      /\ Transport.NextProtos c' = QUICALPNTokens opts
      /\ Transport.ServerName c' = Transport.ServerName c
      /\ Transport.InsecureSkipVerify c' = Transport.InsecureSkipVerify c
      /\ Transport.PMTUD q = PMTUD opts
      /\ Transport.AddLengthPrefix q = QUICLengthPrefix opts.
Proof.
  intros opts server c w. unfold newTransport. tag_tests. run.
  do 3 eexists. split; [reflexivity|]. simpl. repeat split; reflexivity.
Qed.

(** ** newTransport: the header map *)

Lemma fold_addHeader_lookup (l : list string) :
  forall (m : gmap string (list string)) (name : string),
    fold_left addHeader_spec l m !! name
    = match headerValues l name with
      | [] => m !! name
      | vs => Some (default [] (m !! name) ++ vs)%list
      end.
Proof.
  induction l as [|h rest IH]; intros m name.
  - reflexivity.
  - cbn [fold_left]. rewrite IH. unfold headerValues. cbn [flat_map].
    fold (headerValues rest name). unfold addHeader_spec.
    destruct (GoStrings.Cut ":" h) as [[n v]|]; [|reflexivity].
    destruct (String.eqb_spec (GoStrings.TrimSpace n) name) as [->|Hne].
    + rewrite lookup_insert_eq. simpl.
      destruct (headerValues rest name); [reflexivity|].
      rewrite <- app_assoc. reflexivity.
    + rewrite lookup_insert_ne by exact Hne. reflexivity.
Qed.

(** X12.  In the HTTP(S) branch the header map holds, under each name,
    the trimmed values of all header strings with that trimmed name, in
    the order of the strings: repeated names accumulate, names are
    compared byte by byte (no case folding), and a name without any
    well-formed string is absent from the map. *)
Theorem newTransport_header_values :
  forall (opts : Flags) (server : string)
         (tlsConfig : option Transport.TLSConfig) (w : World),
    ODoHProxy opts = "" ->
    exists h w',
      newTransport opts server Transport.TypeHTTP tlsConfig w
      = Ret (Some (Transport.T_HTTP h), None) w'
      /\ (forall name,
            Transport.Headers h !! name
            = match headerValues (HTTPHeaders opts) name with
              | [] => None
              | vs => Some vs
              end)
      /\ Transport.NoPMTUd h = negb (PMTUD opts)
      /\ Transport.Method h = HTTPMethod opts
      /\ Transport.HTTP_TLSConfig h = tlsConfig.
Proof.
  intros opts server tls w Hproxy.
  unfold newTransport. tag_tests. rewrite Hproxy. cbn [GoStrings.nonEmpty].
  set (w0 := add_log {| level := DebugLevel;
                        format := "Using HTTP(s) transport: %s";
                        args := [LStr server] |} w).
  destruct (parseHeaders_spec (HTTPHeaders opts) ∅ w0) as (w' & Hrun & _).
  eexists _, w'. split.
  - unfold bind at 1. unfold logf. fold w0.
    rewrite (bind_Ret _ _ _ _ _ Hrun). reflexivity.
  - simpl. split; [|auto]. intros name.
    rewrite fold_addHeader_lookup, lookup_empty. simpl.
    destruct (headerValues (HTTPHeaders opts) name); reflexivity.
Qed.

Lemma newTransport_header_values_witness :
  ODoHProxy (httpFlags ["Accept: a"; "X-Id:1"; "accept : b"; "oops"; " Accept :c:d "]) = ""
  /\ exists h w',
       newTransport (httpFlags ["Accept: a"; "X-Id:1"; "accept : b"; "oops"; " Accept :c:d "])
                    "https://dns.example/dns-query" Transport.TypeHTTP None
                    (world0 (fun _ => 7))
       = Ret (Some (Transport.T_HTTP h), None) w'
       /\ Transport.Headers h !! "Accept" = Some ["a"; "c:d"]
       /\ Transport.Headers h !! "accept" = Some ["b"]
       /\ Transport.Headers h !! "oops" = None.
Proof.
  split; [reflexivity|].
  destruct (newTransport_header_values
              (httpFlags ["Accept: a"; "X-Id:1"; "accept : b"; "oops"; " Accept :c:d "])
              "https://dns.example/dns-query" None (world0 (fun _ => 7)) eq_refl)
    as (h & w' & Hrun & Hh & _).
  exists h, w'. split; [exact Hrun|].
  rewrite !Hh. repeat split; reflexivity.
Defined.

(** ** LoadPTRs: one record *)

Section LoadPTRsSteps.

Variable IP_String : Net.IP -> string.
Variable ReverseAddr : string -> string + string.
Variable Exchange :
  Transport.Transport -> list Dns.Msg -> Dns.Msg -> option Dns.Msg * option string.

Local Abbreviation resolvePTR := (resolvePTR ReverseAddr Exchange).
Local Abbreviation loadRR := (loadRR IP_String ReverseAddr Exchange).
Local Abbreviation loadAnswers := (loadAnswers IP_String ReverseAddr Exchange).
Local Abbreviation loadReplies := (loadReplies IP_String ReverseAddr Exchange).
Local Abbreviation LoadPTRs := (LoadPTRs IP_String ReverseAddr Exchange).

Lemma addressOf_isAddressRR (rr : Dns.RR) (a : Net.IP) :
  addressOf rr = Some a -> isAddressRR rr = true.
Proof.
  unfold addressOf, isAddressRR.
  destruct (Dns.Rrtype (Dns.Header rr) =? Dns.TypeA); [reflexivity|].
  destruct (Dns.Rrtype (Dns.Header rr) =? Dns.TypeAAAA); [reflexivity | discriminate].
Qed.

Lemma loadRR_addressOf (txp : option Transport.Transport)
    (cache : gmap string string) (rr : Dns.RR) (a : Net.IP) (w : World) :
  addressOf rr = Some a ->
  loadRR txp cache rr w = resolvePTR txp cache (IP_String a) w.
Proof.
  unfold addressOf, loadRR.
  destruct (Dns.Rrtype (Dns.Header rr) =? Dns.TypeA).
  - destruct (Dns.Data rr); try discriminate. intros [= ->]. reflexivity.
  - destruct (Dns.Rrtype (Dns.Header rr) =? Dns.TypeAAAA); [|discriminate].
    destruct (Dns.Data rr); try discriminate. intros [= ->]. reflexivity.
Qed.

Lemma reversible_addressOf (rr : Dns.RR) :
  isAddressRR rr = true -> reversible IP_String ReverseAddr rr ->
  exists a qname, addressOf rr = Some a /\ ReverseAddr (IP_String a) = inl qname.
Proof.
  unfold isAddressRR, reversible, addressOf.
  destruct (Dns.Rrtype (Dns.Header rr) =? Dns.TypeA).
  - intros _ (a & qname & -> & Hq). eauto.
  - destruct (Dns.Rrtype (Dns.Header rr) =? Dns.TypeAAAA); [|discriminate].
    intros _ (a & qname & -> & Hq). eauto.
Qed.

(** A lookup that returns had a transport and a reverse name; it drew
    one identifier, exchanged one PTR query, and left the cache alone or
    stored one target under the address. *)
Lemma resolvePTR_returns_inv (txp : option Transport.Transport)
    (cache cache' : gmap string string) (ip : string) (w w' : World) :
  resolvePTR txp cache ip w = Ret cache' w' ->
  exists t qname,
    txp = Some t /\ ReverseAddr ip = inl qname
    /\ entropy w' = entropy w /\ draws w' = S (draws w)
    /\ sent w' = (sent w ++ [ptrQuery qname (uint16 (entropy w (draws w)))])%list
    /\ (cache' = cache \/ exists ptr, cache' = <[ip := ptr]> cache).
Proof.
  destruct (ReverseAddr ip) as [qname|err] eqn:Hrev.
  - destruct txp as [t|].
    + rewrite (resolvePTR_run ReverseAddr Exchange t cache ip qname w Hrev). cbv zeta.
      intros H. exists t, qname. split; [reflexivity|]. split; [reflexivity|].
      destruct (Exchange t (sent w) (ptrQuery qname (uint16 (entropy w (draws w)))))
        as [resp [err|]]; simpl in H.
      * injection H as <- <-. simpl. auto 6.
      * destruct resp as [resp|];
          [destruct (Dns.Answer resp) as [|first rest];
           [|destruct (Dns.Data first); try discriminate]|];
          injection H as <- <-; simpl; eauto 8.
    + unfold resolvePTR, SetQuestion, exchange. rewrite Hrev. run. discriminate.
  - unfold resolvePTR. rewrite Hrev. run. discriminate.
Qed.

Lemma loadRR_returns_inv (txp : option Transport.Transport)
    (cache cache' : gmap string string) (rr : Dns.RR) (w w' : World) :
  loadRR txp cache rr w = Ret cache' w' ->
  (isAddressRR rr = false /\ cache' = cache /\ w' = w)
  \/ (exists a t qname,
        addressOf rr = Some a /\ txp = Some t
        /\ ReverseAddr (IP_String a) = inl qname
        /\ entropy w' = entropy w /\ draws w' = S (draws w)
        /\ sent w' = (sent w ++ [ptrQuery qname (uint16 (entropy w (draws w)))])%list
        /\ (cache' = cache \/ exists ptr, cache' = <[IP_String a := ptr]> cache)).
Proof.
  destruct (isAddressRR rr) eqn:Haddr.
  - intros H. right.
    assert (Ha : exists a, addressOf rr = Some a).
    { unfold loadRR in H. unfold isAddressRR in Haddr. unfold addressOf.
      destruct (Dns.Rrtype (Dns.Header rr) =? Dns.TypeA).
      - destruct (Dns.Data rr); try discriminate. eauto.
      - simpl in Haddr. rewrite Haddr in *.
        destruct (Dns.Data rr); try discriminate. eauto. }
    destruct Ha as [a Ha]. rewrite (loadRR_addressOf txp cache rr a w Ha) in H.
    apply resolvePTR_returns_inv in H as (t & qname & H).
    exists a, t, qname. tauto.
  - rewrite (loadRR_other IP_String ReverseAddr Exchange txp cache rr w Haddr).
    intros [= <- <-]. left. auto.
Qed.

(** The three ways in which the first record of a list ends the loop
    over the answers, each before the records that follow are looked
    at. *)
Lemma loadAnswers_aborts :
  forall (txp : option Transport.Transport) (cache : gmap string string)
         (rr : Dns.RR) (rest : list Dns.RR) (w : World),
    isAddressRR rr = true ->
    match addressOf rr with
    | None => loadAnswers txp cache (rr :: rest) w = Panic TypeAssertion w
    | Some a =>
        match ReverseAddr (IP_String a), txp with
        | inr err, _ =>
            loadAnswers txp cache (rr :: rest) w = Exit (add_log (reverseFatal err) w)
        | inl _, None =>
            loadAnswers txp cache (rr :: rest) w
            = Panic NilDereference
                {| log := log w; entropy := entropy w; draws := S (draws w);
                   sent := sent w |}
        | inl _, Some _ => True
        end
    end.
Proof.
  intros txp cache rr rest w Haddr. cbn [loadAnswers]. unfold bind.
  destruct (addressOf rr) as [a|] eqn:Ha.
  - rewrite (loadRR_addressOf txp cache rr a w Ha).
    unfold resolvePTR, SetQuestion, exchange.
    destruct (ReverseAddr (IP_String a)) as [qname|err]; [|reflexivity].
    destruct txp; [exact I | reflexivity].
  - unfold loadRR. unfold isAddressRR in Haddr. unfold addressOf in Ha.
    destruct (Dns.Rrtype (Dns.Header rr) =? Dns.TypeA).
    + destruct (Dns.Data rr); try discriminate; reflexivity.
    + simpl in Haddr. rewrite Haddr in *.
      destruct (Dns.Data rr); try discriminate; reflexivity.
Qed.

End LoadPTRsSteps.

(** X13.  The three ways in which one address record ends LoadPTRs, each
    before the records and replies that follow are looked at and
    whatever the cache holds by then: a record whose header says A or
    AAAA and whose dynamic type is another panics on the type assertion,
    with the world as the records before left it; an address without
    reverse name exits the process with the fatal log entry, nothing
    drawn or sent; a nil transport panics once the query is built, so
    one identifier is drawn and nothing is sent. *)
Theorem LoadPTRs_record_aborts :
  forall (IP_String : Net.IP -> string) (ReverseAddr : string -> string + string)
         (Exchange : Transport.Transport -> list Dns.Msg -> Dns.Msg
                     -> option Dns.Msg * option string)
         (e : Entry) (txp : option Transport.Transport) (w : World)
         (pre post : list (option Dns.Msg)) (m : Dns.Msg)
         (before after : list Dns.RR) (rr : Dns.RR)
         (c0 c : gmap string string) (w0 w1 : World),
    Replies e = (pre ++ Some m :: post)%list ->
    Dns.Answer m = (before ++ rr :: after)%list ->
    loadReplies IP_String ReverseAddr Exchange txp (initialCache e) pre w = Ret c0 w0 ->
    loadAnswers IP_String ReverseAddr Exchange txp c0 before w0 = Ret c w1 ->
    isAddressRR rr = true ->
    match addressOf rr with
    | None => LoadPTRs IP_String ReverseAddr Exchange e txp w = Panic TypeAssertion w1
    | Some a =>
        match ReverseAddr (IP_String a), txp with
        | inr err, _ =>
            LoadPTRs IP_String ReverseAddr Exchange e txp w
            = Exit (add_log (reverseFatal err) w1)
        | inl _, None =>
            LoadPTRs IP_String ReverseAddr Exchange e txp w
            = Panic NilDereference
                {| log := log w1; entropy := entropy w1; draws := S (draws w1);
                   sent := sent w1 |}
        | inl _, Some _ => True
        end
    end.
Proof.
  intros IPS RA Ex e txp w pre post m before after rr c0 c w0 w1
         Hreplies Hanswer Hpre Hbefore Haddr.
  rewrite (LoadPTRs_resume IPS RA Ex e txp w pre post m before (rr :: after)
             c0 c w0 w1 Hreplies Hanswer Hpre Hbefore).
  pose proof (loadAnswers_aborts IPS RA Ex txp c rr after w1 Haddr) as H.
  unfold resumeLoadPTRs, bind.
  destruct (addressOf rr) as [a|].
  - destruct (RA (IPS a)) as [qname|err].
    + destruct txp; [exact I|]. rewrite H. reflexivity.
    + destruct txp; rewrite H; reflexivity.
  - rewrite H. reflexivity.
Qed.

(** An entry whose first reply holds a CNAME record only and whose
    second reply holds, after a good A record, an A record without
    address bytes and then another record.  The run
    looks up the first address, then exits on the second record with
    the text of dns.ReverseAddr for the nil address. *)
Lemma LoadPTRs_record_aborts_witness :
  exists w1,
    LoadPTRs IPv4.IP_String IPv4.ReverseAddr ptrExchange
             (entryWith [Some (replyWith [rrCNAME "example.com." "alias.example."]);
                         Some (replyWith [rrA "example.com." [192; 0; 2; 1];
                                          rrA "example.com." [];
                                          rrCNAME "example.com." "alias.example."])])
             (Some plainTransport) (world0 (fun _ => 7))
    = Exit (add_log (reverseFatal "dns: unrecognized address: <nil>") w1)
    /\ length (sent w1) = 1%nat /\ draws w1 = 1%nat.
Proof.
  eexists. split.
  - exact (LoadPTRs_record_aborts IPv4.IP_String IPv4.ReverseAddr ptrExchange
             (entryWith [Some (replyWith [rrCNAME "example.com." "alias.example."]);
                         Some (replyWith [rrA "example.com." [192; 0; 2; 1];
                                          rrA "example.com." [];
                                          rrCNAME "example.com." "alias.example."])])
             (Some plainTransport) (world0 (fun _ => 7))
             [Some (replyWith [rrCNAME "example.com." "alias.example."])] []
             (replyWith [rrA "example.com." [192; 0; 2; 1];
                         rrA "example.com." [];
                         rrCNAME "example.com." "alias.example."])
             [rrA "example.com." [192; 0; 2; 1]]
             [rrCNAME "example.com." "alias.example."]
             (rrA "example.com." []) _ _ _ _
             eq_refl eq_refl eq_refl eq_refl eq_refl).
  - split; reflexivity.
Defined.

(** ** LoadPTRs: whole runs *)

Section LoadPTRsRuns.

Variable IP_String : Net.IP -> string.
Variable ReverseAddr : string -> string + string.
Variable Exchange :
  Transport.Transport -> list Dns.Msg -> Dns.Msg -> option Dns.Msg * option string.

Local Abbreviation loadRR := (loadRR IP_String ReverseAddr Exchange).
Local Abbreviation loadAnswers := (loadAnswers IP_String ReverseAddr Exchange).
Local Abbreviation loadReplies := (loadReplies IP_String ReverseAddr Exchange).
Local Abbreviation LoadPTRs := (LoadPTRs IP_String ReverseAddr Exchange).
Local Abbreviation textOf :=
  (fun rr : Dns.RR => match addressOf rr with
                      | Some a => [IP_String a]
                      | None => []
                      end).
Local Abbreviation addressesOf rrs :=
  (filter (fun rr : Dns.RR => isAddressRR rr = true) rrs).

Lemma addressRRs_cons_Some (m : Dns.Msg) (rest : list (option Dns.Msg)) :
  addressRRs (Some m :: rest) = (addressesOf (Dns.Answer m) ++ addressRRs rest)%list.
Proof. reflexivity. Qed.

Lemma addressTexts_cons_Some (m : Dns.Msg) (rest : list (option Dns.Msg)) :
  addressTexts IP_String (Some m :: rest)
  = (flat_map textOf (addressesOf (Dns.Answer m)) ++ addressTexts IP_String rest)%list.
Proof. unfold addressTexts. rewrite addressRRs_cons_Some. apply flat_map_app. Qed.

Lemma addressesOf_cons (rr : Dns.RR) (rest : list Dns.RR) :
  addressesOf (rr :: rest)
  = if isAddressRR rr then rr :: addressesOf rest else addressesOf rest.
Proof.
  rewrite filter_cons. destruct (decide (isAddressRR rr = true)) as [H|H].
  - rewrite H. reflexivity.
  - apply not_true_is_false in H. rewrite H. reflexivity.
Qed.

(** Records that are not address records are passed over. *)
Lemma loadAnswers_no_address (txp : option Transport.Transport) (rrs : list Dns.RR) :
  addressesOf rrs = [] ->
  forall (cache : gmap string string) (w : World),
    loadAnswers txp cache rrs w = Ret cache w.
Proof.
  induction rrs as [|rr rest IH]; intros Hnone cache w; [reflexivity|].
  rewrite addressesOf_cons in Hnone.
  destruct (isAddressRR rr) eqn:Ha; [discriminate|].
  cbn [loadAnswers].
  rewrite (bind_Ret _ _ _ _ _ (loadRR_other IP_String ReverseAddr Exchange txp cache rr w Ha)).
  apply IH. exact Hnone.
Qed.

Lemma loadReplies_no_address (txp : option Transport.Transport)
    (replies : list (option Dns.Msg)) :
  (forall reply, In reply replies -> reply <> None) ->
  addressRRs replies = [] ->
  forall (cache : gmap string string) (w : World),
    loadReplies txp cache replies w = Ret cache w.
Proof.
  induction replies as [|reply rest IH]; intros Hnn Hnone cache w; [reflexivity|].
  destruct reply as [m|]; [|exfalso; apply (Hnn None); [left|]; reflexivity].
  rewrite addressRRs_cons_Some in Hnone. apply app_eq_nil in Hnone as [Hm Hrest].
  cbn [loadReplies].
  rewrite (bind_Ret _ _ _ _ _ (loadAnswers_no_address txp (Dns.Answer m) Hm cache w)).
  apply IH; [intros r Hr; apply Hnn; right; exact Hr | exact Hrest].
Qed.

(** X14.  On an entry whose replies are all present and hold no A or
    AAAA record (in particular on an entry without replies) LoadPTRs
    returns with any transport, a nil one included: nothing is drawn,
    sent or logged, and the cache is the one the entry had, an empty map
    in place of a nil one. *)
Theorem LoadPTRs_no_address_records :
  forall (e : Entry) (txp : option Transport.Transport) (w : World),
    (forall reply, In reply (Replies e) -> reply <> None) ->
    addressRRs (Replies e) = [] ->
    LoadPTRs e txp w = Ret (set_PTRs (Some (initialCache e)) e) w.
Proof.
  intros e txp w Hnn Hnone. unfold LoadPTRs. fold (initialCache e).
  rewrite (bind_Ret _ _ _ _ _
             (loadReplies_no_address txp (Replies e) Hnn Hnone (initialCache e) w)).
  reflexivity.
Qed.

(** What a run that returns did to the cache, reply by reply. *)
Lemma loadAnswers_cache (txp : option Transport.Transport) (rrs : list Dns.RR) :
  forall (cache cache' : gmap string string) (w w' : World),
    loadAnswers txp cache rrs w = Ret cache' w' ->
    (forall k, is_Some (cache !! k) -> is_Some (cache' !! k))
    /\ (forall k, ~ In k (flat_map textOf (addressesOf rrs)) ->
                  cache' !! k = cache !! k).
Proof.
  induction rrs as [|rr rest IH]; intros cache cache' w w'; cbn [loadAnswers].
  - intros [= <- _]. auto.
  - intros H. apply bind_returns_inv in H as (c1 & w1 & Hrr & Hrest).
    apply IH in Hrest as [Hmono Hother].
    rewrite addressesOf_cons.
    apply loadRR_returns_inv in Hrr
      as [(Ha & -> & ->)|(a & t & qname & Ha & _ & _ & _ & _ & _ & Hc)].
    + rewrite Ha. auto.
    + rewrite (addressOf_isAddressRR rr a Ha). cbn [flat_map]. rewrite Ha.
      destruct Hc as [->|[ptr ->]].
      * split; [exact Hmono|]. intros k Hk. apply Hother.
        intros Hin. apply Hk. right. exact Hin.
      * split.
        -- intros k Hk. apply Hmono.
           destruct (decide (IP_String a = k)) as [<-|Hne].
           ++ rewrite lookup_insert_eq. eauto.
           ++ rewrite lookup_insert_ne by exact Hne. exact Hk.
        -- intros k Hk. rewrite Hother by (intros Hin; apply Hk; right; exact Hin).
           apply lookup_insert_ne. intros Heq. apply Hk. left. exact Heq.
Qed.

Lemma loadReplies_cache (txp : option Transport.Transport)
    (replies : list (option Dns.Msg)) :
  forall (cache cache' : gmap string string) (w w' : World),
    loadReplies txp cache replies w = Ret cache' w' ->
    (forall k, is_Some (cache !! k) -> is_Some (cache' !! k))
    /\ (forall k, ~ In k (addressTexts IP_String replies) ->
                  cache' !! k = cache !! k).
Proof.
  induction replies as [|reply rest IH]; intros cache cache' w w'; cbn [loadReplies].
  - intros [= <- _]. auto.
  - destruct reply as [m|]; [|discriminate].
    intros H. apply bind_returns_inv in H as (c1 & w1 & Hm & Hrest).
    apply loadAnswers_cache in Hm as [Hm1 Hm2]. apply IH in Hrest as [Hr1 Hr2].
    rewrite addressTexts_cons_Some. split; [auto|].
    intros k Hk. rewrite Hr2, Hm2; [reflexivity| |];
      intros Hin; apply Hk, in_or_app; auto.
Qed.

(** X15.  A run of LoadPTRs that returns changes the PTR cache only: the
    entry is otherwise as before.  No cache entry is removed, and every
    key that is not the text of the address of an A or AAAA answer
    record has the value it had before (none, if it had none). *)
Theorem LoadPTRs_cache_keys :
  forall (e e' : Entry) (txp : option Transport.Transport) (w w' : World),
    LoadPTRs e txp w = Ret e' w' ->
    exists cache',
      e' = set_PTRs (Some cache') e
      /\ (forall k, is_Some (initialCache e !! k) -> is_Some (cache' !! k))
      /\ (forall k, ~ In k (addressTexts IP_String (Replies e)) ->
                    cache' !! k = initialCache e !! k).
Proof.
  intros e e' txp w w' H. unfold LoadPTRs in H. fold (initialCache e) in H.
  apply bind_returns_inv in H as (c & w1 & Hrun & Hret).
  injection Hret as <- <-. exists c. split; [reflexivity|].
  exact (loadReplies_cache txp (Replies e) _ _ _ _ Hrun).
Qed.

Lemma seq_offset (k n : nat) : map (fun i => (k + i)%nat) (seq 0 n) = seq k n.
Proof.
  revert k. induction n as [|n IH]; intros k; [reflexivity|].
  cbn [seq map]. f_equal; [lia|].
  rewrite <- seq_shift, map_map, <- (IH (S k)).
  apply map_ext. intros i. lia.
Qed.

(** What a run that returns drew and sent, reply by reply. *)
Lemma loadAnswers_trace (txp : option Transport.Transport) (rrs : list Dns.RR) :
  forall (cache cache' : gmap string string) (w w' : World),
    loadAnswers txp cache rrs w = Ret cache' w' ->
    entropy w' = entropy w
    /\ exists new,
         sent w' = (sent w ++ new)%list
         /\ length new = length (addressesOf rrs)
         /\ draws w' = (draws w + length new)%nat
         /\ Forall (fun m => exists qname, m = ptrQuery qname (Dns.Id m)) new
         /\ map Dns.Id new
            = map (fun i => uint16 (entropy w (draws w + i)%nat)) (seq 0 (length new)).
Proof.
  induction rrs as [|rr rest IH]; intros cache cache' w w'; cbn [loadAnswers].
  - intros [= _ <-]. split; [reflexivity|]. exists []. simpl.
    rewrite app_nil_r. repeat split; [lia | constructor].
  - intros H. apply bind_returns_inv in H as (c1 & w1 & Hrr & Hrest).
    apply IH in Hrest as (He & new & Hs & Hlen & Hd & Hshape & Hids).
    rewrite addressesOf_cons.
    apply loadRR_returns_inv in Hrr
      as [(Ha & _ & ->)|(a & t & qname & Ha & _ & _ & He1 & Hd1 & Hs1 & _)].
    + rewrite Ha. split; [exact He|]. exists new. auto.
    + rewrite (addressOf_isAddressRR rr a Ha).
      split; [congruence|].
      exists (ptrQuery qname (uint16 (entropy w (draws w))) :: new).
      split; [rewrite Hs, Hs1, <- app_assoc; reflexivity|].
      split; [simpl; congruence|].
      split; [rewrite Hd, Hd1; simpl; lia|].
      split; [constructor; [exists qname; reflexivity | exact Hshape]|].
      cbn [map length seq]. f_equal.
      * replace (draws w + 0)%nat with (draws w) by lia. reflexivity.
      * rewrite Hids, He1, Hd1, <- seq_shift, map_map.
        apply map_ext. intros i. f_equal. f_equal. lia.
Qed.

Lemma loadReplies_trace (txp : option Transport.Transport)
    (replies : list (option Dns.Msg)) :
  forall (cache cache' : gmap string string) (w w' : World),
    loadReplies txp cache replies w = Ret cache' w' ->
    entropy w' = entropy w
    /\ exists new,
         sent w' = (sent w ++ new)%list
         /\ length new = length (addressRRs replies)
         /\ draws w' = (draws w + length new)%nat
         /\ Forall (fun m => exists qname, m = ptrQuery qname (Dns.Id m)) new
         /\ map Dns.Id new
            = map (fun i => uint16 (entropy w (draws w + i)%nat)) (seq 0 (length new)).
Proof.
  induction replies as [|reply rest IH]; intros cache cache' w w'; cbn [loadReplies].
  - intros [= _ <-]. split; [reflexivity|]. exists []. simpl.
    rewrite app_nil_r. repeat split; [lia | constructor].
  - destruct reply as [m|]; [|discriminate].
    intros H. apply bind_returns_inv in H as (c1 & w1 & Hm & Hrest).
    apply loadAnswers_trace in Hm as (He1 & n1 & Hs1 & Hl1 & Hd1 & Hsh1 & Hid1).
    apply IH in Hrest as (He2 & n2 & Hs2 & Hl2 & Hd2 & Hsh2 & Hid2).
    split; [congruence|]. exists (n1 ++ n2)%list.
    split; [rewrite Hs2, Hs1, <- app_assoc; reflexivity|].
    split; [rewrite addressRRs_cons_Some, !length_app; congruence|].
    split; [rewrite Hd2, Hd1, length_app; lia|].
    split; [apply Forall_app; auto|].
    rewrite map_app, Hid1, Hid2, length_app, seq_app, map_app. f_equal.
    rewrite He1, Hd1. cbn [Nat.add].
    rewrite <- (map_id (seq (length n1) (length n2))) at 1.
    replace (seq (length n1) (length n2))
      with (map (fun i => (length n1 + i)%nat) (seq 0 (length n2))).
    + rewrite !map_map. apply map_ext. intros i. f_equal. f_equal. lia.
    + apply seq_offset.
Qed.

(** X16.  A run of LoadPTRs that returns has drawn one identifier and
    sent one message per A or AAAA answer record and nothing else: the
    messages are appended to those sent before, each is a PTR query (one
    question of type PTR in class IN, recursion desired), and the i-th of
    them carries the i-th identifier drawn. *)
Theorem LoadPTRs_trace :
  forall (e e' : Entry) (txp : option Transport.Transport) (w w' : World),
    LoadPTRs e txp w = Ret e' w' ->
    exists new,
      sent w' = (sent w ++ new)%list
      /\ length new = length (addressRRs (Replies e))
      /\ draws w' = (draws w + length new)%nat
      /\ Forall (fun m => exists qname, m = ptrQuery qname (Dns.Id m)) new
      /\ map Dns.Id new
         = map (fun i => uint16 (entropy w (draws w + i)%nat)) (seq 0 (length new)).
Proof.
  intros e e' txp w w' H. unfold LoadPTRs in H.
  apply bind_returns_inv in H as (c & w1 & Hrun & Hret).
  injection Hret as _ <-.
  exact (proj2 (loadReplies_trace txp (Replies e) _ _ _ _ Hrun)).
Qed.

End LoadPTRsRuns.

(** ** LoadPTRs: when it returns *)

Section LoadPTRsTotal.

Variable IP_String : Net.IP -> string.
Variable ReverseAddr : string -> string + string.
Variable Exchange :
  Transport.Transport -> list Dns.Msg -> Dns.Msg -> option Dns.Msg * option string.

Local Abbreviation loadRR := (loadRR IP_String ReverseAddr Exchange).
Local Abbreviation loadAnswers := (loadAnswers IP_String ReverseAddr Exchange).
Local Abbreviation loadReplies := (loadReplies IP_String ReverseAddr Exchange).
Local Abbreviation LoadPTRs := (LoadPTRs IP_String ReverseAddr Exchange).

Lemma loadRR_returns (t : Transport.Transport) (rr : Dns.RR) :
  ptrFirst Exchange t -> reversible IP_String ReverseAddr rr ->
  forall (cache : gmap string string) (w : World),
  exists cache' w', loadRR (Some t) cache rr w = Ret cache' w'.
Proof.
  intros Hptr Hrev cache w. destruct (isAddressRR rr) eqn:Ha.
  - destruct (reversible_addressOf IP_String ReverseAddr rr Ha Hrev)
      as (a & qname & Haddr & Hq).
    rewrite (loadRR_addressOf IP_String ReverseAddr Exchange (Some t) cache rr a w Haddr).
    rewrite (resolvePTR_run ReverseAddr Exchange t cache _ qname w Hq). cbv zeta.
    destruct (Exchange t (sent w) (ptrQuery qname (uint16 (entropy w (draws w)))))
      as [resp [err|]] eqn:Hex; simpl; [eauto|].
    destruct resp as [resp|]; [|eauto].
    destruct (Dns.Answer resp) as [|first rest] eqn:Hans; [eauto|].
    destruct (Hptr _ _ resp first rest Hex Hans) as [ptr ->]. eauto.
  - rewrite (loadRR_other IP_String ReverseAddr Exchange (Some t) cache rr w Ha). eauto.
Qed.

Lemma loadAnswers_returns (t : Transport.Transport) (rrs : list Dns.RR) :
  ptrFirst Exchange t -> Forall (reversible IP_String ReverseAddr) rrs ->
  forall (cache : gmap string string) (w : World),
  exists cache' w', loadAnswers (Some t) cache rrs w = Ret cache' w'.
Proof.
  intros Hptr Hrev. induction Hrev as [|rr rest Hrr _ IH]; intros cache w.
  - simpl. unfold ret. eauto.
  - destruct (loadRR_returns t rr Hptr Hrr cache w) as (c1 & w1 & H1).
    destruct (IH c1 w1) as (c2 & w2 & H2).
    exists c2, w2. cbn [loadAnswers]. rewrite (bind_Ret _ _ _ _ _ H1). exact H2.
Qed.

(** X17.  LoadPTRs returns to its caller whenever every reply is
    present, every address record has an address of the announced type
    with a reverse name, the transport is not nil, and no reply of the
    transport starts its answers with a record that is not a PTR record;
    failed exchanges, nil replies of the transport and replies without
    answers do not prevent it. *)
Theorem LoadPTRs_returns :
  forall (e : Entry) (t : Transport.Transport) (w : World),
    (forall reply, In reply (Replies e) -> reply <> None) ->
    (forall m rr, In (Some m) (Replies e) -> In rr (Dns.Answer m) ->
                  reversible IP_String ReverseAddr rr) ->
    ptrFirst Exchange t ->
    exists e' w', LoadPTRs e (Some t) w = Ret e' w'.
Proof.
  intros e t w Hnn Hrev Hptr. unfold LoadPTRs.
  generalize (match PTRs e with Some m => m | None => ∅ end) as cache.
  assert (Hrun : forall replies,
             (forall reply, In reply replies -> reply <> None) ->
             (forall m rr, In (Some m) replies -> In rr (Dns.Answer m) ->
                           reversible IP_String ReverseAddr rr) ->
             forall cache w, exists c' w',
               loadReplies (Some t) cache replies w = Ret c' w').
  { induction replies as [|reply rest IH]; intros Hnn' Hrev' cache w0.
    - simpl. unfold ret. eauto.
    - destruct reply as [m|]; [|exfalso; apply (Hnn' None); [left|]; reflexivity].
      assert (Hm : Forall (reversible IP_String ReverseAddr) (Dns.Answer m)).
      { apply List.Forall_forall. intros rr Hin. apply (Hrev' m); [left; reflexivity | exact Hin]. }
      destruct (loadAnswers_returns t (Dns.Answer m) Hptr Hm cache w0) as (c1 & w1 & H1).
      destruct (IH (fun r Hr => Hnn' r (or_intror Hr))
                   (fun m' rr Hin => Hrev' m' rr (or_intror Hin)) c1 w1)
        as (c2 & w2 & H2).
      exists c2, w2. cbn [loadReplies]. rewrite (bind_Ret _ _ _ _ _ H1). exact H2. }
  intros cache. destruct (Hrun (Replies e) Hnn Hrev cache w) as (c' & w' & H).
  eexists _, w'. rewrite (bind_Ret _ _ _ _ _ H). reflexivity.
Qed.

(** With a transport whose every reply starts with a PTR record, each
    address record leaves its address in the cache. *)
Lemma loadAnswers_answering (t : Transport.Transport) (rrs : list Dns.RR) :
  (forall history q, exists resp first rest ptr,
      Exchange t history q = (Some resp, None)
      /\ Dns.Answer resp = first :: rest /\ Dns.Data first = Dns.RD_PTR ptr) ->
  Forall (reversible IP_String ReverseAddr) rrs ->
  forall (cache : gmap string string) (w : World),
  exists cache' w',
    loadAnswers (Some t) cache rrs w = Ret cache' w'
    /\ (forall k, is_Some (cache !! k) -> is_Some (cache' !! k))
    /\ (forall rr a, In rr rrs -> addressOf rr = Some a ->
                     is_Some (cache' !! IP_String a))
    /\ warnings (log w') = warnings (log w).
Proof.
  intros Hans Hrev. induction Hrev as [|rr rest Hrr _ IH]; intros cache w.
  - exists cache, w. simpl. repeat split; auto. intros rr a [].
  - cbn [loadAnswers]. destruct (isAddressRR rr) eqn:Ha.
    + destruct (reversible_addressOf IP_String ReverseAddr rr Ha Hrr)
        as (a & qname & Haddr & Hq).
      pose proof (loadRR_addressOf IP_String ReverseAddr Exchange (Some t) cache rr a w Haddr)
        as Hload.
      rewrite (resolvePTR_run ReverseAddr Exchange t cache _ qname w Hq) in Hload.
      cbv zeta in Hload.
      destruct (Hans (sent w) (ptrQuery qname (uint16 (entropy w (draws w)))))
        as (resp & first & rest' & ptr & Hex & Hanswer & Hdata).
      rewrite Hex in Hload. simpl in Hload. rewrite Hanswer, Hdata in Hload.
      destruct (IH (<[IP_String a := ptr]> cache)
                   (afterExchange w (ptrQuery qname (uint16 (entropy w (draws w))))))
        as (c' & w' & Hrun & Hmono & Hkeys & Hwarn).
      exists c', w'. rewrite (bind_Ret _ _ _ _ _ Hload).
      split; [exact Hrun|]. split; [|split; [|exact Hwarn]].
      * intros k Hk. apply Hmono.
        destruct (decide (IP_String a = k)) as [<-|Hne].
        -- rewrite lookup_insert_eq. eauto.
        -- rewrite lookup_insert_ne by exact Hne. exact Hk.
      * intros rr' a' [<-|Hin] Ha'.
        -- rewrite Haddr in Ha'. injection Ha' as <-.
           apply Hmono. rewrite lookup_insert_eq. eauto.
        -- exact (Hkeys rr' a' Hin Ha').
    + destruct (IH cache w) as (c' & w' & Hrun & Hmono & Hkeys & Hwarn).
      exists c', w'.
      rewrite (bind_Ret _ _ _ _ _
                 (loadRR_other IP_String ReverseAddr Exchange (Some t) cache rr w Ha)).
      split; [exact Hrun|]. split; [exact Hmono|]. split; [|exact Hwarn].
      intros rr' a' [<-|Hin] Ha'.
      * apply addressOf_isAddressRR in Ha'. congruence.
      * exact (Hkeys rr' a' Hin Ha').
Qed.

(** X18.  With a transport whose every reply starts with a PTR record,
    on an entry whose replies are all present and whose address records
    all have a reverse name, LoadPTRs returns with a cache that has an
    entry for the address of every A and AAAA answer record of every
    reply, keeps every entry it had, and logs no warning. *)
Theorem LoadPTRs_all_cached :
  forall (e : Entry) (t : Transport.Transport) (w : World),
    (forall history q, exists resp first rest ptr,
        Exchange t history q = (Some resp, None)
        /\ Dns.Answer resp = first :: rest /\ Dns.Data first = Dns.RD_PTR ptr) ->
    (forall reply, In reply (Replies e) -> reply <> None) ->
    (forall m rr, In (Some m) (Replies e) -> In rr (Dns.Answer m) ->
                  reversible IP_String ReverseAddr rr) ->
    exists cache' w',
      LoadPTRs e (Some t) w = Ret (set_PTRs (Some cache') e) w'
      /\ (forall k, is_Some (initialCache e !! k) -> is_Some (cache' !! k))
      /\ (forall m rr a, In (Some m) (Replies e) -> In rr (Dns.Answer m) ->
                         addressOf rr = Some a -> is_Some (cache' !! IP_String a))
      /\ warnings (log w') = warnings (log w).
Proof.
  intros e t w Hans Hnn Hrev. unfold LoadPTRs. fold (initialCache e).
  generalize (initialCache e) as cache.
  assert (Hrun : forall replies,
             (forall reply, In reply replies -> reply <> None) ->
             (forall m rr, In (Some m) replies -> In rr (Dns.Answer m) ->
                           reversible IP_String ReverseAddr rr) ->
             forall cache w0, exists c' w',
               loadReplies (Some t) cache replies w0 = Ret c' w'
               /\ (forall k, is_Some (cache !! k) -> is_Some (c' !! k))
               /\ (forall m rr a, In (Some m) replies -> In rr (Dns.Answer m) ->
                                  addressOf rr = Some a -> is_Some (c' !! IP_String a))
               /\ warnings (log w') = warnings (log w0)).
  { induction replies as [|reply rest IH]; intros Hnn' Hrev' cache w0.
    - exists cache, w0. simpl. repeat split; auto. intros m rr a [].
    - destruct reply as [m|]; [|exfalso; apply (Hnn' None); [left|]; reflexivity].
      assert (Hm : Forall (reversible IP_String ReverseAddr) (Dns.Answer m)).
      { apply List.Forall_forall. intros rr Hin. apply (Hrev' m); [left; reflexivity | exact Hin]. }
      destruct (loadAnswers_answering t (Dns.Answer m) Hans Hm cache w0)
        as (c1 & w1 & H1 & Hmono1 & Hkeys1 & Hwarn1).
      destruct (IH (fun r Hr => Hnn' r (or_intror Hr))
                   (fun m' rr Hin => Hrev' m' rr (or_intror Hin)) c1 w1)
        as (c2 & w2 & H2 & Hmono2 & Hkeys2 & Hwarn2).
      exists c2, w2. cbn [loadReplies]. rewrite (bind_Ret _ _ _ _ _ H1).
      split; [exact H2|]. split; [auto|]. split; [|congruence].
      intros m' rr a [[= <-]|Hin] Hrr Ha.
      + apply Hmono2. exact (Hkeys1 rr a Hrr Ha).
      + exact (Hkeys2 m' rr a Hin Hrr Ha). }
  intros cache. destruct (Hrun (Replies e) Hnn Hrev cache w)
    as (c' & w' & H & Hmono & Hkeys & Hwarn).
  exists c', w'. rewrite (bind_Ret _ _ _ _ _ H). auto.
Qed.

End LoadPTRsTotal.

(** ** Runs of LoadPTRs on concrete entries *)

Lemma LoadPTRs_no_address_records_witness :
  LoadPTRs IPv4.IP_String IPv4.ReverseAddr failingExchange
           (entryWith [Some (replyWith [rrCNAME "www.example.com." "example.com."]);
                       Some (replyWith [])])
           None (world0 (fun _ => 7))
  = Ret (set_PTRs (Some ∅)
           (entryWith [Some (replyWith [rrCNAME "www.example.com." "example.com."]);
                       Some (replyWith [])]))
        (world0 (fun _ => 7)).
Proof.
  apply (LoadPTRs_no_address_records IPv4.IP_String IPv4.ReverseAddr failingExchange
           (entryWith [Some (replyWith [rrCNAME "www.example.com." "example.com."]);
                       Some (replyWith [])])
           None (world0 (fun _ => 7))).
  - intros reply [<-|[<-|[]]]; discriminate.
  - reflexivity.
Defined.

Lemma LoadPTRs_cache_keys_witness :
  exists e' w',
    LoadPTRs IPv4.IP_String IPv4.ReverseAddr flakyExchange
             (set_PTRs (Some {[ "198.51.100.9" := "old.example." ]})
                (entryWith [Some (replyWith [rrA "example.com." [192; 0; 2; 1];
                                             rrA "example.com." [192; 0; 2; 2]])]))
             (Some plainTransport) (world0 (fun _ => 7)) = Ret e' w'
    /\ exists cache',
         PTRs e' = Some cache'
         /\ cache' !! "198.51.100.9" = Some "old.example."
         /\ cache' !! "203.0.113.1" = None.
Proof.
  eexists _, _. split; [vm_compute; reflexivity|].
  destruct (LoadPTRs_cache_keys IPv4.IP_String IPv4.ReverseAddr flakyExchange
              (set_PTRs (Some {[ "198.51.100.9" := "old.example." ]})
                 (entryWith [Some (replyWith [rrA "example.com." [192; 0; 2; 1];
                                              rrA "example.com." [192; 0; 2; 2]])]))
              _ (Some plainTransport) (world0 (fun _ => 7)) _
              ltac:(vm_compute; reflexivity))
    as (cache' & He & _ & Hother).
  exists cache'. split; [exact (f_equal PTRs He)|]. split.
  - rewrite Hother; [reflexivity|]. simpl. intros [H|[H|[]]]; discriminate.
  - rewrite Hother; [reflexivity|]. simpl. intros [H|[H|[]]]; discriminate.
Defined.

Lemma LoadPTRs_trace_witness :
  exists e' w' new,
    LoadPTRs IPv4.IP_String IPv4.ReverseAddr flakyExchange
             (entryWith [Some (replyWith [rrA "example.com." [192; 0; 2; 1];
                                          rrCNAME "www.example.com." "example.com.";
                                          rrA "example.com." [192; 0; 2; 2]])])
             (Some plainTransport) (world0 (fun n => Z.of_nat n + 40)) = Ret e' w'
    /\ sent w' = new
    /\ length new = 2%nat
    /\ draws w' = 2%nat
    /\ map Dns.Id new = [40; 41].
Proof.
  eexists _, _, _. split; [vm_compute; reflexivity|].
  destruct (LoadPTRs_trace IPv4.IP_String IPv4.ReverseAddr flakyExchange
              (entryWith [Some (replyWith [rrA "example.com." [192; 0; 2; 1];
                                           rrCNAME "www.example.com." "example.com.";
                                           rrA "example.com." [192; 0; 2; 2]])])
              _ (Some plainTransport) (world0 (fun n => Z.of_nat n + 40)) _
              ltac:(vm_compute; reflexivity))
    as (new & Hs & Hl & Hd & _ & Hid).
  simpl in Hs. subst new. split; [reflexivity|]. split; [exact Hl|].
  split; [exact Hd|]. exact Hid.
Defined.

Lemma LoadPTRs_returns_witness :
  exists e' w',
    LoadPTRs IPv4.IP_String IPv4.ReverseAddr flakyExchange
             (entryWith [Some (replyWith [rrA "example.com." [192; 0; 2; 1];
                                          rrA "example.com." [192; 0; 2; 2]])])
             (Some plainTransport) (world0 (fun _ => 7)) = Ret e' w'.
Proof.
  apply (LoadPTRs_returns IPv4.IP_String IPv4.ReverseAddr flakyExchange
           (entryWith [Some (replyWith [rrA "example.com." [192; 0; 2; 1];
                                        rrA "example.com." [192; 0; 2; 2]])])
           plainTransport (world0 (fun _ => 7))).
  - intros reply [<-|[]]. discriminate.
  - intros m rr [[= <-]|[]] [<-|[<-|[]]]; unfold reversible; simpl.
    + exists [192; 0; 2; 1], "1.2.0.192.in-addr.arpa.". split; reflexivity.
    + exists [192; 0; 2; 2], "2.2.0.192.in-addr.arpa.". split; reflexivity.
  - intros history q resp first rest Hex Hans. unfold flakyExchange in Hex.
    destruct (Nat.even (length history)); [discriminate|].
    injection Hex as <-. simpl in Hans. injection Hans as <- _.
    exists "two.example.". reflexivity.
Defined.

Lemma LoadPTRs_all_cached_witness :
  exists cache' w',
    LoadPTRs IPv4.IP_String IPv4.ReverseAddr ptrExchange
             (entryWith [Some (replyWith [rrA "example.com." [192; 0; 2; 1]]);
                         Some (replyWith [rrA "example.com." [192; 0; 2; 2]])])
             (Some plainTransport) (world0 (fun _ => 7))
    = Ret (set_PTRs (Some cache')
             (entryWith [Some (replyWith [rrA "example.com." [192; 0; 2; 1]]);
                         Some (replyWith [rrA "example.com." [192; 0; 2; 2]])])) w'
    /\ is_Some (cache' !! "192.0.2.1") /\ is_Some (cache' !! "192.0.2.2")
    /\ warnings (log w') = [].
Proof.
  destruct (LoadPTRs_all_cached IPv4.IP_String IPv4.ReverseAddr ptrExchange
              (entryWith [Some (replyWith [rrA "example.com." [192; 0; 2; 1]]);
                          Some (replyWith [rrA "example.com." [192; 0; 2; 2]])])
              plainTransport (world0 (fun _ => 7)))
    as (cache' & w' & Hrun & _ & Hkeys & Hwarn).
  - intros history q. do 4 eexists. repeat split; reflexivity.
  - intros reply [<-|[<-|[]]]; discriminate.
  - intros m rr [[= <-]|[[= <-]|[]]] [<-|[]]; unfold reversible; simpl.
    + exists [192; 0; 2; 1], "1.2.0.192.in-addr.arpa.". split; reflexivity.
    + exists [192; 0; 2; 2], "2.2.0.192.in-addr.arpa.". split; reflexivity.
  - exists cache', w'. split; [exact Hrun|]. split; [|split; [|exact Hwarn]].
    + apply (Hkeys (replyWith [rrA "example.com." [192; 0; 2; 1]])
                   (rrA "example.com." [192; 0; 2; 1]) [192; 0; 2; 1]);
        [left; reflexivity | left; reflexivity | reflexivity].
    + apply (Hkeys (replyWith [rrA "example.com." [192; 0; 2; 2]])
                   (rrA "example.com." [192; 0; 2; 2]) [192; 0; 2; 2]);
        [right; left; reflexivity | left; reflexivity | reflexivity].
Defined.

(** ** createQuery on IPv4 prefixes *)

(** X19.  For a client subnet that is an IPv4 prefix [addr/n] (dotted
    quad, decimal [n] of at most 32), every query of a non-empty batch
    carries one subnet option with family 1 (IPv4), source netmask [n],
    scope netmask 0 and the parsed address. *)
Theorem createQuery_ipv4_subnet :
  forall (opts : Flags) (qType : Z) (rest : list Z) (w : World)
         (ip : Net.IP) (ipNet : Net.IPNet),
    IPv4.ParseCIDR (ClientSubnet opts) = Some (ip, ipNet) ->
    exists addr mask n queries w',
      GoStrings.Cut "/" (ClientSubnet opts) = Some (addr, mask)
      /\ IPv4.dtoi mask = Some n /\ 0 <= n <= 32
      /\ createQuery IPv4.ParseCIDR opts (qType :: rest) w = Ret queries w'
      /\ length queries = S (length rest)
      /\ Forall (fun q =>
                   exists s,
                     subnetOptions q = [s]
                     /\ Dns.Family s = 1
                     /\ Dns.SourceNetmask s = n
                     /\ Dns.SourceScope s = 0
                     /\ Dns.Address s = ip) queries.
Proof.
  intros opts qType rest w ip ipNet Hparse.
  destruct (IPv4_ParseCIDR_prefix _ ip ipNet Hparse)
    as (addr & mask & n & Hcut & Hn & Hrange & Hmask & Hto4).
  assert (Hne : GoStrings.nonEmpty (ClientSubnet opts) = true).
  { destruct (ClientSubnet opts); [discriminate | reflexivity]. }
  assert (Hok : subnetOK IPv4.ParseCIDR opts = true).
  { unfold subnetOK. rewrite Hparse. apply orb_true_r. }
  destruct (createQuery_returns IPv4.ParseCIDR opts (qType :: rest) w Hok)
    as (w' & Hrun & _).
  exists addr, mask, n. eexists _, w'.
  split; [exact Hcut|]. split; [exact Hn|]. split; [exact Hrange|].
  split; [exact Hrun|].
  split; [apply (expectedQueries_length IPv4.ParseCIDR opts (entropy w) (qType :: rest))|].
  apply expectedQueries_Forall. intros t id.
  eexists. split; [apply subnetOptions_expectedQuery; eassumption|]. simpl.
  destruct (Net.To4 ip); [|contradiction]. auto.
Qed.

Lemma createQuery_ipv4_subnet_witness :
  exists queries w',
    createQuery IPv4.ParseCIDR (queryFlags 7 false false false "10.1.2.3/9" "" 1232)
                [Dns.TypeA; Dns.TypeAAAA] (world0 (fun _ => 7)) = Ret queries w'
    /\ length queries = 2%nat
    /\ Forall (fun q =>
                 exists s,
                   subnetOptions q = [s]
                   /\ Dns.Family s = 1
                   /\ Dns.SourceNetmask s = 9
                   /\ Dns.SourceScope s = 0
                   /\ Dns.Address s = [0; 0; 0; 0; 0; 0; 0; 0; 0; 0; 255; 255; 10; 1; 2; 3])
              queries.
Proof.
  destruct (createQuery_ipv4_subnet
              (queryFlags 7 false false false "10.1.2.3/9" "" 1232)
              Dns.TypeA [Dns.TypeAAAA] (world0 (fun _ => 7)) _ _ eq_refl)
    as (addr & mask & n & queries & w' & Hcut & Hn & _ & Hrun & Hlen & Hall).
  vm_compute in Hcut. injection Hcut as <- <-.
  vm_compute in Hn. injection Hn as <-.
  exists queries, w'. split; [exact Hrun|]. split; [exact Hlen | exact Hall].
Defined.
